(** * duo_log_sync: consumer, checkpoint and syslog header

    A shallow embedding of [duologsync/consumer/consumer.py],
    [duologsync/consumer/syslog.py] and [duologsync/util.py]
    ([get_log_offset]), together with the part of the Python runtime
    those functions rely on, followed by the properties of the
    consumption / checkpoint / formatting pipeline. *)

From Stdlib Require Import ZArith String Ascii List Lia Bool.
From Stdlib Require Import DecimalString DecimalZ DecimalPos DecimalN DecimalFacts.
From stdpp Require Import gmap strings.
Import ListNotations.

Open Scope string_scope.
Open Scope Z_scope.

(** String concatenation unfolds on a literal prefix. *)
#[local] Arguments String.append !s1 s2 : simpl nomatch.

(* ===================================================================== *)
(** * The Python runtime, as far as the code uses it *)
(* ===================================================================== *)

Module Py.

(** Exceptions the modelled code can meet. [BrokenPipeError] and
    [ConnectionResetError] are subclasses of [OSError] (through
    [ConnectionError]); [json.JSONDecodeError] is a subclass of
    [ValueError] and is represented by it. *)
Inductive exn : Type :=
| ValueError (msg : string)
| KeyError (key : string)
| TypeError (msg : string)
| OSError (msg : string)
| BrokenPipeError (msg : string)
| ConnectionResetError (msg : string).

(** [isinstance(e, OSError)] *)
Definition is_OSError (e : exn) : bool :=
  match e with
  | OSError _ | BrokenPipeError _ | ConnectionResetError _ => true
  | _ => false
  end.

(** [isinstance(e, BrokenPipeError)] *)
Definition is_BrokenPipeError (e : exn) : bool :=
  match e with
  | BrokenPipeError _ => true
  | _ => false
  end.

(** [str(e)], as used by [f"{broken_pipe_error}"]. *)
Definition exn_str (e : exn) : string :=
  match e with
  | ValueError m | KeyError m | TypeError m | OSError m
  | BrokenPipeError m | ConnectionResetError m => m
  end.

(** A computation that returns a value or raises. *)
Definition result (A : Type) : Type := exn + A.
Abbreviation Return := (@inr exn _).
Abbreviation Raise := (@inl exn _).

(** ** Strings *)

Definition ascii_code (c : ascii) : Z := Z.of_N (N_of_ascii c).

(** [str.upper()] on one character; only ASCII letters change. *)
Definition char_upper (c : ascii) : ascii :=
  let n := ascii_code c in
  if (97 <=? n) && (n <=? 122) then ascii_of_N (Z.to_N (n - 32)) else c.

Fixpoint str_upper (s : string) : string :=
  match s with
  | EmptyString => EmptyString
  | String c r => String (char_upper c) (str_upper r)
  end.

(** [str(n)] / [f"{n}"] for an integer. *)
Definition str_of_int (z : Z) : string :=
  NilZero.string_of_int (Z.to_int z).

Fixpoint repeat_char (c : ascii) (n : nat) : string :=
  match n with
  | O => EmptyString
  | S k => String c (repeat_char c k)
  end.

(** ["%0<w>d" % n]: at least [w] characters, zeros on the left
    (after the sign for a negative number). *)
Definition zero_pad (w : nat) (n : Z) : string :=
  if n <? 0 then
    let d := str_of_int (- n) in
    String "-" (repeat_char "0" (pred w - String.length d) ++ d)
  else
    let d := str_of_int n in
    repeat_char "0" (w - String.length d) ++ d.

(** [sep.join(parts)] *)
Fixpoint str_join (sep : string) (parts : list string) : string :=
  match parts with
  | [] => ""
  | [p] => p
  | p :: ps => p ++ sep ++ str_join sep ps
  end.

(** Truth value of an optional string argument: [None] and [''] are
    false. *)
Definition truthy (o : option string) : bool :=
  match o with
  | None => false
  | Some s => negb (String.eqb s "")
  end.

Definition starts_with_slash (s : string) : bool :=
  match s with
  | String "/" _ => true
  | _ => false
  end.

Fixpoint ends_with_slash (s : string) : bool :=
  match s with
  | EmptyString => false
  | String c EmptyString => Ascii.eqb c "/"
  | String _ r => ends_with_slash r
  end.

(** [os.path.join(a, b)] (posixpath): an absolute [b] replaces [a];
    otherwise the two are joined by exactly one separator. *)
Definition os_path_join (a b : string) : string :=
  if starts_with_slash b then b
  else if String.eqb a "" || ends_with_slash a then a ++ b
  else a ++ "/" ++ b.

(** ** datetime *)

(** An aware or naive [datetime]; [tzinfo] is the UTC offset in seconds,
    [None] for a naive value. *)
Record datetime : Type := mk_datetime {
  year : Z; month : Z; day : Z;
  hour : Z; minute : Z; second : Z;
  microsecond : Z;
  tzinfo : option Z
}.

(** [timezone.utc] *)
Definition utc : option Z := Some 0.

(** The field ranges the [datetime] constructor enforces. *)
Definition datetime_ok (dt : datetime) : bool :=
  (1 <=? year dt) && (year dt <=? 9999) &&
  (1 <=? month dt) && (month dt <=? 12) &&
  (1 <=? day dt) && (day dt <=? 31) &&
  (0 <=? hour dt) && (hour dt <=? 23) &&
  (0 <=? minute dt) && (minute dt <=? 59) &&
  (0 <=? second dt) && (second dt <=? 59) &&
  (0 <=? microsecond dt) && (microsecond dt <=? 999999).

(** The UTC offset suffix of [isoformat]: sign, hours and minutes, and
    seconds only when they are not zero. *)
Definition format_offset (off : option Z) : string :=
  match off with
  | None => ""
  | Some o =>
      let sign := if o <? 0 then "-" else "+" in
      let a := Z.abs o in
      let hh := a / 3600 in
      let mm := (a mod 3600) / 60 in
      let ss := a mod 60 in
      sign ++ zero_pad 2 hh ++ ":" ++ zero_pad 2 mm ++
      (if ss =? 0 then "" else ":" ++ zero_pad 2 ss)
  end.

(** [dt.isoformat(sep='T', timespec='milliseconds')] *)
Definition isoformat_milliseconds (dt : datetime) : string :=
  zero_pad 4 (year dt) ++ "-" ++ zero_pad 2 (month dt) ++ "-" ++
  zero_pad 2 (day dt) ++ "T" ++
  zero_pad 2 (hour dt) ++ ":" ++ zero_pad 2 (minute dt) ++ ":" ++
  zero_pad 2 (second dt) ++ "." ++ zero_pad 3 (microsecond dt / 1000) ++
  format_offset (tzinfo dt).

(** [%b] in the C locale. *)
Definition month_abbr (m : Z) : string :=
  nth (Z.to_nat (m - 1))
      ["Jan"; "Feb"; "Mar"; "Apr"; "May"; "Jun";
       "Jul"; "Aug"; "Sep"; "Oct"; "Nov"; "Dec"] "".

(** [dt.strftime("%b %d %H:%M:%S")] *)
Definition strftime_bdHMS (dt : datetime) : string :=
  month_abbr (month dt) ++ " " ++ zero_pad 2 (day dt) ++ " " ++
  zero_pad 2 (hour dt) ++ ":" ++ zero_pad 2 (minute dt) ++ ":" ++
  zero_pad 2 (second dt).

(** Civil date of a day number counted from 1970-01-01 (proleptic
    Gregorian calendar). *)
Definition civil_from_days (days : Z) : Z * Z * Z :=
  let z := days + 719468 in
  let era := z / 146097 in
  let doe := z - era * 146097 in
  let yoe := (doe - doe / 1460 + doe / 36524 - doe / 146096) / 365 in
  let doy := doe - (365 * yoe + yoe / 4 - yoe / 100) in
  let mp := (5 * doy + 2) / 153 in
  let d := doy - (153 * mp + 2) / 5 + 1 in
  let m := if mp <? 10 then mp + 3 else mp - 9 in
  let y := yoe + era * 400 + (if m <=? 2 then 1 else 0) in
  (y, m, d).

(** [datetime.fromtimestamp(ts, tz=timezone.utc)] for an integer number
    of seconds; a year outside 1..9999 is rejected. *)
Definition fromtimestamp_utc (ts : Z) : result datetime :=
  let days := ts / 86400 in
  let secs := ts mod 86400 in
  let '(y, m, d) := civil_from_days days in
  if (1 <=? y) && (y <=? 9999) then
    Return {| year := y; month := m; day := d;
              hour := secs / 3600; minute := (secs mod 3600) / 60;
              second := secs mod 60; microsecond := 0; tzinfo := utc |}
  else Raise (ValueError ("year " ++ str_of_int y ++ " is out of range")).

(** ** JSON values *)

Set Warnings "-register-all".

(** The values [json.dumps] and [json.loads] exchange: a log record is a
    [JObj], an offset is any value. A Python [dict] keeps insertion
    order, so an object is an association list. Floating-point numbers
    are outside this model. *)
Inductive json : Type :=
| JNull
| JBool (b : bool)
| JInt (n : Z)
| JStr (s : string)
| JList (items : list json)
| JObj (members : list (string * json)).

(** [d[key]] *)
Fixpoint dict_get (key : string) (d : list (string * json)) : option json :=
  match d with
  | [] => None
  | (k, v) :: r => if String.eqb k key then Some v else dict_get key r
  end.

(** [d[key] = v]: an existing key keeps its position, a new one goes
    last. *)
Fixpoint dict_set (key : string) (v : json) (d : list (string * json))
  : list (string * json) :=
  match d with
  | [] => [(key, v)]
  | (k, w) :: r =>
      if String.eqb k key then (k, v) :: r else (k, w) :: dict_set key v r
  end.

Definition dquote : ascii := ascii_of_N 34.
Definition bslash : ascii := ascii_of_N 92.

Definition hex_digit (n : Z) : ascii :=
  if n <? 10 then ascii_of_N (Z.to_N (48 + n))
  else ascii_of_N (Z.to_N (87 + n)).

(** One character of a string literal under [ensure_ascii=True]. *)
Definition escape_char (c : ascii) : string :=
  let n := ascii_code c in
  if n =? 34 then String bslash (String dquote "")
  else if n =? 92 then String bslash (String bslash "")
  else if n =? 10 then String bslash "n"
  else if n =? 13 then String bslash "r"
  else if n =? 9 then String bslash "t"
  else if n =? 8 then String bslash "b"
  else if n =? 12 then String bslash "f"
  else if (32 <=? n) && (n <=? 126) then String c ""
  else String bslash "u00" ++
       String (hex_digit (n / 16)) (String (hex_digit (n mod 16)) "").

Fixpoint escape_body (s : string) : string :=
  match s with
  | EmptyString => ""
  | String c r => escape_char c ++ escape_body r
  end.

Definition json_quote (s : string) : string :=
  String dquote (escape_body s) ++ String dquote "".

(** [json.dumps(v)] with the default separators. *)
Fixpoint json_dumps (v : json) : string :=
  match v with
  | JNull => "null"
  | JBool true => "true"
  | JBool false => "false"
  | JInt n => str_of_int n
  | JStr s => json_quote s
  | JList items => "[" ++ str_join ", " (map json_dumps items) ++ "]"
  | JObj members =>
      "{" ++ str_join ", "
               (map (fun '(k, w) => json_quote k ++ ": " ++ json_dumps w)
                    members) ++ "}"
  end.

(** ** json.loads *)

Definition is_ws (c : ascii) : bool :=
  let n := ascii_code c in
  (n =? 32) || (n =? 9) || (n =? 10) || (n =? 13).

Fixpoint skip_ws (s : string) : string :=
  match s with
  | String c r => if is_ws c then skip_ws r else s
  | EmptyString => s
  end.

Definition is_digit (c : ascii) : bool :=
  let n := ascii_code c in (48 <=? n) && (n <=? 57).

(** The longest prefix of decimal digits, and what follows it. *)
Fixpoint scan_digits (s : string) : string * string :=
  match s with
  | String c r =>
      if is_digit c then let '(ds, rest) := scan_digits r in (String c ds, rest)
      else ("", s)
  | EmptyString => ("", "")
  end.

(** Does a fraction or an exponent follow the integer part? *)
Definition float_follows (s : string) : bool :=
  match s with
  | String c (String d r) =>
      let n := ascii_code c in
      if n =? 46 then is_digit d
      else if (n =? 101) || (n =? 69) then
        is_digit d ||
        (((ascii_code d =? 43) || (ascii_code d =? 45)) &&
         match r with String e _ => is_digit e | EmptyString => false end)
      else false
  | _ => false
  end.

(** A number: an optional minus sign, then either a single zero or a
    non-zero digit followed by digits. A literal with a fraction or an
    exponent denotes a float and has no value in this model; it is
    rejected. *)
Definition parse_number (s : string) : option (json * string) :=
  let '(neg, s1) :=
    match s with
    | String "-" r => (true, r)
    | _ => (false, s)
    end in
  let finish (n : Z) (rest : string) :=
    if float_follows rest then None
    else Some (JInt (if neg then - n else n), rest) in
  match s1 with
  | String "0" r => finish 0 r
  | String c _ =>
      if is_digit c then
        let '(ds, rest) := scan_digits s1 in
        match NilEmpty.uint_of_string ds with
        | Some d => finish (Z.of_N (N.of_uint d)) rest
        | None => None
        end
      else None
  | EmptyString => None
  end.

Definition hex_value (c : ascii) : option Z :=
  let n := ascii_code c in
  if (48 <=? n) && (n <=? 57) then Some (n - 48)
  else if (97 <=? n) && (n <=? 102) then Some (n - 87)
  else if (65 <=? n) && (n <=? 70) then Some (n - 55)
  else None.

(** The body of a string literal, after the opening quote. Characters
    are code points below 256, so a [\u] escape above that has no image
    here and is rejected. *)
Fixpoint parse_string (s : string) : option (string * string) :=
  match s with
  | EmptyString => None
  | String c r =>
      let n := ascii_code c in
      if n =? 34 then Some ("", r)
      else if n <? 32 then None
      else if n =? 92 then
        match r with
        | String e r' =>
            let k := ascii_code e in
            let lit (x : Z) (rest : string) :=
              match parse_string rest with
              | Some (body, rest') =>
                  Some (String (ascii_of_N (Z.to_N x)) body, rest')
              | None => None
              end in
            if k =? 34 then lit 34 r'
            else if k =? 92 then lit 92 r'
            else if k =? 47 then lit 47 r'
            else if k =? 98 then lit 8 r'
            else if k =? 102 then lit 12 r'
            else if k =? 110 then lit 10 r'
            else if k =? 114 then lit 13 r'
            else if k =? 116 then lit 9 r'
            else if k =? 117 then
              match r' with
              | String a (String b (String x (String y r''))) =>
                  match hex_value a, hex_value b, hex_value x, hex_value y with
                  | Some 0, Some 0, Some h, Some l => lit (16 * h + l) r''
                  | _, _, _, _ => None
                  end
              | _ => None
              end
            else None
        | EmptyString => None
        end
      else
        match parse_string r with
        | Some (body, rest) => Some (String c body, rest)
        | None => None
        end
  end.

Fixpoint strip_prefix (p s : string) : option string :=
  match p, s with
  | EmptyString, _ => Some s
  | String a p', String b s' =>
      if Ascii.eqb a b then strip_prefix p' s' else None
  | _, _ => None
  end.

(** The recursive-descent decoder. Every call consumes one unit of
    [fuel]; [json_loads] gives it enough for the whole text. *)
Fixpoint parse_value (fuel : nat) (s : string) {struct fuel}
  : option (json * string) :=
  match fuel with
  | O => None
  | S fuel' =>
      match s with
      | EmptyString => None
      | String c r =>
          let n := ascii_code c in
          if n =? 34 then
            match parse_string r with
            | Some (body, rest) => Some (JStr body, rest)
            | None => None
            end
          else if n =? 91 then
            match skip_ws r with
            | String "]" rest => Some (JList [], rest)
            | r' => parse_items fuel' r' []
            end
          else if n =? 123 then
            match skip_ws r with
            | String "}" rest => Some (JObj [], rest)
            | r' => parse_members fuel' r' []
            end
          else if n =? 110 then
            match strip_prefix "null" s with
            | Some rest => Some (JNull, rest)
            | None => None
            end
          else if n =? 116 then
            match strip_prefix "true" s with
            | Some rest => Some (JBool true, rest)
            | None => None
            end
          else if n =? 102 then
            match strip_prefix "false" s with
            | Some rest => Some (JBool false, rest)
            | None => None
            end
          else parse_number s
      end
  end
with parse_items (fuel : nat) (s : string) (acc : list json) {struct fuel}
  : option (json * string) :=
  match fuel with
  | O => None
  | S fuel' =>
      match parse_value fuel' s with
      | Some (v, rest) =>
          match skip_ws rest with
          | String "," rest' => parse_items fuel' (skip_ws rest') (v :: acc)
          | String "]" rest' => Some (JList (rev (v :: acc)), rest')
          | _ => None
          end
      | None => None
      end
  end
with parse_members (fuel : nat) (s : string) (acc : list (string * json))
  {struct fuel} : option (json * string) :=
  match fuel with
  | O => None
  | S fuel' =>
      match s with
      | String c r =>
          if ascii_code c =? 34 then
            match parse_string r with
            | Some (key, rest) =>
                match skip_ws rest with
                | String ":" rest1 =>
                    match parse_value fuel' (skip_ws rest1) with
                    | Some (v, rest2) =>
                        match skip_ws rest2 with
                        | String "," rest3 =>
                            parse_members fuel' (skip_ws rest3)
                                          (dict_set key v acc)
                        | String "}" rest3 =>
                            Some (JObj (dict_set key v acc), rest3)
                        | _ => None
                        end
                    | None => None
                    end
                | _ => None
                end
            | None => None
            end
          else None
      | EmptyString => None
      end
  end.

(** [json.loads(s)]: one value, surrounded by optional whitespace;
    anything else is a [JSONDecodeError]. *)
Definition json_loads (s : string) : result json :=
  match parse_value (2 * String.length s + 2) (skip_ws s) with
  | Some (v, rest) =>
      match skip_ws rest with
      | EmptyString => Return v
      | _ => Raise (ValueError "Extra data")
      end
  | None => Raise (ValueError "Expecting value")
  end.

(** ** bytes *)

(** [str.encode()]: UTF-8. A character is a code point below 256, so
    it takes one byte, or two from 128 on. *)
Definition utf8_char (c : ascii) : string :=
  let n := ascii_code c in
  if n <? 128 then String c ""
  else String (ascii_of_N (Z.to_N (192 + n / 64)))
              (String (ascii_of_N (Z.to_N (128 + n mod 64))) "").

Fixpoint encode (s : string) : string :=
  match s with
  | EmptyString => ""
  | String c r => utf8_char c ++ encode r
  end.

Definition newline : string := String (ascii_of_N 10) "".

(** ** Files *)

(** What a path names. A path that is not in the map names nothing, in
    a directory where a file can be created. [FBlocked] is a path that
    [open] refuses in either mode, with the text of the [OSError]: a
    directory on the way is missing or is not a directory
    ([FileNotFoundError], [NotADirectoryError]), or permission is
    denied ([PermissionError]). *)
Inductive fnode : Type :=
| FFile (content : string)
| FDir
| FBlocked (strerror : string).

(** [open(path).read()] *)
Definition file_read (fs : gmap string fnode) (path : string) : result string :=
  match fs !! path with
  | Some (FFile c) => Return c
  | Some FDir => Raise (OSError ("Is a directory: " ++ path))
  | Some (FBlocked strerror) => Raise (OSError (strerror ++ ": " ++ path))
  | None => Raise (OSError ("No such file or directory: " ++ path))
  end.

(** [f = open(path, 'w'); f.write(text); f.close()]: [open] raises an
    [OSError] when the path is a directory or is refused; otherwise the
    file is created or truncated and holds [text] afterwards. *)
Definition file_write (fs : gmap string fnode) (path text : string)
  : result (gmap string fnode) :=
  match fs !! path with
  | Some FDir => Raise (OSError ("Is a directory: " ++ path))
  | Some (FBlocked strerror) => Raise (OSError (strerror ++ ": " ++ path))
  | Some (FFile _) | None => Return (<[path := FFile text]> fs)
  end.

End Py.

Import Py.

(* ===================================================================== *)
(** * Collaborators outside the three source files *)
(* ===================================================================== *)

(** A log record: a Python [dict] with string keys. *)
Definition record : Type := list (string * json).

Inductive level : Type := INFO | WARNING.

(** What a consumer (or the checkpoint reader) does to the outside,
    oldest first. *)
Inductive event : Type :=
| EvLog (msg : string) (lvl : option level)
| EvShutdown (reason : string)
| EvFormat (log : record)
| EvWrite (data : string)
| EvCheckpoint (log_type : string) (log_offset : json)
               (child_account_id : option string).

(** The process: the running flag, the files, and the events so far. *)
Record World : Type := mk_world {
  running : bool;
  fs : gmap string fnode;
  trace : list event
}.

Definition emit (e : event) (w : World) : World :=
  {| running := running w; fs := fs w; trace := (trace w ++ [e])%list |}.

Definition set_fs (f : gmap string fnode) (w : World) : World :=
  {| running := running w; fs := f; trace := trace w |}.

(** Another task requested shutdown while this one was suspended. *)
Definition interfere (stop : bool) (w : World) : World :=
  {| running := running w && negb stop; fs := fs w; trace := trace w |}.

Module Program.

(** Modelled from the spec: [Program.is_running] of
    [duologsync/program.py], the Coordinator's [isRunning() -> bool],
    the process-wide running flag. *)
Definition is_running (w : World) : bool := running w.

(** Modelled from the spec: [Program.initiate_shutdown] of
    [duologsync/program.py], the Coordinator's
    [requestShutdown(reason)]: it clears the running flag. *)
Definition initiate_shutdown (reason : string) (w : World) : World :=
  {| running := false; fs := fs w;
     trace := (trace w ++ [EvShutdown reason])%list |}.

(** Modelled from the spec: [Program.log] of [duologsync/program.py],
    the Coordinator's [log(message, level)]; [None] is an omitted
    level. *)
Definition log (msg : string) (lvl : option level) (w : World) : World :=
  emit (EvLog msg lvl) w.

End Program.

Module Config.

(** The constants and accessors of [duologsync/config.py] the code
    reads; their values are parameters. *)
Record t : Type := mk {
  CEF : string;
  JSON : string;
  AUTH : string;
  get_syslog_enabled : bool;
  get_syslog_format : string;
  get_checkpoint_dir : string;
  get_api_offset : Z
}.

End Config.

(* ===================================================================== *)
(** * duologsync/consumer/syslog.py *)
(* ===================================================================== *)

Module syslog.

Definition DEFAULT_PRIORITY : Z := 38.
Definition SYSLOG_VERSION : Z := 1.
Definition DEFAULT_FORMAT : string := "RFC5424".

(** The body of [get_syslog_header], with every argument given;
    [hostname] is what [socket.gethostname()] returns at the call. *)
Definition get_syslog_header_body (hostname : string)
    (format : string) (timestamp : datetime) (priority : Z)
  : result string :=
  let syslog_pri := "<" ++ str_of_int priority ++ ">" in
  if String.eqb (str_upper format) "RFC5424" then
    let syslog_pri_version := syslog_pri ++ str_of_int SYSLOG_VERSION in
    let syslog_date_time := isoformat_milliseconds timestamp in
    let first_part := str_join " " [syslog_pri_version; syslog_date_time] in
    Return (str_join " " [first_part; hostname])
  else if String.eqb (str_upper format) "RFC3164" then
    let syslog_date_time := strftime_bdHMS timestamp in
    let first_part := str_join "" [syslog_pri; syslog_date_time] in
    Return (str_join " " [first_part; hostname])
  else
    Raise (ValueError (format ++ " is not a supported syslog format")).

(** The function object created when the module is loaded: the
    expression [datetime.now(timezone.utc)] in the signature is
    evaluated by the [def] statement, and its value is kept as the
    default of [timestamp]. *)
Record module : Type := mk_module {
  timestamp_default : datetime
}.

(** What a call can observe of the machine. *)
Record env : Type := mk_env {
  clock : datetime;
  hostname : string
}.

(** [import duologsync.consumer.syslog] at the moment [e]. *)
Definition load (e : env) : module :=
  {| timestamp_default := clock e |}.

(** A call [get_syslog_header(...)] made at the moment [e]; [None] is an
    omitted argument. *)
Definition get_syslog_header (m : module) (e : env)
    (format : option string) (timestamp : option datetime)
    (priority : option Z) : result string :=
  get_syslog_header_body (hostname e)
    (default DEFAULT_FORMAT format)
    (default (timestamp_default m) timestamp)
    (default DEFAULT_PRIORITY priority).

End syslog.

(* ===================================================================== *)
(** * duologsync/util.py *)
(* ===================================================================== *)

Module util.

(** The expression bound to [checkpoint_file_path]. *)
Definition checkpoint_file_path (checkpoint_directory log_type : string)
    (child_account_id : option string) : string :=
  if truthy child_account_id then
    os_path_join checkpoint_directory
      ((log_type ++ "_checkpoint_data_") ++
       default "" child_account_id ++ ".txt")
  else
    os_path_join checkpoint_directory (log_type ++ "_checkpoint_data.txt").

Definition get_log_offset (cfg : Config.t) (log_type : string)
    (recover_log_offset : bool) (checkpoint_directory : string)
    (child_account_id : option string) (w : World)
  : result json * World :=
  let milliseconds_per_second := 1000 in
  let log_offset := Config.get_api_offset cfg in
  let log_offset :=
    if String.eqb log_type (Config.AUTH cfg)
    then log_offset * milliseconds_per_second
    else log_offset in
  if recover_log_offset then
    (* try *)
    let attempt : result json :=
      let checkpoint_file_path :=
        checkpoint_file_path checkpoint_directory log_type child_account_id in
      match file_read (fs w) checkpoint_file_path with
      | inr content => json_loads content
      | inl e => Raise e
      end in
    match attempt with
    | inr v => (Return v, w)
    | inl e =>
        (* except OSError *)
        if is_OSError e then
          (Return (JInt log_offset),
           Program.log
             ("Could not read checkpoint file for " ++ log_type ++
              " logs, consuming logs from {log_offset} timestamp")
             None w)
        else (Raise e, w)
    end
  else (Return (JInt log_offset), w).

End util.

(* ===================================================================== *)
(** * duologsync/consumer/consumer.py *)
(* ===================================================================== *)

Module consumer.

(** What [await self.writer.write(data)] did: the writer afterwards, the
    exception it raised if any, and whether another task requested
    shutdown while this one was suspended in the call. *)
Record write_outcome (Writer : Type) : Type := mk_outcome {
  next_writer : Writer;
  write_error : option exn;
  write_stop : bool
}.
Arguments mk_outcome {Writer}.
Arguments next_writer {Writer}.
Arguments write_error {Writer}.
Arguments write_stop {Writer}.

(** What [await self.log_queue.get()] returned, and whether shutdown
    was requested while the consumer was waiting for it. *)
Record delivery : Type := mk_delivery {
  logs_of : list record;
  stop_of : bool
}.

(** How the task [consume()] stands: it returned, it is suspended on an
    empty queue, or it ended with an exception. *)
Inductive status : Type :=
| Terminated
| Waiting
| Failed (e : exn).

Section Consumer.

(** [log_to_cef] of [duologsync/consumer/cef.py] and the type of the
    label table it takes. *)
Variable Labels : Type.
Variable log_to_cef : record -> Labels -> result string.

(** [Producer.get_log_offset] of [duologsync/producer/producer.py]. *)
Variable Producer_get_log_offset : option record -> json.

(** The writer shared by the consumers. *)
Variable Writer : Type.
Variable writer_write : Writer -> string -> write_outcome Writer.

Variable cfg : Config.t.
Variable host : syslog.env.
Variable syslog_mod : syslog.module.

Record Consumer : Type := mk_consumer {
  keys_to_labels : Labels;
  log_format : string;
  log_type : string;
  log_offset : json;
  child_account_id : option string
}.

(** [Consumer.__init__]; the queue and the writer are shared objects
    and are passed to [consume]. *)
Definition init (labels : Labels) (log_format : string)
    (child_account_id : option string) : Consumer :=
  {| keys_to_labels := labels;
     log_format := log_format;
     log_type := "default";
     log_offset := JNull;
     child_account_id := child_account_id |}.

Definition set_log_offset (o : json) (self : Consumer) : Consumer :=
  {| keys_to_labels := keys_to_labels self;
     log_format := log_format self;
     log_type := log_type self;
     log_offset := o;
     child_account_id := child_account_id self |}.

(** [datetime.fromtimestamp(log["timestamp"], tz=timezone.utc)] *)
Definition log_timestamp (log : record) : result datetime :=
  match dict_get "timestamp" log with
  | None => Raise (KeyError "timestamp")
  | Some (JInt n) => fromtimestamp_utc n
  | Some (JBool b) => fromtimestamp_utc (if b then 1 else 0)
  | Some _ => Raise (TypeError "an integer is required")
  end.

Definition format_log (self : Consumer) (log : record) : result string :=
  let formatted_log : result string :=
    if String.eqb (log_format self) (Config.CEF cfg) then
      log_to_cef log (keys_to_labels self)
    else if String.eqb (log_format self) (Config.JSON cfg) then
      let formatted_log := json_dumps (JObj log) in
      if Config.get_syslog_enabled cfg then
        match log_timestamp log with
        | inl e => Raise e
        | inr log_timestamp =>
            match syslog.get_syslog_header syslog_mod host
                    (Some (Config.get_syslog_format cfg))
                    (Some log_timestamp) None with
            | inl e => Raise e
            | inr syslog_header =>
                Return (str_join " " [syslog_header; formatted_log])
            end
        end
      else Return formatted_log
    else
      Raise (ValueError (log_format self ++ " is not a supported log format"))
  in
  match formatted_log with
  | inl e => Raise e
  | inr formatted_log => Return (encode formatted_log ++ newline)
  end.

(** The expression bound to [file_path]. *)
Definition file_path (log_type : string) (child_account_id : option string)
  : string :=
  if truthy child_account_id then
    os_path_join (Config.get_checkpoint_dir cfg)
      ((log_type ++ "_checkpoint_data_") ++
       default "" child_account_id ++ ".txt")
  else
    os_path_join (Config.get_checkpoint_dir cfg)
                 (log_type ++ "_checkpoint_data.txt").

Definition update_log_checkpoint (log_type : string) (log_offset : json)
    (child_account_id : option string) (w : World) : result unit * World :=
  let w := emit (EvCheckpoint log_type log_offset child_account_id) w in
  let w :=
    Program.log
      (log_type ++ " consumer: saving latest log offset to a " ++
       "checkpointing file") (Some INFO) w in
  let checkpoint_filename := file_path log_type child_account_id in
  match file_write (fs w) checkpoint_filename
                   (json_dumps log_offset ++ newline) with
  | inl e => (Raise e, w)
  | inr fs' => (Return tt, set_fs fs' w)
  end.

(** [log['child_account_id'] = self.child_account_id], when the consumer
    has one. *)
Definition stamp (self : Consumer) (log : record) : record :=
  if truthy (child_account_id self) then
    dict_set "child_account_id"
             (JStr (default "" (child_account_id self))) log
  else log.

(** The [for log in logs] loop. It returns [last_log_written] as it
    stands when the loop ends or raises. *)
Fixpoint write_logs (self : Consumer) (logs : list record)
    (last_log_written : option record) (w : World) (wr : Writer)
  : option record * result unit * World * Writer :=
  match logs with
  | [] => (last_log_written, Return tt, w, wr)
  | log :: rest =>
      let log := stamp self log in
      let w := emit (EvFormat log) w in
      match format_log self log with
      | inl e => (last_log_written, Raise e, w, wr)
      | inr data =>
          let w := emit (EvWrite data) w in
          let o := writer_write wr data in
          let w := interfere (write_stop o) w in
          match write_error o with
          | Some e => (last_log_written, Raise e, w, next_writer o)
          | None =>
              let last_log_written := Some log in
              write_logs self rest last_log_written w (next_writer o)
          end
      end
  end.

(** The [try] / [except BrokenPipeError] / [finally] statement run for a
    non-empty batch. *)
Definition write_batch (self : Consumer) (logs : list record)
    (w : World) (wr : Writer)
  : Consumer * result unit * World * Writer :=
  (* try *)
  let w :=
    Program.log (log_type self ++ " consumer: writing logs") (Some INFO) w in
  let '(last_log_written, r, w, wr) := write_logs self logs None w wr in
  let successful_write :=
    match r with inr _ => true | inl _ => false end in
  (* except BrokenPipeError *)
  let '(r, w) :=
    match r with
    | inl e =>
        if is_BrokenPipeError e then
          let shutdown_reason := exn_str e in
          let w := Program.initiate_shutdown shutdown_reason w in
          let w :=
            Program.log "DuoLogSync: connection to server was reset"
                        (Some WARNING) w in
          (Return tt, w)
        else (Raise e, w)
    | inr _ => (r, w)
    end in
  (* finally *)
  let w :=
    if successful_write then
      Program.log (log_type self ++ " consumer: successfully wrote all logs")
                  (Some INFO) w
    else
      Program.log (log_type self ++ " consumer: failed to write some logs")
                  (Some WARNING) w in
  let self := set_log_offset (Producer_get_log_offset last_log_written) self in
  let '(c, w) :=
    update_log_checkpoint (log_type self) (log_offset self)
                          (child_account_id self) w in
  match c with
  | inl e => (self, Raise e, w, wr)
  | inr _ => (self, r, w, wr)
  end.

(** One turn of the loop from the moment [log_queue.get()] returns. *)
Definition on_wake (self : Consumer) (d : delivery) (w : World) (wr : Writer)
  : Consumer * result unit * World * Writer :=
  let logs := logs_of d in
  let w := interfere (stop_of d) w in
  if negb (Program.is_running w) then
    (* continue *)
    (self, Return tt, w, wr)
  else
    let w :=
      Program.log
        (log_type self ++ " consumer: received " ++
         str_of_int (Z.of_nat (length logs)) ++ " logs from producer")
        (Some INFO) w in
    match logs with
    | _ :: _ => write_batch self logs w wr
    | [] =>
        let w :=
          Program.log (log_type self ++ " consumer: No logs to write")
                      (Some INFO) w in
        (self, Return tt, w, wr)
    end.

(** [consume()], run against what the queue will deliver. *)
Fixpoint consume (self : Consumer) (queue : list delivery)
    (w : World) (wr : Writer) {struct queue}
  : Consumer * status * World * Writer :=
  if Program.is_running w then
    let w :=
      Program.log (log_type self ++ " consumer: waiting for logs")
                  (Some INFO) w in
    match queue with
    | [] => (self, Waiting, w, wr)
    | d :: queue' =>
        let '(self, r, w, wr) := on_wake self d w wr in
        match r with
        | inl e => (self, Failed e, w, wr)
        | inr _ => consume self queue' w wr
        end
    end
  else
    let w :=
      Program.log (log_type self ++ " consumer: shutting down")
                  (Some INFO) w in
    (self, Terminated, w, wr).

(** The records [logs] are taken one after the other, as the loop takes
    them, with the writer in the state [wr] at first: every call of
    [format_log] returns and every [write] completes. [datas] is what
    the writer was given, in order, and [wr'] the writer after the last
    write. *)
Fixpoint all_written (self : Consumer) (logs : list record) (wr : Writer)
    (datas : list string) (wr' : Writer) : Prop :=
  match logs, datas with
  | [], [] => wr' = wr
  | log :: rest, data :: datas' =>
      format_log self (stamp self log) = Return data
      /\ write_error (writer_write wr data) = None
      /\ all_written self rest (next_writer (writer_write wr data)) datas' wr'
  | _, _ => False
  end.

(** The attempt on the record [cur], made with the writer in the state
    [wr], ends with the exception [e]: [format_log] raises it and the
    writer is not called, or [write] raises it. [attempted] is what the
    writer was given (nothing in the first case) and [wr'] the writer
    afterwards. *)
Definition attempt_fails (self : Consumer) (cur : record) (wr : Writer)
    (e : exn) (attempted : list string) (wr' : Writer) : Prop :=
  match format_log self (stamp self cur) with
  | inl e0 => e = e0 /\ attempted = [] /\ wr' = wr
  | inr data =>
      write_error (writer_write wr data) = Some e
      /\ attempted = [data]
      /\ wr' = next_writer (writer_write wr data)
  end.

End Consumer.

End consumer.

(* ===================================================================== *)
(** * Observations on a run *)
(* ===================================================================== *)

(** The data passed to [Writer.write], in order. *)
Fixpoint writes_in (t : list event) : list string :=
  match t with
  | [] => []
  | EvWrite d :: r => d :: writes_in r
  | _ :: r => writes_in r
  end.

(** The records passed to [format_log], in order. *)
Fixpoint formats_in (t : list event) : list record :=
  match t with
  | [] => []
  | EvFormat l :: r => l :: formats_in r
  | _ :: r => formats_in r
  end.

(** The reasons passed to [Program.initiate_shutdown], in order. *)
Fixpoint shutdowns_in (t : list event) : list string :=
  match t with
  | [] => []
  | EvShutdown m :: r => m :: shutdowns_in r
  | _ :: r => shutdowns_in r
  end.

(** The arguments of the calls of [update_log_checkpoint], in order. *)
Fixpoint checkpoints_in (t : list event)
  : list (string * json * option string) :=
  match t with
  | [] => []
  | EvCheckpoint lt o c :: r => (lt, o, c) :: checkpoints_in r
  | _ :: r => checkpoints_in r
  end.

(** The text after a number does not go on with a digit. *)
Definition no_digit_ahead (s : string) : Prop :=
  match s with
  | String c _ => is_digit c = false
  | EmptyString => True
  end.

(** [last_log_written] once the records [l] have been written, when it
    was [d] before. *)
Definition last_or {A} (d : option A) (l : list A) : option A :=
  match last l with
  | Some x => Some x
  | None => d
  end.

(** The number a string of decimal digits stands for; [-1] for any
    other string. *)
Definition digits_value (s : string) : Z :=
  match NilZero.uint_of_string s with
  | Some d => Z.of_uint d
  | None => -1
  end.

(** What the RFC5424 timestamp shows of a [datetime]: the date and the
    time of day down to the millisecond. *)
Definition shown_fields (dt : datetime) : Z * Z * Z * Z * Z * Z * Z :=
  (year dt, month dt, day dt, hour dt, minute dt, second dt,
   microsecond dt / 1000).

(** The offset [get_log_offset] starts from when there is nothing to
    read. *)
Definition default_offset (cfg : Config.t) (log_type : string) : Z :=
  if String.eqb log_type (Config.AUTH cfg)
  then Config.get_api_offset cfg * 1000
  else Config.get_api_offset cfg.

(** The message logged on fallback. The second literal of the source
    is not an f-string, so the braces are printed as they are. *)
Definition fallback_message (log_type : string) : string :=
  "Could not read checkpoint file for " ++ log_type ++
  " logs, consuming logs from {log_offset} timestamp".

(* ===================================================================== *)
(** * A concrete pipeline *)
(* ===================================================================== *)

(** One configuration, one writer that breaks on a chosen call, and one
    offset extractor, to run the functions on. *)
Module demo.

Definition cfg : Config.t :=
  {| Config.CEF := "CEF"; Config.JSON := "JSON"; Config.AUTH := "auth";
     Config.get_syslog_enabled := true;
     Config.get_syslog_format := "RFC5424";
     Config.get_checkpoint_dir := "/var/dls";
     Config.get_api_offset := 1700000000 |}.

Definition host : syslog.env :=
  {| syslog.clock := mk_datetime 2024 1 2 3 4 6 0 utc;
     syslog.hostname := "siem01" |}.

Definition smod : syslog.module :=
  syslog.load {| syslog.clock := mk_datetime 2023 12 31 23 0 0 0 utc;
                 syslog.hostname := "siem01" |}.

(** The offset after a record is one past its timestamp; with no
    record there is none. *)
Definition extract (last_log : option record) : json :=
  match last_log with
  | Some log =>
      match dict_get "timestamp" log with
      | Some (JInt n) => JInt (n + 1)
      | _ => JNull
      end
  | None => JNull
  end.

Definition to_cef (log : record) (labels : unit) : result string :=
  inr "CEF:0|Duo Security|DuoLogSync|2.0.0|auth|auth|5|".

(** A writer that counts its calls and raises [BrokenPipeError] on
    call number [k]. *)
Definition writer_failing_at (k : nat) (calls : nat) (data : string)
  : consumer.write_outcome nat :=
  {| consumer.next_writer := S calls;
     consumer.write_error :=
       if Nat.eqb (S calls) k
       then Some (BrokenPipeError "[Errno 32] Broken pipe")
       else None;
     consumer.write_stop := false |}.

Definition log_at (ts : Z) : record :=
  [("timestamp", JInt ts); ("username", JStr "alice")].

Definition world0 : World := {| running := true; fs := ∅; trace := [] |}.

(** The checkpoint file of the auth stream exists and is empty. *)
Definition corrupt_world : World :=
  {| running := true;
     fs := {[ "/var/dls/auth_checkpoint_data.txt" := FFile "" ]};
     trace := [] |}.

Definition json_consumer : consumer.Consumer unit :=
  {| consumer.keys_to_labels := tt; consumer.log_format := "JSON";
     consumer.log_type := "auth"; consumer.log_offset := JNull;
     consumer.child_account_id := None |}.

Definition xml_consumer : consumer.Consumer unit :=
  {| consumer.keys_to_labels := tt; consumer.log_format := "xml";
     consumer.log_type := "auth"; consumer.log_offset := JNull;
     consumer.child_account_id := None |}.

Definition on_wake (k : nat) :=
  consumer.on_wake unit to_cef extract nat (writer_failing_at k) cfg host smod.

Definition consume (k : nat) :=
  consumer.consume unit to_cef extract nat (writer_failing_at k) cfg host smod.

Definition format_log :=
  consumer.format_log unit to_cef cfg host smod.

(** Two records; the write of the second one breaks. *)
Definition broken_batch : consumer.delivery :=
  consumer.mk_delivery [log_at 100; log_at 200] false.

Definition broken_run :=
  on_wake 2 json_consumer broken_batch world0 0%nat.

(** One record, given to a consumer whose format is not supported. *)
Definition xml_batch : consumer.delivery :=
  consumer.mk_delivery [log_at 100] false.

Definition xml_run :=
  on_wake 0 xml_consumer xml_batch world0 0%nat.

(** Five records, and what the formatter makes of one. *)
Definition five : list record :=
  [log_at 1704164645; log_at 1704164646; log_at 1704164647;
   log_at 1704164648; log_at 1704164649].

Definition data_of (log : record) : string :=
  match format_log json_consumer log with
  | inr data => data
  | inl _ => ""
  end.

(** A writer that counts its calls and raises [ConnectionResetError]
    on call number [k]. *)
Definition writer_reset_at (k : nat) (calls : nat) (data : string)
  : consumer.write_outcome nat :=
  {| consumer.next_writer := S calls;
     consumer.write_error :=
       if Nat.eqb (S calls) k
       then Some (ConnectionResetError
                    "[Errno 104] Connection reset by peer")
       else None;
     consumer.write_stop := false |}.

(** The five records against a writer whose connection is reset by the
    peer during the third write. *)
Definition reset_run :=
  consumer.consume unit to_cef extract nat (writer_reset_at 3) cfg host smod
    json_consumer [consumer.mk_delivery five false] world0 0%nat.

(** The world after the auth checkpoint 12345 has been saved. *)
Definition saved_world : World :=
  snd (consumer.update_log_checkpoint cfg "auth" (JInt 12345) None world0).

(** A wake-up with no record, and one that comes with a shutdown. *)
Definition empty_batch : consumer.delivery := consumer.mk_delivery [] false.

Definition late_batch : consumer.delivery :=
  consumer.mk_delivery [log_at 100; log_at 200] true.

End demo.

(* ===================================================================== *)
(** * The rest of duologsync/util.py *)
(* ===================================================================== *)

(** Printable ASCII, the characters [json.dumps] writes. *)
Definition is_printable (c : ascii) : bool :=
  let n := ascii_code c in (32 <=? n) && (n <=? 126).

Fixpoint string_forall (P : ascii -> bool) (s : string) : bool :=
  match s with
  | EmptyString => true
  | String c r => P c && string_forall P r
  end.

(** Objects as Python builds them: no key twice, at any depth. *)
Fixpoint json_wf (v : json) : Prop :=
  match v with
  | JList items => fold_right (fun w acc => json_wf w /\ acc) True items
  | JObj members =>
      List.NoDup (map fst members)
      /\ fold_right (fun kv acc => json_wf (snd kv) /\ acc) True members
  | _ => True
  end.

(** The number of values and members in a value. *)
Fixpoint json_size (v : json) : nat :=
  match v with
  | JList items => S (fold_right (fun w acc => S (json_size w + acc)) O items)
  | JObj members =>
      S (fold_right (fun kv acc => S (json_size (snd kv) + acc)) O members)
  | _ => 1%nat
  end.

(** [parse_value] reads the text of [v] back, given fuel for its size
    and a continuation that cannot extend a number. *)
Definition reads_back (v : json) : Prop :=
  forall fuel rest,
    (json_size v <= fuel)%nat ->
    no_digit_ahead rest -> float_follows rest = false ->
    parse_value fuel (json_dumps v ++ rest) = Some (v, rest).

Module util_sleep.

(** [ProgramShutdownError] of [duologsync/program.py]. *)
Inductive sleep_exn : Type := ProgramShutdownError.

(** The [while duration > 0] loop of [restless_sleep]. [stop_during k]
    tells whether another task requested shutdown during the [k]-th
    [asyncio.sleep(1)]; [slept] counts the sleeps so far. The result is
    [None] only when [fuel] runs out. *)
Fixpoint restless_sleep_loop (fuel : nat) (stop_during : nat -> bool)
    (duration : Z) (slept : nat) (w : World)
  : option (sleep_exn + unit) * nat * World :=
  match fuel with
  | O => (None, slept, w)
  | S fuel' =>
      if 0 <? duration then
        (* await asyncio.sleep(1) *)
        let slept := S slept in
        let w := interfere (stop_during slept) w in
        if Program.is_running w then
          let duration := duration - 1 in
          restless_sleep_loop fuel' stop_during duration slept w
        else (Some (inl ProgramShutdownError), slept, w)
      else (Some (inr tt), slept, w)
  end.

(** [restless_sleep(duration)] for a whole number of seconds. *)
Definition restless_sleep (stop_during : nat -> bool) (duration : Z)
    (w : World) : option (sleep_exn + unit) * nat * World :=
  restless_sleep_loop (S (Z.to_nat duration)) stop_during duration O w.

End util_sleep.

Module util_params.

Set Warnings "-register-all".

(** The values [normalize_params] can meet. *)
Inductive pyval : Type :=
| PNone
| PStr (s : string)
| PBytes (b : string)
| PInt (n : Z)
| PList (items : list pyval).

(** The keys of a [dict]: hashable values. *)
Inductive pykey : Type :=
| KNone
| KStr (s : string)
| KBytes (b : string)
| KInt (n : Z).

Definition pykey_eqb (a b : pykey) : bool :=
  match a, b with
  | KNone, KNone => true
  | KStr x, KStr y => String.eqb x y
  | KBytes x, KBytes y => String.eqb x y
  | KInt x, KInt y => Z.eqb x y
  | _, _ => false
  end.

(** [d[key] = v] on a [dict] held as an association list. *)
Fixpoint pydict_set (key : pykey) (v : pyval) (d : list (pykey * pyval))
  : list (pykey * pyval) :=
  match d with
  | [] => [(key, v)]
  | (k, w) :: r =>
      if pykey_eqb k key then (k, v) :: r else (k, w) :: pydict_set key v r
  end.

(** The inner function [encode], on a value and on a key. *)
Definition encode_value (value : pyval) : pyval :=
  match value with
  | PStr s => PBytes (encode s)
  | _ => value
  end.

Definition encode_key (key : pykey) : pykey :=
  match key with
  | KStr s => KBytes (encode s)
  | _ => key
  end.

(** The inner function [to_list]. *)
Definition to_list (value : pyval) : pyval :=
  match value with
  | PNone | PStr _ => PList [value]
  | _ => value
  end.

Fixpoint bytes_items (b : string) : list pyval :=
  match b with
  | EmptyString => []
  | String c r => PInt (ascii_code c) :: bytes_items r
  end.

Fixpoint str_items (s : string) : list pyval :=
  match s with
  | EmptyString => []
  | String c r => PStr (String c EmptyString) :: str_items r
  end.

(** [for v in x]: the items of a list, the integers of a byte string,
    the characters of a text string; [None] and integers are not
    iterable. *)
Definition iterate (x : pyval) : result (list pyval) :=
  match x with
  | PList items => Return items
  | PBytes b => Return (bytes_items b)
  | PStr s => Return (str_items s)
  | PNone => Raise (TypeError "'NoneType' object is not iterable")
  | PInt _ => Raise (TypeError "'int' object is not iterable")
  end.

(** The pairs of the generator, in the order of [params.items()]. *)
Fixpoint normalized_pairs (params : list (pykey * pyval))
  : result (list (pykey * pyval)) :=
  match params with
  | [] => Return []
  | (key, value) :: rest =>
      match iterate (to_list value) with
      | inl e => Raise e
      | inr items =>
          match normalized_pairs rest with
          | inl e => Raise e
          | inr pairs =>
              Return ((encode_key key, PList (map encode_value items))
                      :: pairs)
          end
      end
  end.

(** [dict(pairs)] *)
Definition dict_of (pairs : list (pykey * pyval)) : list (pykey * pyval) :=
  fold_left (fun d kv => pydict_set (fst kv) (snd kv) d) pairs [].

Definition normalize_params (params : list (pykey * pyval))
  : result (list (pykey * pyval)) :=
  match normalized_pairs params with
  | inl e => Raise e
  | inr pairs => Return (dict_of pairs)
  end.

(** No text string is left at the places [encode] visits. *)
Definition encoded_value (v : pyval) : bool :=
  match v with
  | PList items =>
      forallb (fun x => match x with PStr _ => false | _ => true end) items
  | _ => false
  end.

Definition encoded_key (k : pykey) : bool :=
  match k with
  | KStr _ => false
  | _ => true
  end.

Definition entry_encoded (kv : pykey * pyval) : Prop :=
  encoded_key (fst kv) = true /\ encoded_value (snd kv) = true.

End util_params.

(** More of the concrete pipeline. *)
Module samples.

(** The configuration of [demo], with syslog off. *)
Definition cfg_plain : Config.t :=
  {| Config.CEF := "CEF"; Config.JSON := "JSON"; Config.AUTH := "auth";
     Config.get_syslog_enabled := false;
     Config.get_syslog_format := "RFC5424";
     Config.get_checkpoint_dir := "/var/dls";
     Config.get_api_offset := 1700000000 |}.

Definition cef_consumer : consumer.Consumer unit :=
  {| consumer.keys_to_labels := tt; consumer.log_format := "CEF";
     consumer.log_type := "auth"; consumer.log_offset := JNull;
     consumer.child_account_id := None |}.

(** A consumer for the child account DA42. *)
Definition child_consumer : consumer.Consumer unit :=
  {| consumer.keys_to_labels := tt; consumer.log_format := "JSON";
     consumer.log_type := "auth"; consumer.log_offset := JNull;
     consumer.child_account_id := Some "DA42" |}.

(** A record without a timestamp. *)
Definition undated_log : record := [("username", JStr "alice")].

(** The checkpoint directory [/var/dls] does not exist: the checkpoint
    file of the auth stream cannot be opened. *)
Definition no_checkpoint_dir : World :=
  {| running := true;
     fs := {[ "/var/dls/auth_checkpoint_data.txt" :=
                FBlocked "[Errno 2] No such file or directory" ]};
     trace := [] |}.

(** An offset of the auth stream: a timestamp in milliseconds and a
    transaction id. *)
Definition auth_offset : json :=
  JList [JStr "1704164647000"; JStr "af0ba235-0b33-23c8-bc23-a31aa0231de8"].

Definition saved_auth_world : World :=
  snd (consumer.update_log_checkpoint demo.cfg "auth" auth_offset None
         demo.world0).

(** Three batches, the second one empty. *)
Definition three_batches : list consumer.delivery :=
  [consumer.mk_delivery [demo.log_at 100; demo.log_at 200] false;
   consumer.mk_delivery [] false;
   consumer.mk_delivery [demo.log_at 300] false].

Definition cef_line (log : record) : string :=
  String.append (encode "CEF:0|Duo Security|DuoLogSync|2.0.0|auth|auth|5|")
                newline.

(** Parameters of an API call. *)
Definition api_params : list (util_params.pykey * util_params.pyval) :=
  [(util_params.KStr "mintime", util_params.PStr "1700000000");
   (util_params.KStr "users",
    util_params.PList [util_params.PStr "alice"; util_params.PStr "bob"]);
   (util_params.KStr "next_offset", util_params.PNone)].

Definition api_params_normalized
  : list (util_params.pykey * util_params.pyval) :=
  [(util_params.KBytes "mintime",
    util_params.PList [util_params.PBytes "1700000000"]);
   (util_params.KBytes "users",
    util_params.PList [util_params.PBytes "alice"; util_params.PBytes "bob"]);
   (util_params.KBytes "next_offset", util_params.PList [util_params.PNone])].

End samples.

(* ===================================================================== *)
(** * Properties *)
(* ===================================================================== *)

(** ** Strings and padding *)

Lemma length_append (a b : string) :
  String.length (a ++ b) = (String.length a + String.length b)%nat.
Proof.
  induction a as [|c a IH]; simpl; [reflexivity | now rewrite IH].
Qed.

(** A padded field below its bound has exactly the requested width;
    checked over the whole range. *)
Lemma zero_pad_width_from_check (w bound : nat) :
  forallb (fun k => Nat.eqb (String.length (zero_pad w (Z.of_nat k))) w)
          (seq 0 bound) = true ->
  forall n, 0 <= n < Z.of_nat bound -> String.length (zero_pad w n) = w.
Proof.
  intros Hall n Hn.
  rewrite forallb_forall in Hall.
  specialize (Hall (Z.to_nat n)).
  rewrite Z2Nat.id in Hall by lia.
  apply Nat.eqb_eq, Hall, in_seq. lia.
Qed.

Lemma zero_pad_2 n : 0 <= n < 100 -> String.length (zero_pad 2 n) = 2%nat.
Proof. apply (zero_pad_width_from_check 2 100). vm_compute. reflexivity. Qed.

Lemma zero_pad_3 n : 0 <= n < 1000 -> String.length (zero_pad 3 n) = 3%nat.
Proof. apply (zero_pad_width_from_check 3 1000). vm_compute. reflexivity. Qed.

Lemma zero_pad_4 n : 0 <= n < 10000 -> String.length (zero_pad 4 n) = 4%nat.
Proof.
  apply (zero_pad_width_from_check 4 (Z.to_nat 10000)).
  vm_compute. reflexivity.
Qed.

Lemma datetime_ok_ranges dt :
  datetime_ok dt = true ->
  1 <= year dt <= 9999 /\ 1 <= month dt <= 12 /\ 1 <= day dt <= 31 /\
  0 <= hour dt <= 23 /\ 0 <= minute dt <= 59 /\ 0 <= second dt <= 59 /\
  0 <= microsecond dt <= 999999.
Proof.
  unfold datetime_ok. rewrite !andb_true_iff, !Z.leb_le. tauto.
Qed.

(** The timestamp of an aware UTC [datetime] always has the 29
    characters of [YYYY-MM-DDTHH:MM:SS.mmm+00:00]. *)
Lemma isoformat_utc_shape dt :
  tzinfo dt = utc -> datetime_ok dt = true ->
  isoformat_milliseconds dt =
    zero_pad 4 (year dt) ++ "-" ++ zero_pad 2 (month dt) ++ "-" ++
    zero_pad 2 (day dt) ++ "T" ++ zero_pad 2 (hour dt) ++ ":" ++
    zero_pad 2 (minute dt) ++ ":" ++ zero_pad 2 (second dt) ++ "." ++
    zero_pad 3 (microsecond dt / 1000) ++ "+00:00"
  /\ String.length (isoformat_milliseconds dt) = 29%nat.
Proof.
  intros Htz Hok. apply datetime_ok_ranges in Hok.
  destruct Hok as (Hy & Hm & Hd & Hh & Hmi & Hs & Hus).
  assert (Hms : 0 <= microsecond dt / 1000 < 1000).
  { split; [apply Z.div_pos; lia | apply Z.div_lt_upper_bound; lia]. }
  unfold isoformat_milliseconds. rewrite Htz.
  change (format_offset utc) with "+00:00".
  split; [reflexivity|].
  rewrite !length_append.
  rewrite zero_pad_4, !zero_pad_2, zero_pad_3 by lia.
  reflexivity.
Qed.

(** ** Decimal rendering and the number scanner *)

Lemma to_uint_head_nonzero (p : positive) (d : Decimal.uint) :
  Pos.to_uint p <> Decimal.D0 d.
Proof.
  intros E.
  assert (Hn : Decimal.unorm (Pos.to_uint p) = Pos.to_uint p).
  { rewrite <- (DecimalPos.Unsigned.to_of (Pos.to_uint p)).
    now rewrite DecimalPos.Unsigned.of_to. }
  rewrite E in Hn. unfold Decimal.unorm in Hn.
  destruct (Decimal.nzhead (Decimal.D0 d)) eqn:Hz;
    try (now apply (nzhead_nonzero (Decimal.D0 d) d); rewrite Hz);
    try discriminate.
  injection Hn as <-. now apply (DecimalPos.Unsigned.to_uint_nonzero p).
Qed.

Lemma scan_digits_string_of_uint (d : Decimal.uint) (rest : string) :
  no_digit_ahead rest ->
  scan_digits (NilEmpty.string_of_uint d ++ rest) =
    (NilEmpty.string_of_uint d, rest).
Proof.
  intros Hrest.
  induction d; simpl; try (rewrite IHd; reflexivity).
  destruct rest as [|c r]; simpl in *; [reflexivity | now rewrite Hrest].
Qed.

Lemma parse_number_pos (p : positive) (rest : string) :
  no_digit_ahead rest -> float_follows rest = false ->
  parse_number (NilEmpty.string_of_uint (Pos.to_uint p) ++ rest) =
    Some (JInt (Z.pos p), rest).
Proof.
  intros Hrest Hf.
  pose proof (to_uint_head_nonzero p) as Hnz.
  pose proof (DecimalPos.Unsigned.to_uint_nonnil p) as Hnn.
  pose proof (scan_digits_string_of_uint (Pos.to_uint p) rest Hrest) as Hscan.
  pose proof (DecimalPos.Unsigned.of_to p) as Hval.
  pose proof (NilEmpty.usu (Pos.to_uint p)) as Husu.
  unfold parse_number.
  destruct (Pos.to_uint p) as [|d|d|d|d|d|d|d|d|d|d]; 
    try congruence; try (exfalso; now apply (Hnz d));
    cbn [NilEmpty.string_of_uint String.append] in *;
    cbv beta iota; change (is_digit _) with true; cbv iota;
    rewrite Hscan, Husu; unfold N.of_uint; rewrite Hval, Hf; reflexivity.
Qed.

Lemma parse_number_neg (p : positive) (rest : string) :
  no_digit_ahead rest -> float_follows rest = false ->
  parse_number (String "-" (NilEmpty.string_of_uint (Pos.to_uint p) ++ rest)) =
    Some (JInt (Z.neg p), rest).
Proof.
  intros Hrest Hf.
  pose proof (to_uint_head_nonzero p) as Hnz.
  pose proof (DecimalPos.Unsigned.to_uint_nonnil p) as Hnn.
  pose proof (scan_digits_string_of_uint (Pos.to_uint p) rest Hrest) as Hscan.
  pose proof (DecimalPos.Unsigned.of_to p) as Hval.
  pose proof (NilEmpty.usu (Pos.to_uint p)) as Husu.
  unfold parse_number.
  destruct (Pos.to_uint p) as [|d|d|d|d|d|d|d|d|d|d]; 
    try congruence; try (exfalso; now apply (Hnz d));
    cbn [NilEmpty.string_of_uint String.append] in *;
    cbv beta iota; change (is_digit _) with true; cbv iota;
    rewrite Hscan, Husu; unfold N.of_uint; rewrite Hval, Hf; reflexivity.
Qed.

(** A text that starts with a digit or a minus sign is read as a
    number. *)
Lemma parse_value_number (fuel : nat) (c : ascii) (r : string) :
  is_digit c = true \/ ascii_code c = 45 ->
  parse_value (S fuel) (String c r) = parse_number (String c r).
Proof.
  intros Hc.
  assert (Hrange : 45 <= ascii_code c <= 57).
  { destruct Hc as [Hd | ->]; [|lia].
    unfold is_digit in Hd. apply andb_true_iff in Hd.
    rewrite !Z.leb_le in Hd. lia. }
  cbn [parse_value].
  repeat match goal with
         | |- context [?a =? ?b] =>
             destruct (Z.eqb_spec a b); [exfalso; lia|]
         end.
  reflexivity.
Qed.

Lemma str_of_int_pos (p : positive) :
  str_of_int (Z.pos p) = NilEmpty.string_of_uint (Pos.to_uint p).
Proof.
  unfold str_of_int; simpl; unfold NilZero.string_of_uint.
  pose proof (DecimalPos.Unsigned.to_uint_nonnil p).
  destruct (Pos.to_uint p); congruence.
Qed.

Lemma str_of_int_neg (p : positive) :
  str_of_int (Z.neg p) = String "-" (NilEmpty.string_of_uint (Pos.to_uint p)).
Proof.
  unfold str_of_int; simpl; unfold NilZero.string_of_uint.
  pose proof (DecimalPos.Unsigned.to_uint_nonnil p).
  destruct (Pos.to_uint p); congruence.
Qed.

Lemma string_of_uint_head (p : positive) :
  exists c r, NilEmpty.string_of_uint (Pos.to_uint p) = String c r /\
              is_digit c = true.
Proof.
  pose proof (DecimalPos.Unsigned.to_uint_nonnil p).
  destruct (Pos.to_uint p); try congruence; simpl; eauto.
Qed.

Lemma is_digit_not_ws (c : ascii) : is_digit c = true -> is_ws c = false.
Proof.
  unfold is_digit, is_ws. intros H. apply andb_true_iff in H.
  rewrite !Z.leb_le in H.
  repeat match goal with
         | |- context [?a =? ?b] =>
             destruct (Z.eqb_spec a b); [exfalso; lia|]
         end.
  reflexivity.
Qed.

Lemma loads_fuel (s : string) :
  (2 * String.length s + 2)%nat = S (2 * String.length s + 1).
Proof. lia. Qed.

(** An integer written by [json.dumps] and followed by a newline is
    read back by [json.loads] as the same integer. *)
Lemma json_loads_dumps_int (n : Z) :
  json_loads (json_dumps (JInt n) ++ newline) = Return (JInt n).
Proof.
  cbn [json_dumps]. unfold json_loads. rewrite loads_fuel.
  destruct n as [|p|p].
  - reflexivity.
  - rewrite str_of_int_pos.
    destruct (string_of_uint_head p) as (c & r & E & Hc).
    assert (Hskip : skip_ws (NilEmpty.string_of_uint (Pos.to_uint p) ++ newline)
                    = NilEmpty.string_of_uint (Pos.to_uint p) ++ newline).
    { rewrite E. simpl. now rewrite (is_digit_not_ws c Hc). }
    rewrite Hskip.
    assert (Hnum : parse_value (S (2 * String.length
                     (NilEmpty.string_of_uint (Pos.to_uint p) ++ newline) + 1))
                     (NilEmpty.string_of_uint (Pos.to_uint p) ++ newline)
                   = parse_number
                       (NilEmpty.string_of_uint (Pos.to_uint p) ++ newline)).
    { rewrite E. simpl String.append. apply parse_value_number. now left. }
    rewrite Hnum, parse_number_pos by (reflexivity || exact I).
    reflexivity.
  - rewrite str_of_int_neg.
    change (String "-" (NilEmpty.string_of_uint (Pos.to_uint p)) ++ newline)
      with (String "-" (NilEmpty.string_of_uint (Pos.to_uint p) ++ newline)).
    cbn [skip_ws]. change (is_ws "-") with false. cbv iota.
    rewrite parse_value_number by now right.
    rewrite parse_number_neg by (reflexivity || exact I).
    reflexivity.
Qed.

(** ** The syslog header *)

(** C8: for the RFC5424 format, a UTC timestamp and priority 38, the
    header is ["<38>1 "], then the ISO-8601 timestamp with three
    millisecond digits and the explicit offset [+00:00] (29 characters),
    then one space and the host name; PRI and VERSION are not separated.
    For 2024-01-02T03:04:05.678Z it is
    ["<38>1 2024-01-02T03:04:05.678+00:00 <hostname>"]. *)
Theorem rfc5424_header_exact (m : syslog.module) (e : syslog.env)
    (dt : datetime) :
  tzinfo dt = utc -> datetime_ok dt = true ->
  syslog.get_syslog_header m e (Some "RFC5424") (Some dt) (Some 38) =
    Return ("<38>1 " ++ isoformat_milliseconds dt ++ " " ++ syslog.hostname e)
  /\ isoformat_milliseconds dt =
       zero_pad 4 (year dt) ++ "-" ++ zero_pad 2 (month dt) ++ "-" ++
       zero_pad 2 (day dt) ++ "T" ++ zero_pad 2 (hour dt) ++ ":" ++
       zero_pad 2 (minute dt) ++ ":" ++ zero_pad 2 (second dt) ++ "." ++
       zero_pad 3 (microsecond dt / 1000) ++ "+00:00"
  /\ String.length (isoformat_milliseconds dt) = 29%nat
  /\ syslog.get_syslog_header m e (Some "RFC5424")
       (Some (mk_datetime 2024 1 2 3 4 5 678000 utc)) (Some 38) =
     Return ("<38>1 2024-01-02T03:04:05.678+00:00 " ++ syslog.hostname e).
Proof.
  intros Htz Hok.
  destruct (isoformat_utc_shape dt Htz Hok) as [Hshape Hlen].
  repeat split; try assumption.
Qed.

(** The header of the spec's example, evaluated. *)
Lemma rfc5424_header_exact_witness :
  syslog.get_syslog_header
    (syslog.load (syslog.mk_env (mk_datetime 2023 12 31 23 0 0 0 utc) "siem01"))
    (syslog.mk_env (mk_datetime 2024 1 2 3 4 6 0 utc) "siem01")
    (Some "RFC5424") (Some (mk_datetime 2024 1 2 3 4 5 678000 utc)) (Some 38)
  = Return "<38>1 2024-01-02T03:04:05.678+00:00 siem01".
Proof.
  pose proof
    (rfc5424_header_exact
       (syslog.load
          (syslog.mk_env (mk_datetime 2023 12 31 23 0 0 0 utc) "siem01"))
       (syslog.mk_env (mk_datetime 2024 1 2 3 4 6 0 utc) "siem01")
       (mk_datetime 2024 1 2 3 4 5 678000 utc)
       eq_refl eq_refl) as (_ & _ & _ & H).
  exact H.
Defined.

(** Two strings that start with pieces of the same length are equal
    piece by piece. *)
Lemma str_app_inj_length (a a' b b' : string) :
  String.length a = String.length a' ->
  a ++ b = a' ++ b' -> a = a' /\ b = b'.
Proof.
  revert a'. induction a as [|c a IH]; intros [|c' a'] Hl H;
    try discriminate.
  - now split.
  - simpl in H. injection H as -> H. injection Hl as Hl.
    destruct (IH a' Hl H) as [-> ->]. now split.
Qed.

(** A padded field below its bound reads back as the number it was made
    from; checked over the whole range. *)
Lemma zero_pad_inj_from_check (w bound : nat) :
  forallb (fun k => digits_value (zero_pad w (Z.of_nat k)) =? Z.of_nat k)
          (seq 0 bound) = true ->
  forall a b, 0 <= a < Z.of_nat bound -> 0 <= b < Z.of_nat bound ->
    zero_pad w a = zero_pad w b -> a = b.
Proof.
  intros Hall.
  assert (Hval : forall n, 0 <= n < Z.of_nat bound ->
                           digits_value (zero_pad w n) = n).
  { intros n Hn. rewrite forallb_forall in Hall.
    specialize (Hall (Z.to_nat n)). rewrite Z2Nat.id in Hall by lia.
    apply Z.eqb_eq, Hall, in_seq. lia. }
  intros a b Ha Hb E.
  rewrite <- (Hval a Ha), <- (Hval b Hb). now rewrite E.
Qed.

Lemma zero_pad_2_inj a b :
  0 <= a < 100 -> 0 <= b < 100 -> zero_pad 2 a = zero_pad 2 b -> a = b.
Proof. apply (zero_pad_inj_from_check 2 100). vm_compute. reflexivity. Qed.

Lemma zero_pad_3_inj a b :
  0 <= a < 1000 -> 0 <= b < 1000 -> zero_pad 3 a = zero_pad 3 b -> a = b.
Proof. apply (zero_pad_inj_from_check 3 1000). vm_compute. reflexivity. Qed.

Lemma zero_pad_4_inj a b :
  0 <= a < 10000 -> 0 <= b < 10000 -> zero_pad 4 a = zero_pad 4 b -> a = b.
Proof.
  apply (zero_pad_inj_from_check 4 (Z.to_nat 10000)).
  vm_compute. reflexivity.
Qed.

(** Two UTC timestamps are rendered alike only when they agree down to
    the millisecond. *)
Lemma isoformat_utc_inj (a b : datetime) :
  tzinfo a = utc -> datetime_ok a = true ->
  tzinfo b = utc -> datetime_ok b = true ->
  isoformat_milliseconds a = isoformat_milliseconds b ->
  shown_fields a = shown_fields b.
Proof.
  intros Ha Hoka Hb Hokb H.
  destruct (isoformat_utc_shape a Ha Hoka) as [Sa _].
  destruct (isoformat_utc_shape b Hb Hokb) as [Sb _].
  rewrite Sa, Sb in H. clear Sa Sb.
  apply datetime_ok_ranges in Hoka, Hokb.
  destruct Hoka as (Hy & Hm & Hd & Hh & Hmi & Hs & Hus).
  destruct Hokb as (Hy' & Hm' & Hd' & Hh' & Hmi' & Hs' & Hus').
  assert (Hms : 0 <= microsecond a / 1000 < 1000).
  { split; [apply Z.div_pos; lia | apply Z.div_lt_upper_bound; lia]. }
  assert (Hms' : 0 <= microsecond b / 1000 < 1000).
  { split; [apply Z.div_pos; lia | apply Z.div_lt_upper_bound; lia]. }
  apply str_app_inj_length in H as [E1 H];
    [|rewrite !zero_pad_4 by lia; reflexivity].
  injection H as H.
  apply str_app_inj_length in H as [E2 H];
    [|rewrite !zero_pad_2 by lia; reflexivity].
  injection H as H.
  apply str_app_inj_length in H as [E3 H];
    [|rewrite !zero_pad_2 by lia; reflexivity].
  injection H as H.
  apply str_app_inj_length in H as [E4 H];
    [|rewrite !zero_pad_2 by lia; reflexivity].
  injection H as H.
  apply str_app_inj_length in H as [E5 H];
    [|rewrite !zero_pad_2 by lia; reflexivity].
  injection H as H.
  apply str_app_inj_length in H as [E6 H];
    [|rewrite !zero_pad_2 by lia; reflexivity].
  injection H as H.
  apply str_app_inj_length in H as [E7 _];
    [|rewrite !zero_pad_3 by lia; reflexivity].
  apply zero_pad_4_inj in E1; [|lia|lia].
  apply zero_pad_2_inj in E2; [|lia|lia].
  apply zero_pad_2_inj in E3; [|lia|lia].
  apply zero_pad_2_inj in E4; [|lia|lia].
  apply zero_pad_2_inj in E5; [|lia|lia].
  apply zero_pad_2_inj in E6; [|lia|lia].
  apply zero_pad_3_inj in E7; [|lia|lia].
  unfold shown_fields. congruence.
Qed.

(** C10: the default of [timestamp] is the clock reading taken when the
    module was loaded. A call that omits the argument, made at any
    moment [now], returns the header that carries the load-time reading:
    for the default format it is ["<38>1 "], the date and time of the
    load and the host name. It is the header of an explicit call with
    the load-time reading, whatever the format and the priority, it is
    the same at every other moment, and it is not the header of the
    moment of the call as soon as the two readings differ by a
    millisecond. *)
Theorem default_timestamp_fixed_at_load
    (loaded_at : syslog.env) (h : string) (now : datetime) :
  tzinfo (syslog.clock loaded_at) = utc ->
  datetime_ok (syslog.clock loaded_at) = true ->
  let m := syslog.load loaded_at in
  let t0 := syslog.clock loaded_at in
  syslog.get_syslog_header m (syslog.mk_env now h) None None None =
    Return ("<38>1 " ++ isoformat_milliseconds t0 ++ " " ++ h)
  /\ isoformat_milliseconds t0 =
       zero_pad 4 (year t0) ++ "-" ++ zero_pad 2 (month t0) ++ "-" ++
       zero_pad 2 (day t0) ++ "T" ++ zero_pad 2 (hour t0) ++ ":" ++
       zero_pad 2 (minute t0) ++ ":" ++ zero_pad 2 (second t0) ++ "." ++
       zero_pad 3 (microsecond t0 / 1000) ++ "+00:00"
  /\ syslog.get_syslog_header m (syslog.mk_env now h) (Some "RFC3164")
       None None =
     Return ("<38>" ++ strftime_bdHMS t0 ++ " " ++ h)
  /\ (forall format priority,
        syslog.get_syslog_header m (syslog.mk_env now h) format None priority =
        syslog.get_syslog_header m (syslog.mk_env now h) format (Some t0)
          priority)
  /\ (forall later format priority,
        syslog.get_syslog_header m (syslog.mk_env later h) format None
          priority =
        syslog.get_syslog_header m (syslog.mk_env now h) format None priority)
  /\ (tzinfo now = utc -> datetime_ok now = true ->
      shown_fields now <> shown_fields t0 ->
      syslog.get_syslog_header m (syslog.mk_env now h) None None None <>
      syslog.get_syslog_header m (syslog.mk_env now h) None (Some now) None).
Proof.
  intros Htz Hok m t0.
  destruct (isoformat_utc_shape t0 Htz Hok) as [Hshape Hlen].
  split; [reflexivity|]. split; [exact Hshape|].
  split; [reflexivity|]. split; [reflexivity|]. split; [reflexivity|].
  intros Htz' Hok' Hdiff Heq. apply Hdiff.
  destruct (isoformat_utc_shape now Htz' Hok') as [_ Hlen'].
  apply (isoformat_utc_inj now t0 Htz' Hok' Htz Hok).
  change (Return ("<38>1 " ++ isoformat_milliseconds t0 ++ " " ++ h) =
          Return ("<38>1 " ++ isoformat_milliseconds now ++ " " ++ h)
          :> result string) in Heq.
  injection Heq as Heq.
  apply str_app_inj_length in Heq as [Heq _]; [now symmetry|].
  now rewrite Hlen, Hlen'.
Qed.

(** A module loaded on 2024-01-02 and a call made the day after: the
    header is that of the load. *)
Lemma default_timestamp_fixed_at_load_witness :
  syslog.get_syslog_header
    (syslog.load (syslog.mk_env (mk_datetime 2024 1 2 3 4 5 678000 utc) "h"))
    (syslog.mk_env (mk_datetime 2024 1 3 9 0 0 0 utc) "h")
    None None None = Return "<38>1 2024-01-02T03:04:05.678+00:00 h"
  /\ syslog.get_syslog_header
       (syslog.load
          (syslog.mk_env (mk_datetime 2024 1 2 3 4 5 678000 utc) "h"))
       (syslog.mk_env (mk_datetime 2024 1 3 9 0 0 0 utc) "h")
       None None None <>
     syslog.get_syslog_header
       (syslog.load
          (syslog.mk_env (mk_datetime 2024 1 2 3 4 5 678000 utc) "h"))
       (syslog.mk_env (mk_datetime 2024 1 3 9 0 0 0 utc) "h")
       None (Some (mk_datetime 2024 1 3 9 0 0 0 utc)) None.
Proof.
  destruct (default_timestamp_fixed_at_load
              (syslog.mk_env (mk_datetime 2024 1 2 3 4 5 678000 utc) "h")
              "h" (mk_datetime 2024 1 3 9 0 0 0 utc)
              eq_refl eq_refl) as (H1 & _ & _ & _ & _ & H6).
  split; [exact H1|].
  apply H6; [reflexivity | reflexivity |].
  vm_compute. discriminate.
Defined.

(** A call made a day after the load still carries the load-time
    timestamp. *)
Example default_timestamp_is_stale :
  let m := syslog.load (syslog.mk_env (mk_datetime 2024 1 2 3 4 5 678000 utc) "h") in
  let later := syslog.mk_env (mk_datetime 2024 1 3 9 0 0 0 utc) "h" in
  syslog.get_syslog_header m later None None None =
    Return "<38>1 2024-01-02T03:04:05.678+00:00 h"
  /\ syslog.get_syslog_header m later None (Some (syslog.clock later)) None =
    Return "<38>1 2024-01-03T09:00:00.000+00:00 h".
Proof. split; reflexivity. Qed.

(** ** Reading and writing the checkpoint *)

Lemma file_read_raises_OSError fs path e :
  file_read fs path = Raise e -> is_OSError e = true.
Proof.
  unfold file_read. destruct (fs !! path) as [[c| |se]|]; intros [=]; subst;
    reflexivity.
Qed.

Lemma json_loads_raises_ValueError s e :
  json_loads s = Raise e -> is_OSError e = false.
Proof.
  unfold json_loads.
  destruct (parse_value _ _) as [[v rest]|]; [destruct (skip_ws rest)|];
    intros [=]; subst; reflexivity.
Qed.

Lemma same_checkpoint_path cfg log_type child :
  consumer.file_path cfg log_type child =
  util.checkpoint_file_path (Config.get_checkpoint_dir cfg) log_type child.
Proof. reflexivity. Qed.

(** What a successful checkpoint write leaves behind. *)
Lemma update_log_checkpoint_ok cfg log_type o child w w' :
  consumer.update_log_checkpoint cfg log_type o child w = (Return tt, w') ->
  fs w' = <[consumer.file_path cfg log_type child :=
              FFile (json_dumps o ++ newline)]> (fs w)
  /\ running w' = running w
  /\ exists m, trace w' =
       (trace w ++ [EvCheckpoint log_type o child; EvLog m (Some INFO)])%list.
Proof.
  unfold consumer.update_log_checkpoint, file_write.
  set (w1 := Program.log _ _ _).
  destruct (fs w1 !! consumer.file_path cfg log_type child) as [[c| |se]|];
    intros [=]; subst w'; simpl;
    (split; [reflexivity | split; [reflexivity|]]);
    eexists; rewrite <- app_assoc; reflexivity.
Qed.

(** C5: after [update_log_checkpoint] has saved the integer [n] for a
    stream type and an optional child account, [get_log_offset] with
    the same stream type, the configured checkpoint directory and the
    same child account returns the integer [n] itself (a [JInt], not a
    string), without logging. Both functions compute the same path, and
    the file holds the decimal text of [n] and a newline. *)
Theorem checkpoint_round_trip (cfg : Config.t) (log_type : string) (n : Z)
    (child : option string) (w w' : World) :
  consumer.update_log_checkpoint cfg log_type (JInt n) child w = (Return tt, w') ->
  util.get_log_offset cfg log_type true (Config.get_checkpoint_dir cfg) child w'
    = (Return (JInt n), w')
  /\ consumer.file_path cfg log_type child =
     util.checkpoint_file_path (Config.get_checkpoint_dir cfg) log_type child
  /\ fs w' !! consumer.file_path cfg log_type child =
     Some (FFile (str_of_int n ++ newline)).
Proof.
  intros Hw. apply update_log_checkpoint_ok in Hw as (Hfs & _ & _).
  assert (Hlook : fs w' !! consumer.file_path cfg log_type child =
                  Some (FFile (json_dumps (JInt n) ++ newline)))
    by (rewrite Hfs; apply lookup_insert_eq).
  split; [|split; [reflexivity | exact Hlook]].
  unfold util.get_log_offset, file_read; cbv zeta.
  rewrite <- same_checkpoint_path, Hlook. cbv beta iota.
  rewrite json_loads_dumps_int. reflexivity.
Qed.


(** C4 (amended): when the checkpoint file cannot be opened (it is
    missing, or the path is a directory), [get_log_offset] does not
    raise: it returns the default offset and logs the fallback message.
    When the file is there and its content is not JSON, the decoding
    error is not an [OSError]; it is not caught, nothing is logged and
    the call raises it. *)
Theorem checkpoint_read_fallback (cfg : Config.t) (log_type dir : string)
    (child : option string) (w : World) :
  let path := util.checkpoint_file_path dir log_type child in
  (forall e, file_read (fs w) path = Raise e ->
     util.get_log_offset cfg log_type true dir child w =
       (Return (JInt (default_offset cfg log_type)),
        Program.log (fallback_message log_type) None w))
  /\ (forall content e,
        fs w !! path = Some (FFile content) ->
        json_loads content = Raise e ->
        util.get_log_offset cfg log_type true dir child w = (Raise e, w)).
Proof.
  intros path. split.
  - intros e He. unfold util.get_log_offset; cbv zeta. fold path.
    rewrite He. cbv beta iota.
    now rewrite (file_read_raises_OSError _ _ _ He).
  - intros content e Hf He.
    unfold util.get_log_offset, file_read; cbv zeta. fold path.
    rewrite Hf. cbv beta iota. rewrite He.
    now rewrite (json_loads_raises_ValueError _ _ He).
Qed.

(** Both cases on the concrete pipeline: no file, and an empty file. *)
Lemma checkpoint_read_fallback_witness :
  util.get_log_offset demo.cfg "auth" true "/var/dls" None demo.world0 =
    (Return (JInt 1700000000000),
     Program.log (fallback_message "auth") None demo.world0)
  /\ util.get_log_offset demo.cfg "auth" true "/var/dls" None demo.corrupt_world =
    (Raise (ValueError "Expecting value"), demo.corrupt_world).
Proof.
  pose proof (checkpoint_read_fallback demo.cfg "auth" "/var/dls" None demo.world0)
    as [H1 _].
  pose proof (checkpoint_read_fallback demo.cfg "auth" "/var/dls" None
                demo.corrupt_world) as [_ H2].
  split.
  - exact (H1 _ eq_refl).
  - exact (H2 "" _ eq_refl eq_refl).
Defined.

(** C4, as stated, fails: a checkpoint file that exists but holds no
    JSON text (here an empty file) makes the read raise. *)
Lemma checkpoint_read_raises_on_corrupt_file :
  fs demo.corrupt_world !! util.checkpoint_file_path "/var/dls" "auth" None =
    Some (FFile "")
  /\ util.get_log_offset demo.cfg "auth" true "/var/dls" None demo.corrupt_world =
    (Raise (ValueError "Expecting value"), demo.corrupt_world).
Proof. split; vm_compute; reflexivity. Qed.

(** C9: when recovery is off, or the checkpoint file cannot be opened,
    the starting offset is the configured one times 1000 for the stream
    type [Config.AUTH] and the configured one as it is for any other
    stream type. An offset decoded from the checkpoint file is returned
    as decoded, whatever the stream type. *)
Theorem starting_offset_scaling (cfg : Config.t) (log_type dir : string)
    (child : option string) (w : World) :
  let path := util.checkpoint_file_path dir log_type child in
  let start recover :=
    fst (util.get_log_offset cfg log_type recover dir child w) in
  (forall recover,
     (recover = true -> exists e, file_read (fs w) path = Raise e) ->
     (log_type = Config.AUTH cfg ->
        start recover = Return (JInt (Config.get_api_offset cfg * 1000)))
     /\ (log_type <> Config.AUTH cfg ->
        start recover = Return (JInt (Config.get_api_offset cfg))))
  /\ (forall content v,
        fs w !! path = Some (FFile content) ->
        json_loads content = Return v ->
        start true = Return v).
Proof.
  intros path start. split.
  - intros recover Hno.
    assert (Hs : start recover = Return (JInt (default_offset cfg log_type))).
    { unfold start, util.get_log_offset; cbv zeta. fold path.
      destruct recover; [|reflexivity].
      destruct (Hno eq_refl) as [e He]. rewrite He. cbv beta iota.
      now rewrite (file_read_raises_OSError _ _ _ He). }
    rewrite Hs. unfold default_offset. split.
    + intros ->. now rewrite String.eqb_refl.
    + intros Hne. apply String.eqb_neq in Hne. now rewrite Hne.
  - intros content v Hf Hv.
    unfold start, util.get_log_offset, file_read; cbv zeta. fold path.
    rewrite Hf. cbv beta iota. now rewrite Hv.
Qed.

(** ** Traces *)

Lemma writes_in_app a b : writes_in (a ++ b) = (writes_in a ++ writes_in b)%list.
Proof. induction a as [|[] a IH]; simpl; now rewrite ?IH. Qed.

Lemma formats_in_app a b :
  formats_in (a ++ b) = (formats_in a ++ formats_in b)%list.
Proof. induction a as [|[] a IH]; simpl; now rewrite ?IH. Qed.

Lemma shutdowns_in_app a b :
  shutdowns_in (a ++ b) = (shutdowns_in a ++ shutdowns_in b)%list.
Proof. induction a as [|[] a IH]; simpl; now rewrite ?IH. Qed.

Lemma checkpoints_in_app a b :
  checkpoints_in (a ++ b) = (checkpoints_in a ++ checkpoints_in b)%list.
Proof. induction a as [|[] a IH]; simpl; now rewrite ?IH. Qed.

Lemma last_or_None {A} (l : list A) : last_or None l = last l.
Proof. unfold last_or. now destruct (last l). Qed.

Lemma last_or_cons {A} (d : option A) x l :
  last_or d (x :: l) = last_or (Some x) l.
Proof. unfold last_or. rewrite last_cons. now destruct (last l). Qed.

Section ConsumerProperties.

Context {Labels Writer : Type}.
Context (log_to_cef : record -> Labels -> result string).
Context (extract : option record -> json).
Context (write : Writer -> string -> consumer.write_outcome Writer).
Context (cfg : Config.t) (host : syslog.env) (smod : syslog.module).

Local Abbreviation Consumer := (consumer.Consumer Labels).
Local Abbreviation format_log := (consumer.format_log Labels log_to_cef cfg host smod).
Local Abbreviation write_logs :=
  (consumer.write_logs Labels log_to_cef Writer write cfg host smod).
Local Abbreviation write_batch :=
  (consumer.write_batch Labels log_to_cef extract Writer write cfg host smod).
Local Abbreviation on_wake :=
  (consumer.on_wake Labels log_to_cef extract Writer write cfg host smod).
Local Abbreviation consume :=
  (consumer.consume Labels log_to_cef extract Writer write cfg host smod).
Local Abbreviation stamp := (consumer.stamp Labels).
Local Abbreviation all_written :=
  (consumer.all_written Labels log_to_cef Writer write cfg host smod).
Local Abbreviation attempt_fails :=
  (consumer.attempt_fails Labels log_to_cef Writer write cfg host smod).

Lemma write_logs_spec (self : Consumer) (logs : list record) :
  forall last w wr last' r w' wr',
    write_logs self logs last w wr = (last', r, w', wr') ->
    fs w' = fs w
    /\ exists evs,
        trace w' = (trace w ++ evs)%list
        /\ checkpoints_in evs = [] /\ shutdowns_in evs = []
        /\ match r with
           | inr _ =>
               last' = last_or last (map (stamp self) logs)
               /\ formats_in evs = map (stamp self) logs
               /\ length (writes_in evs) = length logs
           | inl e =>
               exists pre cur post,
                 logs = (pre ++ cur :: post)%list
                 /\ last' = last_or last (map (stamp self) pre)
                 /\ formats_in evs = map (stamp self) (pre ++ [cur])
           end.
Proof.
  induction logs as [|log rest IH]; intros last w wr last' r w' wr' H.
  - injection H as <- <- <- <-. split; [reflexivity|].
    exists []. rewrite app_nil_r. repeat split.
  - cbn [consumer.write_logs] in H.
    destruct (format_log self (stamp self log)) as [e|data] eqn:Hfmt.
    + injection H as <- <- <- <-. split; [reflexivity|].
      exists [EvFormat (stamp self log)]. repeat split.
      exists [], log, rest. repeat split.
    + destruct (consumer.write_error (write wr data)) as [e|] eqn:Hw.
      * injection H as <- <- <- <-. split; [reflexivity|].
        exists [EvFormat (stamp self log); EvWrite data].
        split; [simpl; now rewrite <- app_assoc|]. repeat split.
        exists [], log, rest. repeat split.
      * apply IH in H as (Hfs & evs & Htr & Hc & Hs & Hr).
        split; [exact Hfs|].
        exists (EvFormat (stamp self log) :: EvWrite data :: evs).
        split; [rewrite Htr; simpl; now rewrite <- !app_assoc|].
        simpl. repeat split; try assumption.
        destruct r as [e|[]].
        -- destruct Hr as (pre & cur & post & -> & Hl & Hf).
           exists (log :: pre), cur, post. simpl.
           rewrite last_or_cons, Hf. now repeat split.
        -- destruct Hr as (Hl & Hf & Hn). rewrite last_or_cons, Hf, Hn.
           now repeat split.
Qed.

(** The loop on records that are all written: it ends normally, with
    the last of them in [last_log_written]. *)
Lemma write_logs_all_written (self : Consumer) (logs : list record) :
  forall wr datas wr2 last w,
    all_written self logs wr datas wr2 ->
    exists w2 evs,
      write_logs self logs last w wr =
        (last_or last (map (stamp self) logs), Return tt, w2, wr2)
      /\ fs w2 = fs w
      /\ trace w2 = (trace w ++ evs)%list
      /\ writes_in evs = datas
      /\ formats_in evs = map (stamp self) logs
      /\ checkpoints_in evs = [] /\ shutdowns_in evs = []
      /\ (running w2 = true -> running w = true)
      /\ ((forall wr0 data, consumer.write_stop (write wr0 data) = false) ->
          running w2 = running w).
Proof.
  induction logs as [|log rest IH]; intros wr datas wr2 last w H.
  - destruct datas; [|contradiction]. simpl in H. subst wr2.
    exists w, []. rewrite app_nil_r. now repeat split.
  - destruct datas as [|data datas]; [contradiction|].
    cbn [consumer.all_written] in H. destruct H as (Hfmt & Hw & Hrest).
    cbn [consumer.write_logs]. rewrite Hfmt, Hw.
    match goal with
    | |- context [write_logs self rest ?l ?w0 ?wr0] =>
        destruct (IH wr0 datas wr2 l w0 Hrest)
          as (w2 & evs & Heq & Hfs & Htr & Hws & Hfs' & Hc & Hs & Hr1 & Hr2)
    end.
    exists w2, (EvFormat (stamp self log) :: EvWrite data :: evs).
    rewrite Heq. split; [cbn [map]; now rewrite last_or_cons|].
    split; [rewrite Hfs; reflexivity|].
    split; [rewrite Htr; simpl; now rewrite <- !app_assoc|].
    simpl. rewrite Hws, Hfs', Hc, Hs. repeat split.
    + intros Hr. apply Hr1 in Hr. simpl in Hr.
      now apply andb_true_iff in Hr as [Hr _].
    + intros Hstop. rewrite (Hr2 Hstop). simpl. rewrite Hstop.
      apply andb_true_r.
Qed.

(** The loop on records of which one fails: the records before it are
    written, and [last_log_written] is the one just before it. *)
Lemma write_logs_attempt_fails (self : Consumer) (pre : list record) :
  forall wr datas wr1 cur e attempted wr2 post last w,
    all_written self pre wr datas wr1 ->
    attempt_fails self cur wr1 e attempted wr2 ->
    exists w2 evs,
      write_logs self (pre ++ cur :: post) last w wr =
        (last_or last (map (stamp self) pre), Raise e, w2, wr2)
      /\ fs w2 = fs w
      /\ trace w2 = (trace w ++ evs)%list
      /\ writes_in evs = (datas ++ attempted)%list
      /\ formats_in evs = map (stamp self) (pre ++ [cur])
      /\ checkpoints_in evs = [] /\ shutdowns_in evs = []
      /\ (running w = false -> running w2 = false).
Proof.
  induction pre as [|log rest IH];
    intros wr datas wr1 cur e attempted wr2 post last w H Hfail.
  - destruct datas; [|contradiction]. simpl in H. subst wr1.
    unfold consumer.attempt_fails in Hfail.
    cbn [app consumer.write_logs].
    destruct (format_log self (stamp self cur)) as [e0|data].
    + destruct Hfail as (-> & -> & ->).
      eexists _, [EvFormat (stamp self cur)].
      split; [reflexivity|]. now repeat split.
    + destruct Hfail as (Hw & -> & ->). rewrite Hw.
      eexists _, [EvFormat (stamp self cur); EvWrite data].
      split; [reflexivity|]. split; [reflexivity|].
      split; [simpl; now rewrite <- app_assoc|]. repeat split.
      simpl. now intros ->.
  - destruct datas as [|data datas]; [contradiction|].
    cbn [consumer.all_written] in H. destruct H as (Hfmt & Hw & Hrest).
    cbn [app consumer.write_logs]. rewrite Hfmt, Hw.
    match goal with
    | |- context [write_logs self _ ?l ?w0 ?wr0] =>
        destruct (IH wr0 datas wr1 cur e attempted wr2 post l w0 Hrest Hfail)
          as (w2 & evs & Heq & Hfs & Htr & Hws & Hfs' & Hc & Hs & Hr)
    end.
    exists w2, (EvFormat (stamp self log) :: EvWrite data :: evs).
    rewrite Heq. split; [cbn [map]; now rewrite last_or_cons|].
    split; [rewrite Hfs; reflexivity|].
    split; [rewrite Htr; simpl; now rewrite <- !app_assoc|].
    simpl. rewrite Hws, Hfs', Hc, Hs. repeat split.
    intros Hoff. apply Hr. simpl. now rewrite Hoff.
Qed.

(** Every run of the loop is of one of the two kinds. *)
Lemma all_written_or_attempt_fails (self : Consumer) (logs : list record) :
  forall wr,
    (exists datas wr2, all_written self logs wr datas wr2)
    \/ (exists pre cur post datas wr1 e attempted wr2,
          logs = (pre ++ cur :: post)%list
          /\ all_written self pre wr datas wr1
          /\ attempt_fails self cur wr1 e attempted wr2).
Proof.
  induction logs as [|log rest IH]; intros wr.
  - left. now exists [], wr.
  - destruct (format_log self (stamp self log)) as [e|data] eqn:Hfmt.
    + right. exists [], log, rest, [], wr, e, [], wr.
      split; [reflexivity|]. split; [reflexivity|].
      unfold consumer.attempt_fails. now rewrite Hfmt.
    + destruct (consumer.write_error (write wr data)) as [e|] eqn:Hw.
      * right.
        exists [], log, rest, [], wr, e, [data],
          (consumer.next_writer (write wr data)).
        split; [reflexivity|]. split; [reflexivity|].
        unfold consumer.attempt_fails. rewrite Hfmt. now rewrite Hw.
      * destruct (IH (consumer.next_writer (write wr data)))
          as [(datas & wr2 & H) |
              (pre & cur & post & datas & wr1 & e & att & wr2 & -> & H & Hf)].
        -- left. exists (data :: datas), wr2. now repeat split.
        -- right. exists (log :: pre), cur, post, (data :: datas), wr1, e,
             att, wr2.
           split; [reflexivity|]. split; [now repeat split | exact Hf].
Qed.

Lemma update_log_checkpoint_trace log_type o child w :
  exists m,
    trace (snd (consumer.update_log_checkpoint cfg log_type o child w)) =
      (trace w ++ [EvCheckpoint log_type o child; EvLog m (Some INFO)])%list
    /\ running (snd (consumer.update_log_checkpoint cfg log_type o child w)) =
       running w.
Proof.
  unfold consumer.update_log_checkpoint, file_write.
  set (w1 := Program.log _ _ _).
  destruct (fs w1 !! consumer.file_path cfg log_type child) as [[c| |se]|];
    eexists; simpl; rewrite <- app_assoc; split; reflexivity.
Qed.

(** The [except] and [finally] clauses, once the loop has ended with
    [r0]: shutdown is requested for a [BrokenPipeError] only, the
    checkpoint call is made with the offset of [last_log_written] in
    every case, and an exception of the checkpoint write replaces
    whatever the loop raised. *)
Lemma write_batch_after_loop (self : Consumer) (logs : list record) w wr
    lw (r0 : result unit) w1 wr1 :
  write_logs self logs None
    (Program.log (consumer.log_type Labels self ++ " consumer: writing logs")
                 (Some INFO) w) wr = (lw, r0, w1, wr1) ->
  exists w3 c w' tail,
    consumer.update_log_checkpoint cfg (consumer.log_type Labels self)
      (extract lw) (consumer.child_account_id Labels self) w3 = (c, w')
    /\ write_batch self logs w wr =
         (consumer.set_log_offset Labels (extract lw) self,
          match c with
          | inl e' => Raise e'
          | inr _ =>
              match r0 with
              | inl e => if is_BrokenPipeError e then Return tt else Raise e
              | inr _ => Return tt
              end
          end, w', wr1)
    /\ trace w' = (trace w1 ++ tail)%list
    /\ writes_in tail = [] /\ formats_in tail = []
    /\ shutdowns_in tail =
         match r0 with
         | inl e => if is_BrokenPipeError e then [exn_str e] else []
         | inr _ => []
         end
    /\ checkpoints_in tail =
         [(consumer.log_type Labels self, extract lw,
           consumer.child_account_id Labels self)]
    /\ running w' =
         match r0 with
         | inl e => if is_BrokenPipeError e then false else running w1
         | inr _ => running w1
         end.
Proof.
  intros Hwl. unfold consumer.write_batch. rewrite Hwl.
  cbn [consumer.set_log_offset consumer.log_type consumer.log_offset
       consumer.child_account_id].
  destruct r0 as [e|[]]; [destruct (is_BrokenPipeError e) eqn:Hbp|].
  all: match goal with
       | |- context [consumer.update_log_checkpoint cfg ?lt ?o ?ch ?w3] =>
           destruct (update_log_checkpoint_trace lt o ch w3) as (m & Hu & Hrn);
           destruct (consumer.update_log_checkpoint cfg lt o ch w3)
             as [c w4] eqn:Hc;
           exists w3, c, w4
       end.
  all: cbn [snd] in Hu, Hrn.
  all: eexists; split; [exact Hc|].
  all: split; [destruct c as [e'|[]]; reflexivity|].
  all: split; [rewrite Hu; simpl; rewrite <- !app_assoc; reflexivity|].
  all: rewrite ?Hbp; simpl; repeat split; exact Hrn.
Qed.

(** A running consumer that wakes with a non-empty batch runs the
    [try] statement on it. *)
Lemma on_wake_nonempty (self : Consumer) (d : consumer.delivery) w wr :
  Program.is_running (interfere (consumer.stop_of d) w) = true ->
  consumer.logs_of d <> [] ->
  on_wake self d w wr =
    write_batch self (consumer.logs_of d)
      (Program.log
         (consumer.log_type Labels self ++ " consumer: received " ++
          str_of_int (Z.of_nat (length (consumer.logs_of d))) ++
          " logs from producer") (Some INFO)
         (interfere (consumer.stop_of d) w)) wr.
Proof.
  intros Hrun Hne. unfold consumer.on_wake. rewrite Hrun. cbn [negb].
  destruct (consumer.logs_of d); [contradiction | reflexivity].
Qed.

(** One turn of the loop on a batch whose records are all written. *)
Lemma on_wake_all_written (self : Consumer) (d : consumer.delivery) w wr
    datas wr2 :
  Program.is_running (interfere (consumer.stop_of d) w) = true ->
  consumer.logs_of d <> [] ->
  all_written self (consumer.logs_of d) wr datas wr2 ->
  exists r w' evs w3 c,
    on_wake self d w wr =
      (consumer.set_log_offset Labels
         (extract (last (map (stamp self) (consumer.logs_of d)))) self,
       r, w', wr2)
    /\ trace w' = (trace w ++ evs)%list
    /\ writes_in evs = datas
    /\ formats_in evs = map (stamp self) (consumer.logs_of d)
    /\ shutdowns_in evs = []
    /\ checkpoints_in evs =
         [(consumer.log_type Labels self,
           extract (last (map (stamp self) (consumer.logs_of d))),
           consumer.child_account_id Labels self)]
    /\ consumer.update_log_checkpoint cfg (consumer.log_type Labels self)
         (extract (last (map (stamp self) (consumer.logs_of d))))
         (consumer.child_account_id Labels self) w3 = (c, w')
    /\ r = match c with inl e' => Raise e' | inr _ => Return tt end
    /\ ((forall wr0 data, consumer.write_stop (write wr0 data) = false) ->
        Program.is_running w' = true).
Proof.
  intros Hrun Hne Hall. rewrite on_wake_nonempty by assumption.
  match goal with
  | |- context [write_batch self ?ls ?w0 wr] =>
      destruct (write_logs_all_written self ls wr datas wr2 None
                  (Program.log (consumer.log_type Labels self ++
                                " consumer: writing logs") (Some INFO) w0)
                  Hall)
        as (w1 & evs1 & Heq & _ & Htr & Hws & Hfs & Hc & Hs & _ & Hr);
      destruct (write_batch_after_loop self ls w0 wr _ _ _ _ Heq)
        as (w3 & c & w' & tail & Hu & Hb & Ht & Hw2 & Hf2 & Hs2 & Hc2 & Hr2)
  end.
  rewrite last_or_None in *.
  exists (match c with inl e' => Raise e' | inr _ => Return tt end), w',
    (EvLog (consumer.log_type Labels self ++ " consumer: received " ++
            str_of_int (Z.of_nat (length (consumer.logs_of d))) ++
            " logs from producer") (Some INFO)
     :: EvLog (consumer.log_type Labels self ++ " consumer: writing logs")
              (Some INFO) :: evs1 ++ tail)%list, w3, c.
  split; [exact Hb|]. split.
  { rewrite Ht, Htr. simpl. rewrite <- !app_assoc. reflexivity. }
  simpl. rewrite !writes_in_app, !formats_in_app, !shutdowns_in_app,
    !checkpoints_in_app, Hws, Hfs, Hc, Hs, Hw2, Hf2, Hs2, Hc2.
  rewrite !app_nil_r. repeat split; try assumption.
  intros Hstop. unfold Program.is_running in *.
  rewrite Hr2, (Hr Hstop). exact Hrun.
Qed.

(** One turn of the loop on a batch in which the attempt on one record
    fails. *)
Lemma on_wake_attempt_fails (self : Consumer) (d : consumer.delivery) w wr
    pre cur post datas wr1 e attempted wr2 :
  Program.is_running (interfere (consumer.stop_of d) w) = true ->
  consumer.logs_of d = (pre ++ cur :: post)%list ->
  all_written self pre wr datas wr1 ->
  attempt_fails self cur wr1 e attempted wr2 ->
  exists r w' evs w3 c,
    on_wake self d w wr =
      (consumer.set_log_offset Labels
         (extract (last (map (stamp self) pre))) self, r, w', wr2)
    /\ trace w' = (trace w ++ evs)%list
    /\ writes_in evs = (datas ++ attempted)%list
    /\ formats_in evs = map (stamp self) (pre ++ [cur])
    /\ shutdowns_in evs = (if is_BrokenPipeError e then [exn_str e] else [])
    /\ checkpoints_in evs =
         [(consumer.log_type Labels self,
           extract (last (map (stamp self) pre)),
           consumer.child_account_id Labels self)]
    /\ consumer.update_log_checkpoint cfg (consumer.log_type Labels self)
         (extract (last (map (stamp self) pre)))
         (consumer.child_account_id Labels self) w3 = (c, w')
    /\ r = match c with
           | inl e' => Raise e'
           | inr _ => if is_BrokenPipeError e then Return tt else Raise e
           end
    /\ (is_BrokenPipeError e = true -> Program.is_running w' = false).
Proof.
  intros Hrun Hlogs Hall Hfail.
  rewrite on_wake_nonempty by (assumption || (rewrite Hlogs; now destruct pre)).
  rewrite Hlogs.
  match goal with
  | |- context [write_batch self ?ls ?w0 wr] =>
      destruct (write_logs_attempt_fails self pre wr datas wr1 cur e attempted
                  wr2 post None
                  (Program.log (consumer.log_type Labels self ++
                                " consumer: writing logs") (Some INFO) w0)
                  Hall Hfail)
        as (w1 & evs1 & Heq & _ & Htr & Hws & Hfs & Hc & Hs & _);
      destruct (write_batch_after_loop self ls w0 wr _ _ _ _ Heq)
        as (w3 & c & w' & tail & Hu & Hb & Ht & Hw2 & Hf2 & Hs2 & Hc2 & Hr2)
  end.
  rewrite last_or_None in *.
  exists (match c with
          | inl e' => Raise e'
          | inr _ => if is_BrokenPipeError e then Return tt else Raise e
          end), w',
    (EvLog (consumer.log_type Labels self ++ " consumer: received " ++
            str_of_int (Z.of_nat (length (pre ++ cur :: post))) ++
            " logs from producer") (Some INFO)
     :: EvLog (consumer.log_type Labels self ++ " consumer: writing logs")
              (Some INFO) :: evs1 ++ tail)%list, w3, c.
  split; [exact Hb|]. split.
  { rewrite Ht, Htr. simpl. rewrite <- !app_assoc. reflexivity. }
  simpl. rewrite !writes_in_app, !formats_in_app, !shutdowns_in_app,
    !checkpoints_in_app, Hws, Hfs, Hc, Hs, Hw2, Hf2, Hs2, Hc2.
  rewrite !app_nil_r. repeat split; try assumption.
  intros Hbp. unfold Program.is_running. rewrite Hr2, Hbp. reflexivity.
Qed.

(** C1 (amended): for a non-empty batch, [update_log_checkpoint] is
    called exactly once, with the offset extracted from
    [last_log_written], and that variable is assigned after a write has
    completed. When every record of the batch is formatted and written,
    the offset is that of the last record of the batch. When the records
    [pre] are written and the attempt on the next record [cur] fails, in
    the formatter or in the writer, with a broken pipe or with any other
    exception, the offset is that of the last record of [pre], not of
    [cur], and the one extracted from [None] when [cur] is the first
    record; the records after [cur] are not touched. Every run is of one
    of these two kinds. *)
Theorem checkpoint_is_last_completed_write
    (self : Consumer) (d : consumer.delivery) w wr :
  Program.is_running (interfere (consumer.stop_of d) w) = true ->
  consumer.logs_of d <> [] ->
  (forall datas wr2,
     all_written self (consumer.logs_of d) wr datas wr2 ->
     exists r w' evs,
       on_wake self d w wr =
         (consumer.set_log_offset Labels
            (extract (last (map (stamp self) (consumer.logs_of d)))) self,
          r, w', wr2)
       /\ trace w' = (trace w ++ evs)%list
       /\ writes_in evs = datas
       /\ formats_in evs = map (stamp self) (consumer.logs_of d)
       /\ shutdowns_in evs = []
       /\ checkpoints_in evs =
            [(consumer.log_type Labels self,
              extract (last (map (stamp self) (consumer.logs_of d))),
              consumer.child_account_id Labels self)])
  /\ (forall pre cur post datas wr1 e attempted wr2,
        consumer.logs_of d = (pre ++ cur :: post)%list ->
        all_written self pre wr datas wr1 ->
        attempt_fails self cur wr1 e attempted wr2 ->
        exists r w' evs,
          on_wake self d w wr =
            (consumer.set_log_offset Labels
               (extract (last (map (stamp self) pre))) self, r, w', wr2)
          /\ trace w' = (trace w ++ evs)%list
          /\ writes_in evs = (datas ++ attempted)%list
          /\ formats_in evs = map (stamp self) (pre ++ [cur])
          /\ shutdowns_in evs =
               (if is_BrokenPipeError e then [exn_str e] else [])
          /\ checkpoints_in evs =
               [(consumer.log_type Labels self,
                 extract (last (map (stamp self) pre)),
                 consumer.child_account_id Labels self)])
  /\ ((exists datas wr2, all_written self (consumer.logs_of d) wr datas wr2)
      \/ (exists pre cur post datas wr1 e attempted wr2,
            consumer.logs_of d = (pre ++ cur :: post)%list
            /\ all_written self pre wr datas wr1
            /\ attempt_fails self cur wr1 e attempted wr2)).
Proof.
  intros Hrun Hne. split; [|split].
  - intros datas wr2 Hall.
    destruct (on_wake_all_written self d w wr datas wr2 Hrun Hne Hall)
      as (r & w' & evs & _ & _ & Heq & Htr & Hws & Hfs & Hs & Hc & _).
    exists r, w', evs. now repeat split.
  - intros pre cur post datas wr1 e attempted wr2 Hlogs Hall Hfail.
    destruct (on_wake_attempt_fails self d w wr pre cur post datas wr1 e
                attempted wr2 Hrun Hlogs Hall Hfail)
      as (r & w' & evs & _ & _ & Heq & Htr & Hws & Hfs & Hs & Hc & _).
    exists r, w', evs. now repeat split.
  - apply all_written_or_attempt_fails.
Qed.

(** C2 (amended): five records, the first two written, and the third
    write raises. The writer is called three times and is left as the
    third call left it, records four and five are never formatted, and
    the checkpoint receives the offset of the second record. When the
    exception is a [BrokenPipeError], shutdown is requested once, with
    the text of the error, and the running flag is cleared. When it is
    any other exception, a [ConnectionResetError] for one, shutdown is
    not requested and the turn ends with an exception. *)
Theorem broken_pipe_on_third_of_five
    (self : Consumer) (r1 r2 r3 r4 r5 : record) (d1 d2 d3 : string)
    (wr wr1 wr2 wr3 : Writer) (s1 s2 s3 : bool) (e : exn) w :
  Program.is_running w = true ->
  format_log self (stamp self r1) = Return d1 ->
  format_log self (stamp self r2) = Return d2 ->
  format_log self (stamp self r3) = Return d3 ->
  write wr d1 = consumer.mk_outcome wr1 None s1 ->
  write wr1 d2 = consumer.mk_outcome wr2 None s2 ->
  write wr2 d3 = consumer.mk_outcome wr3 (Some e) s3 ->
  exists self' r w' evs,
    on_wake self (consumer.mk_delivery [r1; r2; r3; r4; r5] false) w wr =
      (self', r, w', wr3)
    /\ trace w' = (trace w ++ evs)%list
    /\ writes_in evs = [d1; d2; d3]
    /\ formats_in evs = [stamp self r1; stamp self r2; stamp self r3]
    /\ checkpoints_in evs =
         [(consumer.log_type Labels self, extract (Some (stamp self r2)),
           consumer.child_account_id Labels self)]
    /\ consumer.log_offset Labels self' = extract (Some (stamp self r2))
    /\ (forall reason, e = BrokenPipeError reason ->
          shutdowns_in evs = [reason] /\ Program.is_running w' = false)
    /\ (is_BrokenPipeError e = false ->
          shutdowns_in evs = [] /\ exists e', r = Raise e').
Proof.
  intros Hrun F1 F2 F3 W1 W2 W3.
  assert (Hrun' : Program.is_running
                    (interfere (consumer.stop_of
                       (consumer.mk_delivery [r1; r2; r3; r4; r5] false)) w)
                  = true)
    by (unfold Program.is_running in *; cbn; now rewrite Hrun).
  destruct (on_wake_attempt_fails self
              (consumer.mk_delivery [r1; r2; r3; r4; r5] false) w wr
              [r1; r2] r3 [r4; r5] [d1; d2] wr2 e [d3] wr3 Hrun' eq_refl)
    as (r & w' & evs & w3 & c & Heq & Htr & Hws & Hfs & Hs & Hc & Hu & Hr
        & Hoff).
  { cbn [consumer.all_written]. rewrite F1, W1. cbn. rewrite F2, W2. cbn.
    now repeat split. }
  { unfold consumer.attempt_fails. rewrite F3, W3. cbn. now repeat split. }
  eexists _, r, w', evs. split; [exact Heq|].
  split; [exact Htr|]. split; [exact Hws|]. split; [exact Hfs|].
  split; [exact Hc|]. split; [reflexivity|]. split.
  - intros reason ->. split; [exact Hs | now apply Hoff].
  - intros Hbp. rewrite Hbp in Hs, Hr. split; [exact Hs|].
    destruct c as [e'|[]]; eauto.
Qed.

(** C3 (amended): with a format that is neither [Config.CEF] nor
    [Config.JSON], [format_log] raises a [ValueError] for every record.
    When a consumer with such a format wakes with a non-empty batch, the
    first call of [format_log] raises, the writer is never called and no
    shutdown is requested; the [finally] clause still calls
    [update_log_checkpoint] once, with the offset extracted from [None],
    and the task ends with an exception. *)
Theorem unsupported_format_raises (self : Consumer) :
  consumer.log_format Labels self <> Config.CEF cfg ->
  consumer.log_format Labels self <> Config.JSON cfg ->
  (forall log,
     format_log self log =
       Raise (ValueError (consumer.log_format Labels self ++
                          " is not a supported log format")))
  /\ (forall d w wr self' r w' wr',
        Program.is_running (interfere (consumer.stop_of d) w) = true ->
        consumer.logs_of d <> [] ->
        on_wake self d w wr = (self', r, w', wr') ->
        wr' = wr
        /\ (exists e, r = Raise e)
        /\ exists evs,
            trace w' = (trace w ++ evs)%list
            /\ writes_in evs = []
            /\ shutdowns_in evs = []
            /\ checkpoints_in evs =
                 [(consumer.log_type Labels self, extract None,
                   consumer.child_account_id Labels self)]).
Proof.
  intros Hcef Hjson.
  assert (Hfmt : forall log,
    format_log self log =
      Raise (ValueError (consumer.log_format Labels self ++
                         " is not a supported log format"))).
  { intros log. unfold consumer.format_log.
    apply String.eqb_neq in Hcef, Hjson. now rewrite Hcef, Hjson. }
  split; [exact Hfmt|].
  intros d w wr self' r w' wr' Hrun Hne Hw.
  rewrite on_wake_nonempty in Hw by assumption.
  destruct (consumer.logs_of d) as [|l rest]; [contradiction|].
  unfold consumer.write_batch in Hw. cbn [consumer.write_logs] in Hw.
  rewrite Hfmt in Hw. cbn [is_BrokenPipeError] in Hw.
  match type of Hw with
  | context [consumer.update_log_checkpoint cfg ?lt ?o ?c ?w3] =>
      destruct (update_log_checkpoint_trace lt o c w3) as (m & Hu & _);
      destruct (consumer.update_log_checkpoint cfg lt o c w3) as [c0 w4]
  end.
  cbn [snd consumer.set_log_offset consumer.log_type consumer.log_offset
       consumer.child_account_id] in Hu.
  assert (Hres : wr' = wr /\ w' = w4 /\ exists e, r = Raise e).
  { destruct c0 as [e|[]]; injection Hw as <- <- <- <-; eauto. }
  destruct Hres as (-> & -> & He).
  repeat split; [exact He|].
  eexists. split.
  { rewrite Hu. simpl. rewrite <- !app_assoc. reflexivity. }
  repeat split.
Qed.

(** C6: a running consumer that wakes with an empty batch only logs two
    messages. No record is formatted, the writer is not called,
    [update_log_checkpoint] is not called, and the files, the writer and
    the consumer's own offset are what they were. *)
Theorem empty_batch_writes_nothing
    (self : Consumer) (d : consumer.delivery) w wr :
  Program.is_running (interfere (consumer.stop_of d) w) = true ->
  consumer.logs_of d = [] ->
  exists w' evs,
    on_wake self d w wr = (self, Return tt, w', wr)
    /\ fs w' = fs w
    /\ trace w' = (trace w ++ evs)%list
    /\ evs =
         [EvLog (consumer.log_type Labels self ++
                 " consumer: received 0 logs from producer") (Some INFO);
          EvLog (consumer.log_type Labels self ++
                 " consumer: No logs to write") (Some INFO)]
    /\ formats_in evs = [] /\ writes_in evs = []
    /\ checkpoints_in evs = [] /\ shutdowns_in evs = [].
Proof.
  intros Hrun Hempty. unfold consumer.on_wake. rewrite Hrun, Hempty.
  cbn [negb length]. eexists _, _. split; [reflexivity|].
  split; [reflexivity|]. split.
  { simpl. rewrite <- app_assoc. reflexivity. }
  repeat split.
Qed.

(** C7: a consumer that was waiting and wakes after shutdown has been
    requested drops the batch, whatever it holds: the turn of the loop
    does nothing at all, and [consume] then leaves the loop, logs that
    it is shutting down and returns normally. Nothing is formatted,
    written or checkpointed. *)
Theorem wake_after_shutdown_discards_batch
    (self : Consumer) (d : consumer.delivery)
    (queue : list consumer.delivery) w wr :
  Program.is_running w = true ->
  consumer.stop_of d = true ->
  (forall w1, on_wake self d w1 wr =
                (self, Return tt, interfere true w1, wr))
  /\ exists w' evs,
      consume self (d :: queue) w wr = (self, consumer.Terminated, w', wr)
      /\ fs w' = fs w
      /\ Program.is_running w' = false
      /\ trace w' = (trace w ++ evs)%list
      /\ evs =
           [EvLog (consumer.log_type Labels self ++
                   " consumer: waiting for logs") (Some INFO);
            EvLog (consumer.log_type Labels self ++
                   " consumer: shutting down") (Some INFO)]
      /\ formats_in evs = [] /\ writes_in evs = []
      /\ checkpoints_in evs = [] /\ shutdowns_in evs = [].
Proof.
  intros Hrun Hstop.
  assert (Hwake : forall w1, on_wake self d w1 wr =
                               (self, Return tt, interfere true w1, wr)).
  { intros w1. unfold consumer.on_wake, Program.is_running, interfere.
    rewrite Hstop. cbn. now rewrite andb_false_r. }
  split; [exact Hwake|].
  eexists _, _. split.
  { cbn [consumer.consume]. rewrite Hrun, Hwake.
    destruct queue; cbn [consumer.consume];
      unfold Program.is_running; cbn; rewrite andb_false_r; reflexivity. }
  split; [reflexivity|]. split; [cbn; apply andb_false_r|]. split.
  { simpl. rewrite <- app_assoc. reflexivity. }
  repeat split.
Qed.

End ConsumerProperties.

(* ===================================================================== *)
(** * The properties on the concrete pipeline *)
(* ===================================================================== *)

(** The round trip of the spec's example: 12345 for the auth stream. *)
Lemma checkpoint_round_trip_witness :
  consumer.update_log_checkpoint demo.cfg "auth" (JInt 12345) None demo.world0
    = (Return tt, demo.saved_world)
  /\ util.get_log_offset demo.cfg "auth" true "/var/dls" None demo.saved_world
    = (Return (JInt 12345), demo.saved_world).
Proof.
  assert (H : consumer.update_log_checkpoint demo.cfg "auth" (JInt 12345) None
                demo.world0 = (Return tt, demo.saved_world))
    by (vm_compute; reflexivity).
  split; [exact H|].
  exact (proj1 (checkpoint_round_trip demo.cfg "auth" 12345 None demo.world0
                  demo.saved_world H)).
Defined.

(** The three cases of the scaling: auth, another stream, and a saved
    checkpoint. *)
Lemma starting_offset_scaling_witness :
  fst (util.get_log_offset demo.cfg "auth" true "/var/dls" None demo.world0)
    = Return (JInt (1700000000 * 1000))
  /\ fst (util.get_log_offset demo.cfg "telephony" true "/var/dls" None
            demo.world0)
    = Return (JInt 1700000000)
  /\ fst (util.get_log_offset demo.cfg "auth" true "/var/dls" None
            demo.saved_world)
    = Return (JInt 12345).
Proof.
  assert (Hmissing : forall lt, true = true ->
            exists e, file_read (fs demo.world0)
                        (util.checkpoint_file_path "/var/dls" lt None)
                      = Raise e)
    by (intros lt _; eexists; reflexivity).
  assert (Hfile : fs demo.saved_world
                    !! util.checkpoint_file_path "/var/dls" "auth" None
                  = Some (FFile ("12345" ++ newline)))
    by (vm_compute; reflexivity).
  assert (Hloads : json_loads ("12345" ++ newline) = Return (JInt 12345))
    by (vm_compute; reflexivity).
  split; [|split].
  - exact (proj1 (proj1 (starting_offset_scaling demo.cfg "auth" "/var/dls"
                           None demo.world0) true (Hmissing "auth")) eq_refl).
  - apply (proj2 (proj1 (starting_offset_scaling demo.cfg "telephony"
                           "/var/dls" None demo.world0) true
                        (Hmissing "telephony"))).
    discriminate.
  - exact (proj2 (starting_offset_scaling demo.cfg "auth" "/var/dls" None
                    demo.saved_world) _ _ Hfile Hloads).
Defined.

(** The batch whose second write breaks: the first record is written,
    the attempt on the second fails, and the checkpoint receives the
    offset of the first. *)
Lemma checkpoint_is_last_completed_write_witness :
  exists r w' evs,
    demo.on_wake 2 demo.json_consumer demo.broken_batch demo.world0 0%nat =
      (consumer.set_log_offset unit
         (demo.extract
            (last (map (consumer.stamp unit demo.json_consumer)
                       [demo.log_at 100]))) demo.json_consumer,
       r, w', 2%nat)
    /\ trace w' = (trace demo.world0 ++ evs)%list
    /\ writes_in evs =
         ([demo.data_of (demo.log_at 100)] ++
          [demo.data_of (demo.log_at 200)])%list
    /\ formats_in evs =
         map (consumer.stamp unit demo.json_consumer)
             ([demo.log_at 100] ++ [demo.log_at 200])
    /\ shutdowns_in evs =
         (if is_BrokenPipeError (BrokenPipeError "[Errno 32] Broken pipe")
          then [exn_str (BrokenPipeError "[Errno 32] Broken pipe")] else [])
    /\ checkpoints_in evs =
         [("auth",
           demo.extract
             (last (map (consumer.stamp unit demo.json_consumer)
                        [demo.log_at 100])), None)].
Proof.
  assert (Hne : consumer.logs_of demo.broken_batch <> []) by discriminate.
  apply (proj1 (proj2
           (checkpoint_is_last_completed_write demo.to_cef demo.extract
              (demo.writer_failing_at 2) demo.cfg demo.host demo.smod
              demo.json_consumer demo.broken_batch demo.world0 0%nat
              eq_refl Hne))
           [demo.log_at 100] (demo.log_at 200) []
           [demo.data_of (demo.log_at 100)] 1%nat
           (BrokenPipeError "[Errno 32] Broken pipe")
           [demo.data_of (demo.log_at 200)] 2%nat).
  - reflexivity.
  - vm_compute. repeat split.
  - vm_compute. repeat split.
Defined.

(** Five records against a writer that breaks on its third call, and
    against one whose connection is reset on its third call. *)
Lemma broken_pipe_on_third_of_five_witness :
  (exists self' r w' evs,
     demo.on_wake 3 demo.json_consumer (consumer.mk_delivery demo.five false)
                  demo.world0 0%nat = (self', r, w', 3%nat)
     /\ trace w' = (trace demo.world0 ++ evs)%list
     /\ writes_in evs =
          [demo.data_of (demo.log_at 1704164645);
           demo.data_of (demo.log_at 1704164646);
           demo.data_of (demo.log_at 1704164647)]
     /\ formats_in evs =
          [demo.log_at 1704164645; demo.log_at 1704164646;
           demo.log_at 1704164647]
     /\ checkpoints_in evs = [("auth", JInt 1704164647, None)]
     /\ consumer.log_offset unit self' = JInt 1704164647
     /\ shutdowns_in evs = ["[Errno 32] Broken pipe"]
     /\ Program.is_running w' = false)
  /\ (exists self' r w' evs,
        consumer.on_wake unit demo.to_cef demo.extract nat
          (demo.writer_reset_at 3) demo.cfg demo.host demo.smod
          demo.json_consumer (consumer.mk_delivery demo.five false)
          demo.world0 0%nat = (self', r, w', 3%nat)
        /\ trace w' = (trace demo.world0 ++ evs)%list
        /\ writes_in evs =
             [demo.data_of (demo.log_at 1704164645);
              demo.data_of (demo.log_at 1704164646);
              demo.data_of (demo.log_at 1704164647)]
        /\ checkpoints_in evs = [("auth", JInt 1704164647, None)]
        /\ shutdowns_in evs = []
        /\ exists e', r = Raise e').
Proof.
  split.
  - destruct (broken_pipe_on_third_of_five demo.to_cef demo.extract
                (demo.writer_failing_at 3) demo.cfg demo.host demo.smod
                demo.json_consumer
                (demo.log_at 1704164645) (demo.log_at 1704164646)
                (demo.log_at 1704164647) (demo.log_at 1704164648)
                (demo.log_at 1704164649)
                (demo.data_of (demo.log_at 1704164645))
                (demo.data_of (demo.log_at 1704164646))
                (demo.data_of (demo.log_at 1704164647))
                0%nat 1%nat 2%nat 3%nat false false false
                (BrokenPipeError "[Errno 32] Broken pipe") demo.world0
                eq_refl eq_refl eq_refl eq_refl eq_refl eq_refl eq_refl)
      as (self' & r & w' & evs & Heq & Htr & Hws & Hfs & Hc & Ho & Hbp & _).
    destruct (Hbp _ eq_refl) as [Hs Hoff].
    exists self', r, w', evs. repeat split; assumption.
  - destruct (broken_pipe_on_third_of_five demo.to_cef demo.extract
                (demo.writer_reset_at 3) demo.cfg demo.host demo.smod
                demo.json_consumer
                (demo.log_at 1704164645) (demo.log_at 1704164646)
                (demo.log_at 1704164647) (demo.log_at 1704164648)
                (demo.log_at 1704164649)
                (demo.data_of (demo.log_at 1704164645))
                (demo.data_of (demo.log_at 1704164646))
                (demo.data_of (demo.log_at 1704164647))
                0%nat 1%nat 2%nat 3%nat false false false
                (ConnectionResetError "[Errno 104] Connection reset by peer")
                demo.world0
                eq_refl eq_refl eq_refl eq_refl eq_refl eq_refl eq_refl)
      as (self' & r & w' & evs & Heq & Htr & Hws & Hfs & Hc & Ho & _ & Hother).
    destruct (Hother eq_refl) as [Hs Hr].
    exists self', r, w', evs. repeat split; assumption.
Defined.

(** The consumer whose format is ["xml"]. *)
Lemma unsupported_format_raises_witness :
  demo.format_log demo.xml_consumer (demo.log_at 100) =
    Raise (ValueError "xml is not a supported log format")
  /\ demo.xml_run.2 = 0%nat
  /\ (exists e, demo.xml_run.1.1.2 = Raise e)
  /\ exists evs,
      trace demo.xml_run.1.2 = (trace demo.world0 ++ evs)%list
      /\ writes_in evs = [] /\ shutdowns_in evs = []
      /\ checkpoints_in evs = [("auth", demo.extract None, None)].
Proof.
  destruct (unsupported_format_raises demo.to_cef demo.extract
              (demo.writer_failing_at 0) demo.cfg demo.host demo.smod
              demo.xml_consumer) as [Hfmt Hwake];
    [discriminate | discriminate |].
  split; [exact (Hfmt (demo.log_at 100))|].
  apply (Hwake demo.xml_batch demo.world0 0%nat demo.xml_run.1.1.1
               demo.xml_run.1.1.2 demo.xml_run.1.2 demo.xml_run.2).
  - reflexivity.
  - discriminate.
  - vm_compute. reflexivity.
Defined.

(** The empty wake-up. *)
Lemma empty_batch_writes_nothing_witness :
  exists w' evs,
    demo.on_wake 0 demo.json_consumer demo.empty_batch demo.world0 0%nat =
      (demo.json_consumer, Return tt, w', 0%nat)
    /\ fs w' = fs demo.world0
    /\ trace w' = (trace demo.world0 ++ evs)%list
    /\ evs = [EvLog "auth consumer: received 0 logs from producer" (Some INFO);
              EvLog "auth consumer: No logs to write" (Some INFO)]
    /\ formats_in evs = [] /\ writes_in evs = []
    /\ checkpoints_in evs = [] /\ shutdowns_in evs = [].
Proof.
  apply (empty_batch_writes_nothing demo.to_cef demo.extract
           (demo.writer_failing_at 0) demo.cfg demo.host demo.smod
           demo.json_consumer demo.empty_batch demo.world0 0%nat);
    reflexivity.
Defined.

(** A wake-up with two records after shutdown, and one more batch in
    the queue that is never taken. *)
Lemma wake_after_shutdown_discards_batch_witness :
  exists w' evs,
    demo.consume 0 demo.json_consumer [demo.late_batch; demo.broken_batch]
                 demo.world0 0%nat =
      (demo.json_consumer, consumer.Terminated, w', 0%nat)
    /\ fs w' = fs demo.world0
    /\ Program.is_running w' = false
    /\ trace w' = (trace demo.world0 ++ evs)%list
    /\ evs = [EvLog "auth consumer: waiting for logs" (Some INFO);
              EvLog "auth consumer: shutting down" (Some INFO)]
    /\ formats_in evs = [] /\ writes_in evs = []
    /\ checkpoints_in evs = [] /\ shutdowns_in evs = [].
Proof.
  apply (proj2 (wake_after_shutdown_discards_batch demo.to_cef demo.extract
                  (demo.writer_failing_at 0) demo.cfg demo.host demo.smod
                  demo.json_consumer demo.late_batch [demo.broken_batch]
                  demo.world0 0%nat eq_refl eq_refl)).
Defined.

(** ** Where the code departs from the stated claims *)

(** C2, as stated, fails. The connection is reset by the peer during
    the third of five writes and the writer raises
    [ConnectionResetError], which is not a [BrokenPipeError]: the first
    three records are passed to the writer and the checkpoint receives
    the offset of the second, but shutdown is never requested, the
    running flag stays set, and [consume] ends with the exception. *)
Lemma connection_reset_requests_no_shutdown :
  consumer.write_error
    (demo.writer_reset_at 3 2%nat (demo.data_of (demo.log_at 1704164647))) =
    Some (ConnectionResetError "[Errno 104] Connection reset by peer")
  /\ writes_in (trace demo.reset_run.1.2) =
       [demo.data_of (demo.log_at 1704164645);
        demo.data_of (demo.log_at 1704164646);
        demo.data_of (demo.log_at 1704164647)]
  /\ checkpoints_in (trace demo.reset_run.1.2) =
       [("auth", JInt 1704164647, None)]
  /\ shutdowns_in (trace demo.reset_run.1.2) = []
  /\ Program.is_running demo.reset_run.1.2 = true
  /\ demo.reset_run.1.1.2 =
       consumer.Failed
         (ConnectionResetError "[Errno 104] Connection reset by peer").
Proof. repeat split; vm_compute; reflexivity. Qed.

(** C1, as stated, fails. Two records, and the write of the second one
    breaks: the second record is the one being written when processing
    stops, yet the checkpoint receives the offset of the first. *)
Lemma failed_write_is_not_checkpointed :
  last (formats_in (trace demo.broken_run.1.2)) = Some (demo.log_at 200)
  /\ last (writes_in (trace demo.broken_run.1.2)) =
     Some (demo.data_of (demo.log_at 200))
  /\ consumer.write_error
       (demo.writer_failing_at 2 1%nat (demo.data_of (demo.log_at 200))) =
     Some (BrokenPipeError "[Errno 32] Broken pipe")
  /\ checkpoints_in (trace demo.broken_run.1.2) =
     [("auth", demo.extract (Some (demo.log_at 100)), None)]
  /\ checkpoints_in (trace demo.broken_run.1.2) <>
     [("auth", demo.extract (Some (demo.log_at 200)), None)].
Proof.
  repeat split; try (vm_compute; reflexivity).
  vm_compute. discriminate.
Qed.

(** C3, as stated, fails. A consumer whose format is ["xml"] wakes with
    one record: [format_log] raises and the writer is not called, but
    the checkpoint file, absent before, is written. *)
Lemma unsupported_format_still_checkpoints :
  demo.format_log demo.xml_consumer (demo.log_at 100) =
    Raise (ValueError "xml is not a supported log format")
  /\ writes_in (trace demo.xml_run.1.2) = []
  /\ checkpoints_in (trace demo.xml_run.1.2) = [("auth", JNull, None)]
  /\ fs demo.world0 !! "/var/dls/auth_checkpoint_data.txt" = None
  /\ fs demo.xml_run.1.2 !! "/var/dls/auth_checkpoint_data.txt" =
     Some (FFile ("null" ++ newline)).
Proof.
  repeat split; vm_compute; reflexivity.
Qed.

(* ===================================================================== *)
(** * Further properties of the code *)
(* ===================================================================== *)

Lemma str_append_assoc (a b c : string) : (a ++ b) ++ c = a ++ (b ++ c).
Proof.
  induction a as [|x a IH]; simpl; [reflexivity | now rewrite IH].
Qed.

(** ** More on the syslog header *)

Lemma month_abbr_length (m : Z) :
  1 <= m <= 12 -> String.length (month_abbr m) = 3%nat.
Proof.
  intros H.
  assert (Hc : m = 1 \/ m = 2 \/ m = 3 \/ m = 4 \/ m = 5 \/ m = 6 \/ m = 7 \/
               m = 8 \/ m = 9 \/ m = 10 \/ m = 11 \/ m = 12) by lia.
  repeat (destruct Hc as [-> | Hc]; [reflexivity|]). now subst.
Qed.

(** For the RFC3164 format the header is the priority in angle
    brackets, at once followed by the 15 characters of
    [Mon DD HH:MM:SS], one space and the host name. The year, the
    fraction of the second and the time zone of the timestamp do not
    show. For 2024-01-02T03:04:05Z and priority 38 it is
    ["<38>Jan 02 03:04:05 <hostname>"]. *)
Theorem rfc3164_header_exact (m : syslog.module) (e : syslog.env)
    (dt : datetime) (priority : Z) :
  datetime_ok dt = true ->
  syslog.get_syslog_header m e (Some "RFC3164") (Some dt) (Some priority) =
    Return ("<" ++ str_of_int priority ++ ">" ++
            month_abbr (month dt) ++ " " ++ zero_pad 2 (day dt) ++ " " ++
            zero_pad 2 (hour dt) ++ ":" ++ zero_pad 2 (minute dt) ++ ":" ++
            zero_pad 2 (second dt) ++ " " ++ syslog.hostname e)
  /\ String.length (strftime_bdHMS dt) = 15%nat
  /\ (forall y us tz,
        syslog.get_syslog_header m e (Some "RFC3164")
          (Some (mk_datetime y (month dt) (day dt) (hour dt) (minute dt)
                             (second dt) us tz)) (Some priority) =
        syslog.get_syslog_header m e (Some "RFC3164") (Some dt)
          (Some priority))
  /\ syslog.get_syslog_header m e (Some "RFC3164")
       (Some (mk_datetime 2024 1 2 3 4 5 0 utc)) (Some 38) =
     Return ("<38>Jan 02 03:04:05 " ++ syslog.hostname e).
Proof.
  intros Hok. apply datetime_ok_ranges in Hok.
  destruct Hok as (Hy & Hm & Hd & Hh & Hmi & Hs & Hus).
  split; [|split; [|split]].
  - unfold syslog.get_syslog_header, syslog.get_syslog_header_body.
    cbn [default str_upper]. change (String.eqb _ "RFC5424") with false.
    change (String.eqb _ "RFC3164") with true. cbv iota.
    unfold strftime_bdHMS. cbn [str_join].
    now rewrite !str_append_assoc.
  - unfold strftime_bdHMS. rewrite !length_append.
    rewrite month_abbr_length, !zero_pad_2 by lia. reflexivity.
  - reflexivity.
  - reflexivity.
Qed.

(** The RFC3164 header of the concrete host. *)
Lemma rfc3164_header_exact_witness :
  syslog.get_syslog_header demo.smod demo.host (Some "RFC3164")
    (Some (mk_datetime 2024 1 2 3 4 5 678000 utc)) (Some 38) =
    Return "<38>Jan 02 03:04:05 siem01".
Proof.
  exact (proj1 (rfc3164_header_exact demo.smod demo.host
                  (mk_datetime 2024 1 2 3 4 5 678000 utc) 38 eq_refl)).
Defined.

(** The header is returned exactly for the two formats, whatever the
    case of the letters; any other format raises a [ValueError] that
    quotes the format as it was given. *)
Theorem syslog_format_dispatch (m : syslog.module) (e : syslog.env)
    (format : string) (timestamp : datetime) (priority : Z) :
  let header f :=
    syslog.get_syslog_header m e (Some f) (Some timestamp) (Some priority) in
  ((exists h, header format = Return h) <->
     (str_upper format = "RFC5424" \/ str_upper format = "RFC3164"))
  /\ (str_upper format = "RFC5424" -> header format = header "RFC5424")
  /\ (str_upper format = "RFC3164" -> header format = header "RFC3164")
  /\ (str_upper format <> "RFC5424" -> str_upper format <> "RFC3164" ->
      header format =
        Raise (ValueError (format ++ " is not a supported syslog format"))).
Proof.
  intros header. unfold header, syslog.get_syslog_header,
    syslog.get_syslog_header_body. cbn [default from_option id].
  change (str_upper "RFC5424") with "RFC5424".
  change (str_upper "RFC3164") with "RFC3164".
  change (String.eqb "RFC5424" "RFC5424") with true.
  change (String.eqb "RFC3164" "RFC5424") with false.
  change (String.eqb "RFC3164" "RFC3164") with true.
  cbv iota.
  destruct (String.eqb_spec (str_upper format) "RFC5424") as [E5|N5];
    [|destruct (String.eqb_spec (str_upper format) "RFC3164") as [E3|N3]].
  - split; [split; [intros _; now left | intros _; eauto]|].
    split; [reflexivity|]. split; congruence.
  - split; [split; [intros _; now right | intros _; eauto]|].
    split; [congruence|]. split; [reflexivity | congruence].
  - split; [split; [intros [h [=]] | intros [?|?]; congruence]|].
    split; [congruence|]. split; [congruence | reflexivity].
Qed.

(** A lower-case format is accepted, a misspelt one is not. *)
Lemma syslog_format_dispatch_witness :
  syslog.get_syslog_header demo.smod demo.host (Some "rfc3164")
    (Some (mk_datetime 2024 1 2 3 4 5 0 utc)) (Some 38) =
  syslog.get_syslog_header demo.smod demo.host (Some "RFC3164")
    (Some (mk_datetime 2024 1 2 3 4 5 0 utc)) (Some 38)
  /\ syslog.get_syslog_header demo.smod demo.host (Some "RFC 5424")
       (Some (mk_datetime 2024 1 2 3 4 5 0 utc)) (Some 38) =
     Raise (ValueError "RFC 5424 is not a supported syslog format").
Proof.
  pose proof (syslog_format_dispatch demo.smod demo.host "rfc3164"
                (mk_datetime 2024 1 2 3 4 5 0 utc) 38) as (_ & _ & H1 & _).
  pose proof (syslog_format_dispatch demo.smod demo.host "RFC 5424"
                (mk_datetime 2024 1 2 3 4 5 0 utc) 38) as (_ & _ & _ & H2).
  split; [exact (H1 eq_refl) | apply H2; discriminate].
Defined.

(** ** Printable output *)

Lemma string_forall_app P a b :
  string_forall P (a ++ b) = string_forall P a && string_forall P b.
Proof.
  induction a as [|c a IH]; simpl; [reflexivity|].
  now rewrite IH, andb_assoc.
Qed.

Lemma escape_char_printable (c : ascii) :
  string_forall is_printable (escape_char c) = true.
Proof. destruct c as [[] [] [] [] [] [] [] []]; reflexivity. Qed.

Lemma json_quote_printable (s : string) :
  string_forall is_printable (json_quote s) = true.
Proof.
  unfold json_quote. simpl. rewrite string_forall_app. simpl.
  rewrite andb_true_r.
  induction s as [|c s IH]; simpl; [reflexivity|].
  now rewrite string_forall_app, escape_char_printable, IH.
Qed.

Lemma string_of_uint_printable (d : Decimal.uint) :
  string_forall is_printable (DecimalString.NilEmpty.string_of_uint d) = true.
Proof. induction d; simpl; auto. Qed.

Lemma str_of_int_printable (n : Z) :
  string_forall is_printable (str_of_int n) = true.
Proof.
  unfold str_of_int, DecimalString.NilZero.string_of_int,
    DecimalString.NilZero.string_of_uint.
  destruct (Z.to_int n) as [d|d]; destruct d; simpl;
    try reflexivity; apply string_of_uint_printable.
Qed.

Lemma str_join_printable (sep : string) (parts : list string) :
  string_forall is_printable sep = true ->
  Forall (fun p => string_forall is_printable p = true) parts ->
  string_forall is_printable (str_join sep parts) = true.
Proof.
  intros Hsep Hparts. induction Hparts as [|p ps Hp Hps IH]; [reflexivity|].
  destruct ps as [|q qs]; [exact Hp|].
  change (str_join sep (p :: q :: qs))
    with (p ++ sep ++ str_join sep (q :: qs)).
  now rewrite !string_forall_app, Hp, Hsep, IH.
Qed.

(** Induction on a value, with the hypothesis for every item. *)
Lemma json_nested_ind (P : json -> Prop) :
  P JNull -> (forall b, P (JBool b)) -> (forall n, P (JInt n)) ->
  (forall s, P (JStr s)) ->
  (forall items, Forall P items -> P (JList items)) ->
  (forall members, Forall (fun kv => P (snd kv)) members ->
                   P (JObj members)) ->
  forall v, P v.
Proof.
  intros HN HB HI HS HL HO. fix IH 1.
  intros [ | b | n | s | items | members].
  - exact HN.
  - apply HB.
  - apply HI.
  - apply HS.
  - apply HL. induction items as [|x xs IHx]; constructor;
      [apply IH | exact IHx].
  - apply HO. induction members as [|[k x] xs IHx]; constructor;
      [apply IH | exact IHx].
Qed.

Lemma json_dumps_printable (v : json) :
  string_forall is_printable (json_dumps v) = true.
Proof.
  induction v as [ | b | n | s | items IH | members IH] using json_nested_ind.
  - reflexivity.
  - destruct b; reflexivity.
  - apply str_of_int_printable.
  - apply json_quote_printable.
  - change (json_dumps (JList items))
      with ("[" ++ str_join ", " (map json_dumps items) ++ "]").
    rewrite !string_forall_app.
    apply andb_true_iff; split; [reflexivity|].
    apply andb_true_iff; split; [|reflexivity].
    apply str_join_printable; [reflexivity|].
    induction IH; constructor; assumption.
  - change (json_dumps (JObj members))
      with ("{" ++ str_join ", "
                     (map (fun '(k, w) => json_quote k ++ ": " ++ json_dumps w)
                          members) ++ "}").
    rewrite !string_forall_app.
    apply andb_true_iff; split; [reflexivity|].
    apply andb_true_iff; split; [|reflexivity].
    apply str_join_printable; [reflexivity|].
    induction IH as [|[k x] xs Hx Hxs IHx]; constructor; [|exact IHx].
    rewrite !string_forall_app, json_quote_printable. simpl. exact Hx.
Qed.

Lemma encode_printable (s : string) :
  string_forall is_printable s = true -> encode s = s.
Proof.
  induction s as [|c s IH]; simpl; [reflexivity|].
  intros H. apply andb_true_iff in H as [Hc Hs].
  rewrite IH by assumption. unfold utf8_char.
  unfold is_printable in Hc. apply andb_true_iff in Hc as [_ Hc].
  apply Z.leb_le in Hc.
  destruct (Z.ltb_spec (ascii_code c) 128); [reflexivity | lia].
Qed.

Section FormatProperties.

Context {Labels : Type}.
Context (log_to_cef : record -> Labels -> result string).
Context (cfg : Config.t) (host : syslog.env) (smod : syslog.module).

Local Abbreviation Consumer := (consumer.Consumer Labels).
Local Abbreviation format_log :=
  (consumer.format_log Labels log_to_cef cfg host smod).

(** Whatever the mode, a formatted record ends with a newline. *)
Theorem format_log_ends_with_newline (self : Consumer) (log : record)
    (data : string) :
  format_log self log = Return data ->
  exists body, data = body ++ newline.
Proof.
  unfold consumer.format_log.
  match goal with
  | |- match ?x with _ => _ end = _ -> _ => destruct x as [e|s]
  end; intros [=]. subst data. eauto.
Qed.

(** In JSON mode without syslog the line is the JSON text of the record
    and a newline; the text is printable ASCII, so the newline at the
    end is the only one and encoding changes nothing. *)
Theorem json_line_is_one_printable_line (self : Consumer) (log : record) :
  consumer.log_format Labels self <> Config.CEF cfg ->
  consumer.log_format Labels self = Config.JSON cfg ->
  Config.get_syslog_enabled cfg = false ->
  format_log self log = Return (json_dumps (JObj log) ++ newline)
  /\ string_forall is_printable (json_dumps (JObj log)) = true.
Proof.
  intros Hcef Hjson Hsys. split; [|apply json_dumps_printable].
  unfold consumer.format_log. apply String.eqb_neq in Hcef.
  rewrite Hcef, Hjson, String.eqb_refl, Hsys.
  now rewrite encode_printable by apply json_dumps_printable.
Qed.

(** In JSON mode with syslog the header needs the integer field
    ["timestamp"]: a record without it raises [KeyError], one where it
    is a string, a null, a list or an object raises [TypeError]. *)
Theorem syslog_needs_integer_timestamp (self : Consumer) (log : record) :
  consumer.log_format Labels self <> Config.CEF cfg ->
  consumer.log_format Labels self = Config.JSON cfg ->
  Config.get_syslog_enabled cfg = true ->
  (dict_get "timestamp" log = None ->
     format_log self log = Raise (KeyError "timestamp"))
  /\ (forall v, dict_get "timestamp" log = Some v ->
        (forall n, v <> JInt n) -> (forall b, v <> JBool b) ->
        format_log self log = Raise (TypeError "an integer is required")).
Proof.
  intros Hcef Hjson Hsys. apply String.eqb_neq in Hcef.
  split.
  - intros Hget. unfold consumer.format_log, consumer.log_timestamp.
    now rewrite Hcef, Hjson, String.eqb_refl, Hsys, Hget.
  - intros v Hget Hi Hb. unfold consumer.format_log, consumer.log_timestamp.
    rewrite Hcef, Hjson, String.eqb_refl, Hsys, Hget.
    destruct v; try reflexivity; [now elim (Hb b) | now elim (Hi n)].
Qed.

(** In JSON mode with syslog and the RFC5424 format, the line is the
    header, one space, the JSON text and a newline. The header carries
    priority 38 and the UTC time of the record's own timestamp, with
    milliseconds 000; the clock and the default timestamp of the syslog
    module play no part. *)
Theorem syslog_line_layout (self : Consumer) (log : record) (ts : Z)
    (dt : datetime) :
  consumer.log_format Labels self <> Config.CEF cfg ->
  consumer.log_format Labels self = Config.JSON cfg ->
  Config.get_syslog_enabled cfg = true ->
  str_upper (Config.get_syslog_format cfg) = "RFC5424" ->
  dict_get "timestamp" log = Some (JInt ts) ->
  fromtimestamp_utc ts = Return dt ->
  format_log self log =
    Return (encode ("<38>1 " ++ isoformat_milliseconds dt ++ " " ++
                    syslog.hostname host ++ " " ++ json_dumps (JObj log))
            ++ newline)
  /\ microsecond dt = 0 /\ tzinfo dt = utc.
Proof.
  intros Hcef Hjson Hsys Hfmt Hget Hdt. apply String.eqb_neq in Hcef.
  split.
  - unfold consumer.format_log, consumer.log_timestamp.
    rewrite Hcef, Hjson, String.eqb_refl, Hsys, Hget, Hdt.
    unfold syslog.get_syslog_header, syslog.get_syslog_header_body.
    cbn [default from_option id]. rewrite Hfmt.
    change (String.eqb "RFC5424" "RFC5424") with true. cbv iota.
    cbn [str_join]. do 2 f_equal. f_equal.
    change (str_of_int syslog.DEFAULT_PRIORITY) with "38".
    change (str_of_int syslog.SYSLOG_VERSION) with "1".
    simpl. now rewrite !str_append_assoc.
  - unfold fromtimestamp_utc in Hdt.
    destruct (civil_from_days (ts / 86400)) as [[y mo] d].
    destruct ((1 <=? y) && (y <=? 9999)); inversion Hdt; subst; now split.
Qed.

End FormatProperties.

(** ** Records as dictionaries *)

Lemma dict_get_set_same key v d : dict_get key (dict_set key v d) = Some v.
Proof.
  induction d as [|[k w] d IH]; simpl.
  - now rewrite String.eqb_refl.
  - destruct (String.eqb_spec k key) as [->|Hne]; simpl.
    + now rewrite String.eqb_refl.
    + apply String.eqb_neq in Hne. now rewrite Hne.
Qed.

Lemma dict_get_set_other key key' v d :
  key' <> key -> dict_get key' (dict_set key v d) = dict_get key' d.
Proof.
  intros Hne. induction d as [|[k w] d IH]; simpl.
  - apply not_eq_sym, String.eqb_neq in Hne. now rewrite Hne.
  - destruct (String.eqb_spec k key) as [->|Hk]; simpl.
    + apply not_eq_sym, String.eqb_neq in Hne. now rewrite Hne.
    + now rewrite IH.
Qed.

Lemma dict_set_twice key v v' d :
  dict_set key v' (dict_set key v d) = dict_set key v' d.
Proof.
  induction d as [|[k w] d IH]; simpl.
  - now rewrite String.eqb_refl.
  - destruct (String.eqb_spec k key) as [->|Hk]; simpl.
    + now rewrite String.eqb_refl.
    + apply String.eqb_neq in Hk. now rewrite Hk, IH.
Qed.

Lemma truthy_Some (o : option string) :
  truthy o = true -> exists c, o = Some c /\ c <> "".
Proof.
  destruct o as [c|]; [|discriminate]. simpl.
  intros H. exists c. split; [reflexivity|].
  intros ->. discriminate.
Qed.

(** Stamping a record with the consumer's child account: the field
    holds the consumer's id afterwards, even when the record came with
    another one; every other field keeps its value; stamping again
    changes nothing. A consumer with no id, or with the empty string,
    leaves the record as it is. *)
Theorem stamp_sets_child_account {Labels : Type}
    (self : consumer.Consumer Labels) (log : record) :
  (forall c, consumer.child_account_id Labels self = Some c -> c <> "" ->
     dict_get "child_account_id" (consumer.stamp Labels self log) =
       Some (JStr c)
     /\ (forall key, key <> "child_account_id" ->
           dict_get key (consumer.stamp Labels self log) = dict_get key log)
     /\ consumer.stamp Labels self (consumer.stamp Labels self log) =
        consumer.stamp Labels self log)
  /\ (consumer.child_account_id Labels self = None \/
      consumer.child_account_id Labels self = Some "" ->
      consumer.stamp Labels self log = log).
Proof.
  split.
  - intros c Hc Hne. unfold consumer.stamp. rewrite Hc. simpl.
    apply String.eqb_neq in Hne. rewrite Hne. simpl.
    split; [apply dict_get_set_same|].
    split; [intros key Hk; now apply dict_get_set_other|].
    apply dict_set_twice.
  - intros [H|H]; unfold consumer.stamp; now rewrite H.
Qed.

(** ** Checkpoint files *)

Lemma os_path_join_inj_r (a b b' : string) :
  starts_with_slash b = starts_with_slash b' ->
  os_path_join a b = os_path_join a b' -> b = b'.
Proof.
  unfold os_path_join. intros Hs. rewrite <- Hs.
  destruct (starts_with_slash b); [auto|].
  destruct (String.eqb a "" || ends_with_slash a); intros H.
  - now apply String.app_inj in H.
  - apply String.app_inj in H. now apply (String.app_inj "/") in H.
Qed.

Lemma str_app_inv_tail (a b s : string) : a ++ s = b ++ s -> a = b.
Proof.
  revert b. induction a as [|x a IH]; intros [|y b] H; simpl in H.
  - reflexivity.
  - apply (f_equal String.length) in H. simpl in H.
    rewrite length_append in H. lia.
  - apply (f_equal String.length) in H. simpl in H.
    rewrite length_append in H. lia.
  - injection H as -> H. f_equal. now apply IH.
Qed.

Lemma starts_with_slash_prefix (lt r r' : string) :
  starts_with_slash (lt ++ String "_" r) =
  starts_with_slash (lt ++ String "_" r').
Proof. destruct lt as [|c lt]; reflexivity. Qed.

(** For one stream type and one directory, each child account has a
    checkpoint file of its own, and none of them is the file used
    without a child account; the empty id uses that file too. *)
Theorem child_accounts_have_separate_checkpoints (dir log_type : string)
    (c1 c2 : string) :
  c1 <> "" -> c2 <> "" ->
  (util.checkpoint_file_path dir log_type (Some c1) =
   util.checkpoint_file_path dir log_type (Some c2) -> c1 = c2)
  /\ util.checkpoint_file_path dir log_type (Some c1) <>
     util.checkpoint_file_path dir log_type None
  /\ util.checkpoint_file_path dir log_type (Some "") =
     util.checkpoint_file_path dir log_type None.
Proof.
  intros H1 H2. unfold util.checkpoint_file_path. simpl.
  apply String.eqb_neq in H1 as E1. apply String.eqb_neq in H2 as E2.
  rewrite E1, E2. simpl.
  rewrite !str_append_assoc. simpl.
  split; [|split; [|reflexivity]].
  - intros H. apply os_path_join_inj_r in H;
      [|apply starts_with_slash_prefix].
    apply String.app_inj in H.
    apply (String.app_inj "_checkpoint_data_") in H.
    now apply str_app_inv_tail in H.
  - intros H.
    change (log_type ++ "_checkpoint_data.txt")
      with (log_type ++ String "_" "checkpoint_data.txt") in H.
    apply os_path_join_inj_r in H; [|apply starts_with_slash_prefix].
    apply String.app_inj in H.
    apply (String.app_inj "_checkpoint_data") in H. discriminate.
Qed.

(** The child account DA42 and the parent account. *)
Lemma child_accounts_have_separate_checkpoints_witness :
  util.checkpoint_file_path "/var/dls" "auth" (Some "DA42") <>
  util.checkpoint_file_path "/var/dls" "auth" None.
Proof.
  refine (proj1 (proj2 (child_accounts_have_separate_checkpoints
                          "/var/dls" "auth" "DA42" "DA43" _ _)));
    discriminate.
Defined.

(** A checkpoint write replaces the file: after two writes for the same
    stream the file holds the second offset only, as if the first write
    had not happened, and no other file has changed. *)
Theorem checkpoint_is_overwritten (cfg : Config.t) (log_type : string)
    (child : option string) (o1 o2 : json) (w w1 w2 : World) :
  consumer.update_log_checkpoint cfg log_type o1 child w = (Return tt, w1) ->
  consumer.update_log_checkpoint cfg log_type o2 child w1 = (Return tt, w2) ->
  fs w2 !! consumer.file_path cfg log_type child =
    Some (FFile (json_dumps o2 ++ newline))
  /\ fs w2 = <[consumer.file_path cfg log_type child :=
                 FFile (json_dumps o2 ++ newline)]> (fs w)
  /\ (forall path, path <> consumer.file_path cfg log_type child ->
        fs w2 !! path = fs w !! path).
Proof.
  intros H1 H2.
  apply update_log_checkpoint_ok in H1 as (Hf1 & _ & _).
  apply update_log_checkpoint_ok in H2 as (Hf2 & _ & _).
  rewrite Hf2, Hf1, insert_insert_eq.
  split; [apply lookup_insert_eq|]. split; [reflexivity|].
  intros path Hne. now apply lookup_insert_ne.
Qed.

(** A second checkpoint over the saved one. *)
Lemma checkpoint_is_overwritten_witness :
  fs (snd (consumer.update_log_checkpoint demo.cfg "auth" (JInt 2) None
             demo.saved_world))
    !! consumer.file_path demo.cfg "auth" None =
  Some (FFile (json_dumps (JInt 2) ++ newline)).
Proof.
  assert (H1 : consumer.update_log_checkpoint demo.cfg "auth" (JInt 12345)
                 None demo.world0 = (Return tt, demo.saved_world))
    by (vm_compute; reflexivity).
  assert (H2 : consumer.update_log_checkpoint demo.cfg "auth" (JInt 2) None
                 demo.saved_world =
               (Return tt,
                snd (consumer.update_log_checkpoint demo.cfg "auth" (JInt 2)
                       None demo.saved_world)))
    by (vm_compute; reflexivity).
  exact (proj1 (checkpoint_is_overwritten demo.cfg "auth" None (JInt 12345)
                  (JInt 2) demo.world0 demo.saved_world _ H1 H2)).
Defined.

(** [get_log_offset] only reads: the files and the running flag are as
    before, and the trace grows by the fallback message or not at all.
    With recovery off nothing is read and nothing is logged. *)
Theorem get_log_offset_only_reads (cfg : Config.t) (log_type dir : string)
    (recover : bool) (child : option string) (w : World) :
  let w' := snd (util.get_log_offset cfg log_type recover dir child w) in
  fs w' = fs w /\ running w' = running w
  /\ (trace w' = trace w \/
      trace w' = (trace w ++ [EvLog (fallback_message log_type) None])%list)
  /\ (recover = false ->
      util.get_log_offset cfg log_type recover dir child w =
        (Return (JInt (default_offset cfg log_type)), w)).
Proof.
  unfold util.get_log_offset; cbv zeta.
  destruct recover; [|now repeat split; auto].
  destruct (file_read (fs w) _) as [e|content];
    [|destruct (json_loads content) as [e|v]];
    try destruct (is_OSError e); simpl; repeat split; auto; discriminate.
Qed.

(** ** Reading back what [json.dumps] wrote *)

Lemma parse_string_escape_char (c : ascii) (t s rest : string) :
  parse_string t = Some (s, rest) ->
  parse_string (escape_char c ++ t) = Some (String c s, rest).
Proof.
  intros H.
  destruct c as [[] [] [] [] [] [] [] []]; simpl; rewrite H; reflexivity.
Qed.

Lemma parse_string_escape_body (s rest : string) :
  parse_string (escape_body s ++ String dquote rest) = Some (s, rest).
Proof.
  induction s as [|c s IH]; [reflexivity|].
  cbn [escape_body]. rewrite str_append_assoc.
  now apply parse_string_escape_char.
Qed.

Lemma skip_ws_head (c : ascii) (r : string) :
  is_ws c = false -> skip_ws (String c r) = String c r.
Proof. intros H. simpl. now rewrite H. Qed.

(** Every text [json.dumps] writes starts with a character that is
    neither whitespace nor a closing bracket. *)
Lemma json_dumps_head (v : json) :
  exists c r, json_dumps v = String c r /\ is_ws c = false
              /\ c <> "]"%char /\ c <> "}"%char.
Proof.
  destruct v as [ | [] | n | s | items | members];
    try (eexists _, _; split; [reflexivity|]; repeat split; discriminate).
  cbn [json_dumps]. destruct n as [|p|p].
  - eexists _, _; split; [reflexivity|]; repeat split; discriminate.
  - rewrite str_of_int_pos.
    destruct (string_of_uint_head p) as (c & r & E & Hc). rewrite E.
    exists c, r. split; [reflexivity|].
    split; [now apply is_digit_not_ws|].
    split; intros ->; discriminate.
  - rewrite str_of_int_neg.
    eexists _, _; split; [reflexivity|]; repeat split; discriminate.
Qed.

Lemma skip_ws_dumps (v : json) (rest : string) :
  skip_ws (json_dumps v ++ rest) = json_dumps v ++ rest.
Proof.
  destruct (json_dumps_head v) as (c & r & -> & Hws & _).
  simpl. now rewrite Hws.
Qed.

Lemma str_join_cons2 (sep p q : string) (qs : list string) (t : string) :
  str_join sep (p :: q :: qs) ++ t = p ++ sep ++ (str_join sep (q :: qs) ++ t).
Proof.
  change (str_join sep (p :: q :: qs)) with (p ++ sep ++ str_join sep (q :: qs)).
  now rewrite !str_append_assoc.
Qed.

(** The scalar cases. *)
Lemma parse_value_int (n : Z) (fuel : nat) (rest : string) :
  no_digit_ahead rest -> float_follows rest = false ->
  parse_value (S fuel) (str_of_int n ++ rest) = Some (JInt n, rest).
Proof.
  intros Hd Hf. destruct n as [|p|p].
  - change (str_of_int 0 ++ rest) with (String "0" rest).
    rewrite parse_value_number by (left; reflexivity).
    unfold parse_number. now rewrite Hf.
  - rewrite str_of_int_pos.
    destruct (string_of_uint_head p) as (c & r & E & Hc).
    assert (Hnum : parse_value (S fuel)
                     (NilEmpty.string_of_uint (Pos.to_uint p) ++ rest) =
                   parse_number
                     (NilEmpty.string_of_uint (Pos.to_uint p) ++ rest)).
    { rewrite E. simpl String.append. apply parse_value_number. now left. }
    rewrite Hnum. now apply parse_number_pos.
  - rewrite str_of_int_neg.
    change (String "-" (NilEmpty.string_of_uint (Pos.to_uint p)) ++ rest)
      with (String "-" (NilEmpty.string_of_uint (Pos.to_uint p) ++ rest)).
    rewrite parse_value_number by now right.
    now apply parse_number_neg.
Qed.

Lemma parse_value_str (s : string) (fuel : nat) (rest : string) :
  parse_value (S fuel) (json_quote s ++ rest) = Some (JStr s, rest).
Proof.
  unfold json_quote.
  change (String dquote (escape_body s) ++ String dquote "")
    with (String dquote (escape_body s ++ String dquote "")).
  change (String dquote (escape_body s ++ String dquote "") ++ rest)
    with (String dquote ((escape_body s ++ String dquote "") ++ rest)).
  rewrite str_append_assoc.
  change (String dquote "" ++ rest) with (String dquote rest).
  cbn [parse_value]. change (ascii_code dquote =? 34) with true. cbv iota.
  now rewrite parse_string_escape_body.
Qed.

Lemma float_follows_head (c : ascii) (r : string) :
  (ascii_code c =? 46) = false ->
  (ascii_code c =? 101) || (ascii_code c =? 69) = false ->
  float_follows (String c r) = false.
Proof.
  intros H1 H2. destruct r as [|d r]; [reflexivity|].
  unfold float_follows. now rewrite H1, H2.
Qed.

Lemma parse_items_join (xs : list json) :
  forall x acc fuel rest,
    Forall reads_back (x :: xs) ->
    (fold_right (fun w a => S (json_size w + a)) O (x :: xs) <= fuel)%nat ->
    parse_items fuel
      (str_join ", " (map json_dumps (x :: xs)) ++ String "]" rest) acc =
    Some (JList (rev acc ++ x :: xs), rest).
Proof.
  induction xs as [|y ys IH]; intros x acc fuel rest Hall Hfuel;
    inversion Hall as [|x0 l0 Hx Hrest]; subst;
    cbn [fold_right] in Hfuel; (destruct fuel as [|fuel]; [lia|]);
    cbn [parse_items].
  - cbn [map str_join].
    rewrite Hx by (try lia; try reflexivity; now apply float_follows_head).
    cbn. reflexivity.
  - cbn [map]. rewrite str_join_cons2.
    rewrite Hx by (try lia; try reflexivity; now apply float_follows_head).
    change (", " ++ ?t) with (String "," (String " " t)).
    cbn [String.append]. rewrite skip_ws_head by reflexivity.
    cbn [skip_ws]. change (is_ws " ") with true. cbv iota.
    change (json_dumps y :: map json_dumps ys) with (map json_dumps (y :: ys)).
    assert (Hskip : forall t, skip_ws (str_join ", " (map json_dumps (y :: ys)) ++ t)
                    = str_join ", " (map json_dumps (y :: ys)) ++ t).
    { intros t. destruct ys as [|z zs].
      - cbn [map str_join]. apply skip_ws_dumps.
      - cbn [map]. rewrite str_join_cons2. apply skip_ws_dumps. }
    rewrite Hskip, IH by (try assumption; cbn [fold_right]; lia).
    cbn [rev]. now rewrite <- app_assoc.
Qed.

Lemma dict_set_fresh (key : string) (v : json) (d : list (string * json)) :
  ~ In key (map fst d) -> dict_set key v d = (d ++ [(key, v)])%list.
Proof.
  induction d as [|[k w] d IH]; simpl; [reflexivity|].
  intros Hn. destruct (String.eqb_spec k key) as [->|Hne]; [tauto|].
  rewrite IH by tauto. reflexivity.
Qed.

Lemma member_text_form (k : string) (v : json) (t : string) :
  (json_quote k ++ ": " ++ json_dumps v) ++ t =
  String dquote (escape_body k ++
                 String dquote (String ":" (String " " (json_dumps v ++ t)))).
Proof.
  unfold json_quote. rewrite !str_append_assoc. reflexivity.
Qed.

Lemma parse_members_join (ms : list (string * json)) :
  forall k v acc fuel rest,
    Forall (fun kv => reads_back (snd kv)) ((k, v) :: ms) ->
    List.NoDup (map fst (acc ++ (k, v) :: ms)) ->
    (fold_right (fun kv a => S (json_size (snd kv) + a)) O ((k, v) :: ms)
       <= fuel)%nat ->
    parse_members fuel
      (str_join ", "
         (map (fun '(k, w) => json_quote k ++ ": " ++ json_dumps w)
              ((k, v) :: ms)) ++ String "}" rest) acc =
    Some (JObj (acc ++ (k, v) :: ms), rest).
Proof.
  induction ms as [|[k2 v2] ms IH]; intros k v acc fuel rest Hall Hnd Hfuel;
    inversion Hall as [|x0 l0 Hx Hrest]; subst; cbn [snd] in Hx;
    cbn [fold_right snd] in Hfuel; (destruct fuel as [|fuel]; [lia|]).
  - cbn [map str_join]. rewrite member_text_form.
    cbn [parse_members]. change (ascii_code dquote =? 34) with true.
    cbv iota. rewrite parse_string_escape_body.
    rewrite skip_ws_head by reflexivity.
    cbn [skip_ws]. change (is_ws " ") with true. cbv iota.
    rewrite skip_ws_dumps.
    rewrite Hx by (try lia; try reflexivity; now apply float_follows_head).
    rewrite skip_ws_head by reflexivity.
    rewrite dict_set_fresh; [reflexivity|].
    rewrite map_app in Hnd. apply List.NoDup_remove_2 in Hnd.
    intros Hin. apply Hnd. apply in_or_app. now left.
  - cbn [map]. rewrite str_join_cons2. rewrite member_text_form.
    cbn [parse_members]. change (ascii_code dquote =? 34) with true.
    cbv iota. rewrite parse_string_escape_body.
    rewrite skip_ws_head by reflexivity.
    cbn [skip_ws]. change (is_ws " ") with true. cbv iota.
    rewrite skip_ws_dumps.
    rewrite Hx by (try lia; try reflexivity; now apply float_follows_head).
    change (", " ++ ?t) with (String "," (String " " t)).
    rewrite skip_ws_head by reflexivity.
    cbn [skip_ws]. change (is_ws " ") with true. cbv iota.
    change ((json_quote k2 ++ ": " ++ json_dumps v2)
            :: map (fun '(k, w) => json_quote k ++ ": " ++ json_dumps w) ms)
      with (map (fun '(k, w) => json_quote k ++ ": " ++ json_dumps w)
                ((k2, v2) :: ms)).
    assert (Hskip : forall t,
      skip_ws (str_join ", "
                 (map (fun '(k, w) => json_quote k ++ ": " ++ json_dumps w)
                      ((k2, v2) :: ms)) ++ t) =
      str_join ", "
        (map (fun '(k, w) => json_quote k ++ ": " ++ json_dumps w)
             ((k2, v2) :: ms)) ++ t).
    { intros t. destruct ms as [|[k3 v3] ms'].
      - cbn [map str_join]. rewrite member_text_form.
        now apply skip_ws_head.
      - cbn [map]. rewrite str_join_cons2, member_text_form.
        now apply skip_ws_head. }
    rewrite Hskip.
    assert (Hfresh : ~ In k (map fst acc)).
    { rewrite map_app in Hnd. apply List.NoDup_remove_2 in Hnd.
      intros Hin. apply Hnd. apply in_or_app. now left. }
    rewrite dict_set_fresh by exact Hfresh.
    rewrite IH; try assumption.
    + now rewrite <- app_assoc.
    + now rewrite <- app_assoc.
    + cbn [fold_right snd]. lia.
Qed.

Lemma json_wf_list (items : list json) :
  json_wf (JList items) -> Forall json_wf items.
Proof.
  cbn [json_wf]. induction items as [|x xs IH]; simpl; [constructor|].
  intros [Hx Hxs]. constructor; auto.
Qed.

Lemma json_wf_obj (members : list (string * json)) :
  json_wf (JObj members) ->
  List.NoDup (map fst members) /\ Forall (fun kv => json_wf (snd kv)) members.
Proof.
  cbn [json_wf]. intros [Hnd H]. split; [exact Hnd|].
  induction members as [|x xs IH]; simpl in *; [constructor|].
  destruct H as [Hx Hxs]. constructor; auto.
  apply IH; [now inversion Hnd | exact Hxs].
Qed.

(** [parse_value] reads back any value [json.dumps] wrote, given fuel
    for its size and a continuation that cannot extend a number. *)
Lemma parse_value_dumps (v : json) : json_wf v -> reads_back v.
Proof.
  induction v as [ | b | n | s | items IH | members IH] using json_nested_ind;
    intros Hwf fuel rest Hfuel Hd Hf;
    cbn [json_size] in Hfuel; (destruct fuel as [|fuel]; [lia|]).
  - reflexivity.
  - destruct b; reflexivity.
  - now apply parse_value_int.
  - now apply parse_value_str.
  - apply json_wf_list in Hwf.
    assert (Hall : Forall reads_back items).
    { clear Hfuel. induction IH as [|x xs Hx Hxs IHxs]; [constructor|].
      inversion Hwf; subst. constructor; auto. }
    change (json_dumps (JList items) ++ rest)
      with (String "[" ((str_join ", " (map json_dumps items) ++ "]") ++ rest)).
    rewrite str_append_assoc.
    change ("]" ++ rest) with (String "]" rest).
    cbn [parse_value]. change (ascii_code "[" =? 34) with false.
    change (ascii_code "[" =? 91) with true. cbv iota.
    destruct items as [|x xs]; [reflexivity|].
    assert (Hskip : skip_ws (str_join ", " (map json_dumps (x :: xs)) ++
                             String "]" rest) =
                    str_join ", " (map json_dumps (x :: xs)) ++ String "]" rest).
    { destruct xs as [|z zs].
      - cbn [map str_join]. apply skip_ws_dumps.
      - cbn [map]. rewrite str_join_cons2. apply skip_ws_dumps. }
    rewrite Hskip.
    pose proof (parse_items_join xs x [] fuel rest Hall ltac:(lia)) as Hitems.
    cbn [rev app] in Hitems.
    destruct (json_dumps_head x) as (c & r & E & _ & Hc & _).
    assert (Hform : exists r', str_join ", " (map json_dumps (x :: xs)) ++
                               String "]" rest = String c r').
    { destruct xs as [|z zs].
      - cbn [map str_join]. rewrite E. eexists. reflexivity.
      - cbn [map]. rewrite str_join_cons2, E. eexists. reflexivity. }
    destruct Hform as [r' Hr']. rewrite Hr' in *.
    destruct c as [[] [] [] [] [] [] [] []]; try exact Hitems. now elim Hc.
  - apply json_wf_obj in Hwf as [Hnd Hwf].
    assert (Hall : Forall (fun kv => reads_back (snd kv)) members).
    { clear Hfuel Hnd. induction IH as [|x xs Hx Hxs IHxs]; [constructor|].
      inversion Hwf; subst. constructor; auto. }
    change (json_dumps (JObj members) ++ rest)
      with (String "{"
              ((str_join ", "
                  (map (fun '(k, w) => json_quote k ++ ": " ++ json_dumps w)
                       members) ++ "}") ++ rest)).
    rewrite str_append_assoc.
    change ("}" ++ rest) with (String "}" rest).
    cbn [parse_value]. change (ascii_code "{" =? 34) with false.
    change (ascii_code "{" =? 91) with false.
    change (ascii_code "{" =? 123) with true. cbv iota.
    destruct members as [|[k x] xs]; [reflexivity|].
    assert (Hform : exists r',
      str_join ", "
        (map (fun '(k, w) => json_quote k ++ ": " ++ json_dumps w)
             ((k, x) :: xs)) ++ String "}" rest = String dquote r').
    { destruct xs as [|[k3 v3] ms'].
      - cbn [map str_join]. rewrite member_text_form. eexists. reflexivity.
      - cbn [map]. rewrite str_join_cons2, member_text_form.
        eexists. reflexivity. }
    pose proof (parse_members_join xs k x [] fuel rest Hall Hnd ltac:(lia))
      as Hmembers.
    cbn [app] in Hmembers.
    destruct Hform as [r' Hr']. rewrite Hr' in *. exact Hmembers.
Qed.

Lemma join_size_bound {A : Type} (size : A -> nat) (text : A -> string)
    (l : list A) :
  Forall (fun x => (size x <= String.length (text x))%nat) l ->
  (fold_right (fun x a => S (size x + a)) O l <=
   S (String.length (str_join ", " (map text l))))%nat.
Proof.
  induction 1 as [|x xs Hx Hxs IH]; [simpl; lia|].
  destruct xs as [|y ys].
  - simpl. lia.
  - change (map text (x :: y :: ys)) with (text x :: map text (y :: ys)).
    change (str_join ", " (text x :: map text (y :: ys)))
      with (text x ++ ", " ++ str_join ", " (map text (y :: ys))).
    rewrite !length_append. cbn [fold_right] in *.
    change (String.length ", ") with 2%nat. lia.
Qed.

Lemma json_size_le_length (v : json) :
  (json_size v <= String.length (json_dumps v))%nat.
Proof.
  induction v as [ | b | n | s | items IH | members IH] using json_nested_ind;
    try (match goal with
         | |- (json_size ?v <= _)%nat =>
             destruct (json_dumps_head v) as (c & r & -> & _)
         end; simpl; lia).
  - change (json_dumps (JList items))
      with (String "[" (str_join ", " (map json_dumps items) ++ "]")).
    cbn [json_size String.length]. rewrite length_append.
    pose proof (join_size_bound json_size json_dumps items IH).
    change (String.length "]") with 1%nat. lia.
  - change (json_dumps (JObj members))
      with (String "{"
              (str_join ", "
                 (map (fun '(k, w) => json_quote k ++ ": " ++ json_dumps w)
                      members) ++ "}")).
    cbn [json_size String.length]. rewrite length_append.
    assert (Hb : Forall (fun kv : string * json =>
                   (json_size (snd kv) <=
                    String.length ((fun '(k, w) =>
                      json_quote k ++ ": " ++ json_dumps w) kv))%nat) members).
    { induction IH as [|[k x] xs Hx Hxs IHxs]; constructor; [|exact IHxs].
      cbn [snd] in *. rewrite !length_append. lia. }
    pose proof (join_size_bound (fun kv => json_size (snd kv))
                  (fun '(k, w) => json_quote k ++ ": " ++ json_dumps w)
                  members Hb).
    change (String.length "}") with 1%nat. lia.
Qed.

(** Any value without a repeated key, written by [json.dumps] and
    followed by a newline, is read back by [json.loads] as itself. *)
Lemma json_loads_dumps (v : json) :
  json_wf v -> json_loads (json_dumps v ++ newline) = Return v.
Proof.
  intros Hwf. unfold json_loads. rewrite skip_ws_dumps.
  rewrite (parse_value_dumps v Hwf); try reflexivity.
  pose proof (json_size_le_length v). rewrite length_append. lia.
Qed.

(** The checkpoint round trip for any offset: a list, a string, an
    object without a repeated key, a null, nested as one likes. What
    [update_log_checkpoint] saved, [get_log_offset] returns, for the
    same stream type and child account and the configured directory. *)
Theorem checkpoint_round_trip_any_offset (cfg : Config.t)
    (log_type : string) (offset : json) (child : option string)
    (w w' : World) :
  json_wf offset ->
  consumer.update_log_checkpoint cfg log_type offset child w =
    (Return tt, w') ->
  util.get_log_offset cfg log_type true (Config.get_checkpoint_dir cfg)
    child w' = (Return offset, w').
Proof.
  intros Hwf Hw. apply update_log_checkpoint_ok in Hw as (Hfs & _ & _).
  assert (Hlook : fs w' !! consumer.file_path cfg log_type child =
                  Some (FFile (json_dumps offset ++ newline)))
    by (rewrite Hfs; apply lookup_insert_eq).
  unfold util.get_log_offset, file_read; cbv zeta.
  rewrite <- same_checkpoint_path, Hlook. cbv beta iota.
  now rewrite json_loads_dumps.
Qed.

(** ** The loop of [consume] *)

Lemma update_log_checkpoint_raises_OSError cfg log_type o child w e w' :
  consumer.update_log_checkpoint cfg log_type o child w = (Raise e, w') ->
  is_OSError e = true.
Proof.
  unfold consumer.update_log_checkpoint, file_write.
  set (w1 := Program.log _ _ _).
  destruct (fs w1 !! consumer.file_path cfg log_type child) as [[c| |se]|];
    intros [=]; subst; reflexivity.
Qed.

Section LoopProperties.

Context {Labels Writer : Type}.
Context (log_to_cef : record -> Labels -> result string).
Context (extract : option record -> json).
Context (write : Writer -> string -> consumer.write_outcome Writer).
Context (cfg : Config.t) (host : syslog.env) (smod : syslog.module).

Local Abbreviation Consumer := (consumer.Consumer Labels).
Local Abbreviation format_log :=
  (consumer.format_log Labels log_to_cef cfg host smod).
Local Abbreviation write_logs :=
  (consumer.write_logs Labels log_to_cef Writer write cfg host smod).
Local Abbreviation write_batch :=
  (consumer.write_batch Labels log_to_cef extract Writer write cfg host smod).
Local Abbreviation on_wake :=
  (consumer.on_wake Labels log_to_cef extract Writer write cfg host smod).
Local Abbreviation consume :=
  (consumer.consume Labels log_to_cef extract Writer write cfg host smod).
Local Abbreviation stamp := (consumer.stamp Labels).

(** The running flag is never set again once it is cleared. *)
Lemma write_logs_running (self : Consumer) (logs : list record) :
  forall last w wr last' r w' wr',
    write_logs self logs last w wr = (last', r, w', wr') ->
    running w = false -> running w' = false.
Proof.
  induction logs as [|log rest IH]; intros last w wr last' r w' wr' H Hr.
  - now injection H as <- <- <- <-.
  - cbn [consumer.write_logs] in H.
    destruct (format_log self (stamp self log)) as [e|data].
    + now injection H as <- <- <- <-.
    + destruct (consumer.write_error (write wr data)) as [e|].
      * injection H as <- <- <- <-. simpl. now rewrite Hr.
      * apply IH in H; [exact H|]. simpl. now rewrite Hr.
Qed.

(** [consume] returns only when the program is no longer running. The
    flag is tested before each wait on the queue, not during it: a run
    that ends suspended on the exhausted queue had the flag set when
    that wait began, and when [consume] started. *)
Theorem consume_returns_only_after_shutdown (self : Consumer)
    (queue : list consumer.delivery) :
  forall w wr self' st w' wr',
    consume self queue w wr = (self', st, w', wr') ->
    (st = consumer.Terminated -> Program.is_running w' = false)
    /\ (st = consumer.Waiting ->
        Program.is_running w' = true /\ Program.is_running w = true).
Proof.
  revert self. induction queue as [|d queue IH]; intros self w wr self' st w' wr' H.
  - cbn [consumer.consume] in H.
    destruct (Program.is_running w) eqn:Hr; injection H as <- <- <- <-;
      split; intros [=]; simpl; auto.
  - cbn [consumer.consume] in H.
    destruct (Program.is_running w) eqn:Hr.
    + destruct (on_wake self d _ wr) as [[[s1 r1] w1] wr1].
      destruct r1 as [e|[]].
      * injection H as <- <- <- <-. split; intros [=].
      * apply IH in H as [Ht Hw]. split; [exact Ht|].
        intros Hst. split; [now apply Hw | reflexivity].
    + injection H as <- <- <- <-. split; intros [=]. exact Hr.
Qed.


(** With a formatter and a writer that never raise, every batch is
    written whole. *)
Lemma all_written_good (self : Consumer) (fmt : record -> string) :
  (forall log, format_log self log = Return (fmt log)) ->
  (forall wr data, consumer.write_error (write wr data) = None
                   /\ consumer.write_stop (write wr data) = false) ->
  forall logs wr,
  exists wr2,
    consumer.all_written Labels log_to_cef Writer write cfg host smod
      self logs wr (map (fun l => fmt (stamp self l)) logs) wr2.
Proof.
  intros Hfmt Hwr. induction logs as [|log rest IH]; intros wr.
  - now exists wr.
  - destruct (IH (consumer.next_writer
                    (write wr (fmt (stamp self log))))) as [wr2 H].
    exists wr2. cbn [map consumer.all_written].
    split; [apply Hfmt|]. split; [apply Hwr | exact H].
Qed.

(** One turn of the loop with such a formatter and writer: it ends
    normally unless the checkpoint write raises. *)
Lemma on_wake_good (self : Consumer) (fmt : record -> string)
    (d : consumer.delivery) w wr :
  (forall log, format_log self log = Return (fmt log)) ->
  (forall wr data, consumer.write_error (write wr data) = None
                   /\ consumer.write_stop (write wr data) = false) ->
  consumer.stop_of d = false ->
  Program.is_running w = true ->
  exists self' r w' wr' evs,
    on_wake self d w wr = (self', r, w', wr')
    /\ (self' = self \/
        exists o, self' = consumer.set_log_offset Labels o self)
    /\ trace w' = (trace w ++ evs)%list
    /\ writes_in evs = map (fun l => fmt (stamp self l)) (consumer.logs_of d)
    /\ shutdowns_in evs = []
    /\ checkpoints_in evs =
         match consumer.logs_of d with
         | [] => []
         | _ :: _ =>
             [(consumer.log_type Labels self,
               extract (last (map (stamp self) (consumer.logs_of d))),
               consumer.child_account_id Labels self)]
         end
    /\ ((r = Return tt /\ Program.is_running w' = true)
        \/ (exists e w3,
              r = Raise e /\ consumer.logs_of d <> []
              /\ consumer.update_log_checkpoint cfg
                   (consumer.log_type Labels self)
                   (extract (last (map (stamp self) (consumer.logs_of d))))
                   (consumer.child_account_id Labels self) w3 = (Raise e, w')
              /\ is_OSError e = true)).
Proof.
  intros Hfmt Hwr Hstop Hrun.
  assert (Hrun' : Program.is_running (interfere (consumer.stop_of d) w) = true)
    by (rewrite Hstop; unfold Program.is_running in *; simpl;
        now rewrite Hrun).
  destruct (consumer.logs_of d) as [|l rest] eqn:Hlogs.
  - unfold consumer.on_wake. rewrite Hrun', Hlogs. cbn [negb].
    eexists _, _, _, _, _. split; [reflexivity|].
    split; [now left|].
    split; [simpl; rewrite <- app_assoc; reflexivity|].
    repeat split. left. split; [reflexivity | exact Hrun'].
  - assert (Hne : consumer.logs_of d <> []) by (rewrite Hlogs; discriminate).
    destruct (all_written_good self fmt Hfmt Hwr (consumer.logs_of d) wr)
      as [wr2 Hall].
    destruct (on_wake_all_written log_to_cef extract write cfg host smod
                self d w wr _ wr2 Hrun' Hne Hall)
      as (r & w' & evs & w3 & c & Heq & Htr & Hws & _ & Hs & Hc & Hu & Hr
          & Hkeep).
    rewrite Hlogs in *.
    exists (consumer.set_log_offset Labels
              (extract (last (map (stamp self) (l :: rest)))) self),
      r, w', wr2, evs.
    split; [exact Heq|]. split; [right; eexists; reflexivity|].
    split; [exact Htr|]. split; [exact Hws|]. split; [exact Hs|].
    split; [exact Hc|].
    destruct c as [e|[]].
    + right. exists e, w3. split; [exact Hr|]. split; [discriminate|].
      split; [exact Hu|].
      apply (update_log_checkpoint_raises_OSError _ _ _ _ _ _ _ Hu).
    + left. split; [exact Hr|]. apply Hkeep. intros wr0 data. apply Hwr.
Qed.

(** With a formatter and a writer that do not fail and no shutdown, the
    consumer takes the batches in queue order: every record of every
    batch taken is written once, in order; each non-empty batch is
    followed by one checkpoint call with the offset of its last record,
    in the order of the batches; no shutdown is requested. The consumer
    takes the whole queue and ends waiting on it, unless a checkpoint
    write raises: the task then ends with that [OSError], right after
    the checkpoint call of the batch it was taking. *)
Theorem checkpoints_follow_queue_order (fmt : record -> string)
    (queue : list consumer.delivery) :
  forall (self : Consumer) w wr,
  (forall log, format_log self log = Return (fmt log)) ->
  (forall wr data, consumer.write_error (write wr data) = None
                   /\ consumer.write_stop (write wr data) = false) ->
  Forall (fun d => consumer.stop_of d = false) queue ->
  Program.is_running w = true ->
  exists self' st w' wr' evs taken left,
    consume self queue w wr = (self', st, w', wr')
    /\ queue = (taken ++ left)%list
    /\ trace w' = (trace w ++ evs)%list
    /\ writes_in evs =
         flat_map (fun d => map (fun l => fmt (stamp self l))
                                (consumer.logs_of d)) taken
    /\ checkpoints_in evs =
         flat_map
           (fun d =>
              match consumer.logs_of d with
              | [] => []
              | _ :: _ =>
                  [(consumer.log_type Labels self,
                    extract (last (map (stamp self) (consumer.logs_of d))),
                    consumer.child_account_id Labels self)]
              end) taken
    /\ shutdowns_in evs = []
    /\ ((st = consumer.Waiting /\ left = [])
        \/ (exists e d before w3,
              st = consumer.Failed e
              /\ taken = (before ++ [d])%list
              /\ consumer.logs_of d <> []
              /\ consumer.update_log_checkpoint cfg
                   (consumer.log_type Labels self)
                   (extract (last (map (stamp self) (consumer.logs_of d))))
                   (consumer.child_account_id Labels self) w3 = (Raise e, w')
              /\ is_OSError e = true)).
Proof.
  induction queue as [|d queue IH]; intros self w wr Hfmt Hwr Hstops Hrun.
  - cbn [consumer.consume]. rewrite Hrun.
    eexists _, _, _, _, _, [], []. split; [reflexivity|].
    split; [reflexivity|]. split; [reflexivity|]. repeat split.
    left. now split.
  - cbn [consumer.consume]. rewrite Hrun.
    inversion Hstops as [|d0 q0 Hstop Hstops']; subst.
    match goal with
    | |- context [on_wake self d ?w0 wr] =>
        destruct (on_wake_good self fmt d w0 wr Hfmt Hwr Hstop Hrun)
          as (s1 & r1 & w1 & wr1 & evs1 & Heq & Hs1 & Ht1 & Hw1 & Hsh1 & Hc1
              & Hend)
    end.
    rewrite Heq.
    destruct Hend as [[-> Hr1] | (e & w3 & -> & Hne & Hu & Hos)].
    + assert (Hsame : (forall log, format_log s1 log = Return (fmt log))
                      /\ consumer.log_type Labels s1 =
                         consumer.log_type Labels self
                      /\ consumer.child_account_id Labels s1 =
                         consumer.child_account_id Labels self
                      /\ stamp s1 = stamp self).
      { destruct Hs1 as [->|[o ->]]; repeat split; exact Hfmt. }
      destruct Hsame as (Hfmt1 & Hlt & Hch & Hst).
      destruct (IH s1 w1 wr1 Hfmt1 Hwr Hstops' Hr1) as
        (s2 & st & w2 & wr2 & evs2 & taken & left & Heq2 & Hq & Ht2 & Hw2
         & Hc2 & Hsh2 & Hend2).
      rewrite Heq2. rewrite Hlt, Hch, Hst in *.
      eexists _, _, _, _, _, (d :: taken), left. split; [reflexivity|].
      split; [rewrite Hq; reflexivity|]. split.
      { rewrite Ht2, Ht1. simpl. rewrite <- !app_assoc. reflexivity. }
      simpl. rewrite !writes_in_app, !checkpoints_in_app, !shutdowns_in_app.
      rewrite Hw1, Hw2, Hc1, Hc2, Hsh1, Hsh2.
      split; [reflexivity|]. split; [reflexivity|]. split; [reflexivity|].
      destruct Hend2 as [[-> ->] | (e & d' & before & w3 & -> & -> & Hne & Hu
                                    & Hos)].
      * left. now split.
      * right. exists e, d', (d :: before), w3. now repeat split.
    + eexists _, _, _, _, _, [d], queue. split; [reflexivity|].
      split; [reflexivity|]. split.
      { rewrite Ht1. simpl. rewrite <- !app_assoc. reflexivity. }
      simpl. rewrite Hw1, Hc1, Hsh1, ?app_nil_r.
      split; [reflexivity|]. split; [reflexivity|]. split; [reflexivity|].
      right. exists e, d, [], w3. now repeat split.
Qed.


(** What one [try] statement does to the running flag. *)
Lemma write_batch_shutdown (self : Consumer) (logs : list record) w wr
    self' r w' wr' :
  write_batch self logs w wr = (self', r, w', wr') ->
  exists evs,
    trace w' = (trace w ++ evs)%list
    /\ (length (shutdowns_in evs) <= 1)%nat
    /\ (shutdowns_in evs <> [] -> running w' = false)
    /\ (running w = false -> running w' = false).
Proof.
  unfold consumer.write_batch.
  set (w0 := Program.log _ _ w).
  destruct (write_logs self logs None w0 wr) as [[[lw r0] w1] wr1] eqn:Hwl.
  pose proof (write_logs_running self logs _ _ _ _ _ _ _ Hwl) as Hmono.
  apply write_logs_spec in Hwl as (_ & evs0 & Htr & _ & Hs & _).
  set (handled := match r0 with inl e => _ | inr _ => _ end).
  destruct handled as [r1 w2] eqn:Hh.
  set (w3 := if (match r0 with inl _ => false | inr _ => true end)
             then _ else _).
  match goal with
  | |- context [consumer.update_log_checkpoint cfg ?lt ?o ?c w3] =>
      destruct (update_log_checkpoint_trace cfg lt o c w3) as (m & Hu & Hrn);
      destruct (consumer.update_log_checkpoint cfg lt o c w3) as [c0 w4]
  end.
  cbn [snd] in Hu, Hrn. intros Hres.
  assert (Hw' : w' = w4) by (destruct c0 as [e|[]]; now injection Hres).
  subst w'. clear Hres.
  assert (Hcases :
    (exists e, r0 = inl e /\ is_BrokenPipeError e = true
               /\ w2 = Program.log "DuoLogSync: connection to server was reset"
                         (Some WARNING)
                         (Program.initiate_shutdown (exn_str e) w1))
    \/ w2 = w1).
  { subst handled. destruct r0 as [e|[]].
    - destruct (is_BrokenPipeError e) eqn:Hbp; injection Hh as <- <-; eauto.
    - injection Hh as <- <-; eauto. }
  assert (Htr3 : exists m3 l3, trace w3 = (trace w2 ++ [EvLog m3 l3])%list
                               /\ running w3 = running w2).
  { subst w3. destruct r0; eexists _, _; split; reflexivity. }
  destruct Htr3 as (m3 & l3 & Htr3 & Hr3).
  destruct Hcases as [(e & -> & Hbp & ->) | ->].
  - eexists. split.
    { rewrite Hu, Htr3. simpl. rewrite Htr. subst w0. simpl.
      rewrite <- !app_assoc. reflexivity. }
    rewrite !shutdowns_in_app, Hs. simpl.
    split; [lia|]. split; intros _; now rewrite Hrn, Hr3.
  - eexists. split.
    { rewrite Hu, Htr3, Htr. subst w0. simpl.
      rewrite <- !app_assoc. reflexivity. }
    rewrite !shutdowns_in_app, Hs. simpl.
    split; [lia|]. split; [intros H; now elim H|].
    intros Hr. rewrite Hrn, Hr3. apply Hmono. exact Hr.
Qed.

Lemma on_wake_shutdown (self : Consumer) (d : consumer.delivery) w wr
    self' r w' wr' :
  on_wake self d w wr = (self', r, w', wr') ->
  exists evs,
    trace w' = (trace w ++ evs)%list
    /\ (length (shutdowns_in evs) <= 1)%nat
    /\ (shutdowns_in evs <> [] -> running w' = false).
Proof.
  unfold consumer.on_wake.
  destruct (negb (Program.is_running (interfere (consumer.stop_of d) w))).
  - intros [= <- <- <- <-]. exists []. rewrite app_nil_r.
    simpl. split; [reflexivity|]. split; [lia|]. intros H; now elim H.
  - destruct (consumer.logs_of d) as [|l rest].
    + intros [= <- <- <- <-]. eexists. split.
      { simpl. rewrite <- app_assoc. reflexivity. }
      simpl. split; [lia|]. intros H; now elim H.
    + intros H. apply write_batch_shutdown in H as (evs & Ht & Hl & Hr & _).
      eexists. split.
      { rewrite Ht. simpl. rewrite <- app_assoc. reflexivity. }
      simpl. split; [exact Hl | exact Hr].
Qed.

(** A run of [consume] requests shutdown at most once; once it has, the
    running flag is cleared and the task does not wait on the queue
    again. *)
Theorem consume_requests_shutdown_at_most_once (self : Consumer)
    (queue : list consumer.delivery) :
  forall w wr self' st w' wr',
    consume self queue w wr = (self', st, w', wr') ->
    exists evs,
      trace w' = (trace w ++ evs)%list
      /\ (length (shutdowns_in evs) <= 1)%nat
      /\ (shutdowns_in evs <> [] ->
          Program.is_running w' = false /\ st <> consumer.Waiting).
Proof.
  revert self.
  induction queue as [|d queue IH]; intros self w wr self' st w' wr' H.
  - cbn [consumer.consume] in H.
    destruct (Program.is_running w); injection H as <- <- <- <-;
      eexists; (split; [reflexivity|]); simpl;
      (split; [lia|]); intros Hne; now elim Hne.
  - cbn [consumer.consume] in H.
    destruct (Program.is_running w) eqn:Hrun.
    + destruct (on_wake self d _ wr) as [[[s1 r1] w1] wr1] eqn:Hwake.
      apply on_wake_shutdown in Hwake as (evs1 & Ht1 & Hl1 & Hr1).
      destruct r1 as [e|[]].
      * injection H as <- <- <- <-. eexists. split.
        { rewrite Ht1. simpl. rewrite <- app_assoc. reflexivity. }
        simpl. split; [exact Hl1|]. intros Hne. split; [now apply Hr1|].
        discriminate.
      * destruct (shutdowns_in evs1) as [|x xs] eqn:Hsh.
        -- apply IH in H as (evs2 & Ht2 & Hl2 & Hr2).
           eexists. split.
           { rewrite Ht2, Ht1. simpl. rewrite <- !app_assoc. reflexivity. }
           simpl. rewrite shutdowns_in_app, Hsh. simpl.
           split; [exact Hl2 | exact Hr2].
        -- assert (Hoff : running w1 = false) by (apply Hr1; discriminate).
           destruct queue as [|d2 queue]; cbn [consumer.consume] in H;
             unfold Program.is_running in H; rewrite Hoff in H;
             injection H as <- <- <- <-.
           all: eexists; split;
             [simpl; rewrite Ht1; simpl; rewrite <- !app_assoc; reflexivity|].
           all: simpl; rewrite !shutdowns_in_app; simpl; rewrite app_nil_r.
           all: rewrite Hsh; split; [exact Hl1|].
           all: intros _; split; [exact Hoff | discriminate].
    + injection H as <- <- <- <-. eexists. split; [reflexivity|].
      simpl. split; [lia|]. intros Hne; now elim Hne.
Qed.

(** An exception that is not a [BrokenPipeError] (a
    [ConnectionResetError] of the writer, a [ValueError] or a [KeyError]
    of the formatter) is not handled, at whichever record of the batch
    it is raised: the records before it have been written, the
    checkpoint call is made as usual, with the offset of the last
    record written, no shutdown is requested, the rest of the queue is
    not taken, and the task ends with an exception. That exception is
    the one raised, unless the checkpoint write raises in its turn: the
    exception of the checkpoint write then replaces it. *)
Theorem other_writer_error_ends_the_task (self : Consumer)
    (d : consumer.delivery) (queue : list consumer.delivery)
    (pre : list record) (cur : record) (post : list record)
    (datas : list string) (e : exn) (attempted : list string)
    (wr wr1 wr2 : Writer) w :
  Program.is_running w = true ->
  consumer.stop_of d = false ->
  consumer.logs_of d = (pre ++ cur :: post)%list ->
  consumer.all_written Labels log_to_cef Writer write cfg host smod
    self pre wr datas wr1 ->
  consumer.attempt_fails Labels log_to_cef Writer write cfg host smod
    self cur wr1 e attempted wr2 ->
  is_BrokenPipeError e = false ->
  exists self' e' w' evs w3 c,
    consume self (d :: queue) w wr = (self', consumer.Failed e', w', wr2)
    /\ trace w' = (trace w ++ evs)%list
    /\ writes_in evs = (datas ++ attempted)%list
    /\ formats_in evs = map (stamp self) (pre ++ [cur])
    /\ shutdowns_in evs = []
    /\ checkpoints_in evs =
         [(consumer.log_type Labels self,
           extract (last (map (stamp self) pre)),
           consumer.child_account_id Labels self)]
    /\ consumer.update_log_checkpoint cfg (consumer.log_type Labels self)
         (extract (last (map (stamp self) pre)))
         (consumer.child_account_id Labels self) w3 = (c, w')
    /\ e' = match c with inl raised => raised | inr _ => e end.
Proof.
  intros Hrun Hstop Hlogs Hall Hfail Hbp.
  cbn [consumer.consume]. rewrite Hrun.
  match goal with
  | |- context [on_wake self d ?w0 wr] =>
      assert (Hrun' : Program.is_running
                        (interfere (consumer.stop_of d) w0) = true)
        by (rewrite Hstop; unfold Program.is_running in *; simpl;
            now rewrite Hrun);
      destruct (on_wake_attempt_fails log_to_cef extract write cfg host smod
                  self d w0 wr pre cur post datas wr1 e attempted wr2
                  Hrun' Hlogs Hall Hfail)
        as (r & w' & evs & w3 & c & Heq & Htr & Hws & Hfs & Hs & Hc & Hu & Hr
            & _)
  end.
  rewrite Heq, Hbp in *.
  exists (consumer.set_log_offset Labels
            (extract (last (map (stamp self) pre))) self),
    (match c with inl raised => raised | inr _ => e end), w',
    (EvLog (consumer.log_type Labels self ++ " consumer: waiting for logs")
           (Some INFO) :: evs), w3, c.
  split; [destruct c as [e'|[]]; subst r; reflexivity|].
  split; [rewrite Htr; simpl; rewrite <- app_assoc; reflexivity|].
  simpl. now repeat split.
Qed.

End LoopProperties.

(** ** restless_sleep *)

Lemma interfere_false (w : World) : interfere false w = w.
Proof. destruct w. unfold interfere. simpl. now rewrite andb_true_r. Qed.

Lemma restless_sleep_loop_completes (stop_during : nat -> bool) (n : nat) :
  forall fuel duration slept w,
    (n < fuel)%nat -> Z.to_nat duration = n ->
    Program.is_running w = true ->
    (forall j, (slept < j <= slept + n)%nat -> stop_during j = false) ->
    util_sleep.restless_sleep_loop fuel stop_during duration slept w =
      (Some (inr tt), (slept + n)%nat, w).
Proof.
  induction n as [|n IH]; intros fuel duration slept w Hfuel Hd Hrun Hstop;
    (destruct fuel as [|fuel]; [lia|]); cbn [util_sleep.restless_sleep_loop].
  - destruct (Z.ltb_spec 0 duration); [lia|]. now rewrite Nat.add_0_r.
  - destruct (Z.ltb_spec 0 duration); [|lia].
    rewrite (Hstop (S slept)) by lia. rewrite interfere_false, Hrun.
    rewrite IH; try lia; try assumption.
    + f_equal. f_equal. lia.
    + intros j Hj. apply Hstop. lia.
Qed.

Lemma restless_sleep_loop_interrupted (stop_during : nat -> bool) (m : nat) :
  forall fuel duration slept w,
    (m < fuel)%nat -> Z.of_nat m < duration ->
    Program.is_running w = true ->
    (forall j, (slept < j <= slept + m)%nat -> stop_during j = false) ->
    stop_during (S (slept + m)) = true ->
    util_sleep.restless_sleep_loop fuel stop_during duration slept w =
      (Some (inl util_sleep.ProgramShutdownError), S (slept + m),
       interfere true w).
Proof.
  induction m as [|m IH]; intros fuel duration slept w Hfuel Hd Hrun Hstop Hk;
    (destruct fuel as [|fuel]; [lia|]); cbn [util_sleep.restless_sleep_loop];
    (destruct (Z.ltb_spec 0 duration); [|lia]).
  - rewrite Nat.add_0_r in Hk. rewrite Hk.
    unfold Program.is_running, interfere. simpl.
    now rewrite andb_false_r, Nat.add_0_r.
  - rewrite (Hstop (S slept)) by lia. rewrite interfere_false, Hrun.
    rewrite IH; try lia; try assumption.
    + f_equal. f_equal. lia.
    + intros j Hj. apply Hstop. lia.
    + replace (S (S slept + m)) with (S (slept + S m)) by lia. exact Hk.
Qed.

(** While the program keeps running, [restless_sleep] sleeps one second
    exactly [duration] times and returns, leaving the world as it was;
    for a duration of zero or less it returns at once, without sleeping
    and without looking at the running flag. *)
Theorem restless_sleep_sleeps_whole_duration (stop_during : nat -> bool)
    (duration : Z) (w : World) :
  (0 < duration -> Program.is_running w = true) ->
  (forall j, (1 <= j <= Z.to_nat duration)%nat -> stop_during j = false) ->
  util_sleep.restless_sleep stop_during duration w =
    (Some (inr tt), Z.to_nat duration, w).
Proof.
  intros Hrun Hstop. unfold util_sleep.restless_sleep.
  destruct (Z.ltb_spec 0 duration) as [Hpos|Hneg].
  - apply (restless_sleep_loop_completes stop_during (Z.to_nat duration));
      auto; lia.
  - cbn [util_sleep.restless_sleep_loop].
    destruct (Z.ltb_spec 0 duration); [lia|].
    now replace (Z.to_nat duration) with O by lia.
Qed.

(** A poll delay of two minutes with no shutdown. *)
Lemma restless_sleep_sleeps_whole_duration_witness :
  util_sleep.restless_sleep (fun _ => false) 120 demo.world0 =
    (Some (inr tt), 120%nat, demo.world0).
Proof.
  apply (restless_sleep_sleeps_whole_duration (fun _ => false) 120
           demo.world0); reflexivity.
Defined.

(** When shutdown is requested during the [k]-th second of the sleep,
    [restless_sleep] raises [ProgramShutdownError] at the end of that
    second: it has slept [k] times, not [duration]. *)
Theorem restless_sleep_notices_shutdown (stop_during : nat -> bool)
    (duration : Z) (k : nat) (w : World) :
  Program.is_running w = true ->
  (1 <= k)%nat -> Z.of_nat k <= duration ->
  (forall j, (1 <= j < k)%nat -> stop_during j = false) ->
  stop_during k = true ->
  util_sleep.restless_sleep stop_during duration w =
    (Some (inl util_sleep.ProgramShutdownError), k, interfere true w).
Proof.
  intros Hrun Hk Hd Hbefore Hstop. unfold util_sleep.restless_sleep.
  destruct k as [|m]; [lia|].
  apply (restless_sleep_loop_interrupted stop_during m); auto; try lia.
  intros j Hj. apply Hbefore. lia.
Qed.

(** A shutdown during the third second of a two-minute sleep. *)
Lemma restless_sleep_notices_shutdown_witness :
  util_sleep.restless_sleep (fun j => Nat.eqb j 3) 120 demo.world0 =
    (Some (inl util_sleep.ProgramShutdownError), 3%nat,
     interfere true demo.world0).
Proof.
  apply (restless_sleep_notices_shutdown (fun j => Nat.eqb j 3) 120 3
           demo.world0); try reflexivity; try lia.
  intros j Hj. apply Nat.eqb_neq. lia.
Defined.

(** ** normalize_params *)

Section NormalizeParams.

Import util_params.

Lemma pykey_eqb_eq (a b : pykey) : pykey_eqb a b = true <-> a = b.
Proof.
  destruct a, b; simpl; try (split; [discriminate | intros [=]]);
    try tauto.
  - rewrite String.eqb_eq. split; [now intros -> | now intros [= ->]].
  - rewrite String.eqb_eq. split; [now intros -> | now intros [= ->]].
  - rewrite Z.eqb_eq. split; [now intros -> | now intros [= ->]].
Qed.

Lemma pydict_set_fresh key v d :
  ~ In key (map fst d) -> pydict_set key v d = (d ++ [(key, v)])%list.
Proof.
  induction d as [|[k w] d IH]; simpl; [reflexivity|].
  intros Hn. destruct (pykey_eqb k key) eqn:E.
  - apply pykey_eqb_eq in E. tauto.
  - rewrite IH by tauto. reflexivity.
Qed.

Lemma pydict_set_in key v d x :
  In x (map fst (pydict_set key v d)) <-> x = key \/ In x (map fst d).
Proof.
  induction d as [|[k w] d IH]; simpl; [intuition congruence|].
  destruct (pykey_eqb k key) eqn:E; simpl.
  - apply pykey_eqb_eq in E as ->. intuition congruence.
  - rewrite IH. intuition congruence.
Qed.

Lemma pydict_set_nodup key v d :
  List.NoDup (map fst d) -> List.NoDup (map fst (pydict_set key v d)).
Proof.
  induction d as [|[k w] d IH]; simpl; intros Hnd.
  - constructor; [intros [] | constructor].
  - inversion Hnd as [|k0 l0 Hnin Hnd']; subst.
    destruct (pykey_eqb k key) eqn:E; simpl.
    + now constructor.
    + constructor; [|now apply IH].
      rewrite pydict_set_in. intros [->|Hin]; [|contradiction].
      assert (pykey_eqb key key = true) by now apply pykey_eqb_eq.
      congruence.
Qed.

Lemma dict_of_acc (pairs acc : list (pykey * pyval)) :
  List.NoDup (map fst (acc ++ pairs)) ->
  fold_left (fun d kv => pydict_set (fst kv) (snd kv) d) pairs acc =
    (acc ++ pairs)%list.
Proof.
  revert acc. induction pairs as [|[k v] pairs IH]; intros acc Hnd; simpl.
  - now rewrite app_nil_r.
  - rewrite pydict_set_fresh.
    + rewrite IH; rewrite <- app_assoc; [reflexivity | exact Hnd].
    + rewrite map_app in Hnd. simpl in Hnd.
      apply List.NoDup_remove_2 in Hnd. intros Hin. apply Hnd.
      apply in_or_app. now left.
Qed.

Lemma dict_of_nodup (pairs : list (pykey * pyval)) :
  List.NoDup (map fst (dict_of pairs)).
Proof.
  unfold dict_of.
  assert (H : forall acc, List.NoDup (map fst acc) ->
            List.NoDup (map fst (fold_left
              (fun d kv => pydict_set (fst kv) (snd kv) d) pairs acc))).
  { induction pairs as [|[k v] pairs IH]; intros acc Hacc; simpl;
      [exact Hacc|]. apply IH. now apply pydict_set_nodup. }
  apply H. constructor.
Qed.

(** An entry of the built dictionary comes from one of the pairs. *)
Lemma pydict_set_forall (P : pykey * pyval -> Prop) key v d :
  P (key, v) -> (forall k w w', P (k, w) -> P (key, w') -> k = key -> P (k, w'))
  -> Forall P d -> Forall P (pydict_set key v d).
Proof.
  intros Hkv Hrep Hd. induction Hd as [|[k w] d Hx Hd IH]; simpl.
  - now repeat constructor.
  - destruct (pykey_eqb k key) eqn:E.
    + apply pykey_eqb_eq in E. constructor; [|exact Hd].
      eapply Hrep; eauto.
    + constructor; assumption.
Qed.

Lemma encode_value_not_str (x : pyval) :
  match encode_value x with PStr _ => false | _ => true end = true.
Proof. now destruct x. Qed.

Lemma encode_value_fixed (items : list pyval) :
  forallb (fun x => match x with PStr _ => false | _ => true end) items = true
  -> map encode_value items = items.
Proof.
  induction items as [|x items IH]; simpl; [reflexivity|].
  intros H. apply andb_true_iff in H as [Hx Hi].
  rewrite IH by assumption. now destruct x.
Qed.

Lemma normalized_pairs_encoded (params pairs : list (pykey * pyval)) :
  normalized_pairs params = Return pairs -> Forall entry_encoded pairs.
Proof.
  revert pairs. induction params as [|[k v] params IH]; simpl; intros pairs.
  - intros [= <-]. constructor.
  - destruct (iterate (to_list v)) as [e|items]; [discriminate|].
    destruct (normalized_pairs params) as [e|ps]; [discriminate|].
    intros [= <-]. constructor; [|now apply IH].
    split; simpl; [now destruct k|].
    induction items as [|x items IHi]; simpl; [reflexivity|].
    now rewrite encode_value_not_str, IHi.
Qed.

Lemma dict_of_encoded (pairs : list (pykey * pyval)) :
  Forall entry_encoded pairs -> Forall entry_encoded (dict_of pairs).
Proof.
  unfold dict_of.
  assert (H : forall acc, Forall entry_encoded acc ->
            Forall entry_encoded pairs ->
            Forall entry_encoded (fold_left
              (fun d kv => pydict_set (fst kv) (snd kv) d) pairs acc)).
  { induction pairs as [|[k v] pairs IH]; intros acc Hacc Hp; simpl;
      [exact Hacc|].
    inversion Hp as [|x l Hx Hl]; subst. apply IH; [|exact Hl].
    apply pydict_set_forall; [exact Hx | | exact Hacc].
    intros k0 w w' [Hk _] [_ Hw] _. now split. }
  intros Hp. apply H; [constructor | exact Hp].
Qed.

Lemma normalize_params_result (params result : list (pykey * pyval)) :
  normalize_params params = Return result ->
  Forall entry_encoded result /\ List.NoDup (map fst result).
Proof.
  unfold normalize_params.
  destruct (normalized_pairs params) as [e|pairs] eqn:E; [discriminate|].
  intros [= <-]. split; [|apply dict_of_nodup].
  apply dict_of_encoded. now apply normalized_pairs_encoded in E.
Qed.

(** In what [normalize_params] returns no key is a text string, every
    value is a list, and no item of these lists is a text string: all
    of them have been encoded. No key occurs twice. *)
Theorem normalize_params_encodes_everything
    (params result : list (pykey * pyval)) :
  normalize_params params = Return result ->
  Forall (fun kv => encoded_key (fst kv) = true
                    /\ encoded_value (snd kv) = true) result
  /\ List.NoDup (map fst result).
Proof.
  intros H. apply normalize_params_result in H as [Henc Hnd].
  split; [|exact Hnd].
  induction Henc as [|kv l [Hk Hv] Hl IH]; constructor; [now split|].
  apply IH. now inversion Hnd.
Qed.

Lemma normalized_pairs_fixed (q : list (pykey * pyval)) :
  Forall entry_encoded q -> normalized_pairs q = Return q.
Proof.
  induction 1 as [|[k v] q [Hk Hv] Hq IH]; simpl; [reflexivity|].
  simpl in Hk, Hv. destruct v as [ | | | |items]; try discriminate.
  simpl. rewrite IH, encode_value_fixed by exact Hv.
  now destruct k.
Qed.

(** Normalizing twice is the same as normalizing once. *)
Theorem normalize_params_idempotent (params result : list (pykey * pyval)) :
  normalize_params params = Return result ->
  normalize_params result = Return result.
Proof.
  intros H. apply normalize_params_result in H as [Henc Hnd].
  unfold normalize_params. rewrite normalized_pairs_fixed by exact Henc.
  unfold dict_of. now rewrite (dict_of_acc result []).
Qed.

(** [normalize_params] raises exactly when some value is an integer,
    which cannot be iterated; [None], text, bytes and lists are all
    accepted. *)
Theorem normalize_params_raises_on_int (params : list (pykey * pyval)) :
  (exists e, normalize_params params = Raise e) <->
  Exists (fun kv => exists n, snd kv = PInt n) params.
Proof.
  unfold normalize_params.
  assert (H : (exists e, normalized_pairs params = Raise e) <->
              Exists (fun kv => exists n, snd kv = PInt n) params).
  { induction params as [|[k v] params IH]; simpl.
    - split; [intros [e [=]] | intros Hx; inversion Hx].
    - split.
      + intros [e He]. destruct v as [ |s|b|n|items]; simpl in He;
          try (left; simpl; eauto; fail); right; apply IH;
          destruct (normalized_pairs params); try discriminate; eauto.
      + intros Hx. inversion Hx as [x l [n Hn]|x l Hl]; subst.
        * simpl in Hn. subst v. simpl. eauto.
        * apply IH in Hl as [e He]. rewrite He.
          destruct (iterate (to_list v)); eauto. }
  rewrite <- H. destruct (normalized_pairs params) as [e|pairs].
  - split; intros _; eauto.
  - split; intros [e [=]].
Qed.

End NormalizeParams.

(** ** The further properties on the concrete pipeline *)

(** A formatted record of the concrete consumer. *)
Lemma format_log_ends_with_newline_witness :
  exists body, demo.data_of (demo.log_at 100) = body ++ newline.
Proof.
  apply (format_log_ends_with_newline demo.to_cef demo.cfg demo.host
           demo.smod demo.json_consumer (demo.log_at 100)).
  vm_compute. reflexivity.
Defined.

(** The same record with syslog off. *)
Lemma json_line_is_one_printable_line_witness :
  consumer.format_log unit demo.to_cef samples.cfg_plain demo.host demo.smod
    demo.json_consumer (demo.log_at 100) =
    Return (json_dumps (JObj (demo.log_at 100)) ++ newline)
  /\ string_forall is_printable (json_dumps (JObj (demo.log_at 100))) = true.
Proof.
  apply (json_line_is_one_printable_line demo.to_cef samples.cfg_plain
           demo.host demo.smod demo.json_consumer (demo.log_at 100));
    [discriminate | reflexivity | reflexivity].
Defined.

(** A record without a timestamp, with syslog on. *)
Lemma syslog_needs_integer_timestamp_witness :
  demo.format_log demo.json_consumer samples.undated_log =
    Raise (KeyError "timestamp").
Proof.
  refine (proj1 (syslog_needs_integer_timestamp demo.to_cef demo.cfg
                   demo.host demo.smod demo.json_consumer
                   samples.undated_log _ _ _) _);
    [discriminate | reflexivity | reflexivity | reflexivity].
Defined.

(** The line of a record stamped 2024-01-02T03:04:05Z. *)
Lemma syslog_line_layout_witness :
  demo.format_log demo.json_consumer (demo.log_at 1704164645) =
    Return (encode ("<38>1 " ++
                    isoformat_milliseconds (mk_datetime 2024 1 2 3 4 5 0 utc)
                    ++ " " ++ "siem01" ++ " " ++
                    json_dumps (JObj (demo.log_at 1704164645))) ++ newline).
Proof.
  refine (proj1 (syslog_line_layout demo.to_cef demo.cfg demo.host demo.smod
                   demo.json_consumer (demo.log_at 1704164645) 1704164645
                   (mk_datetime 2024 1 2 3 4 5 0 utc) _ _ _ _ _ _));
    [discriminate | reflexivity | reflexivity | reflexivity | reflexivity
    | vm_compute; reflexivity].
Defined.

(** A record that came with another child account id. *)
Lemma stamp_sets_child_account_witness :
  dict_get "child_account_id"
    (consumer.stamp unit samples.child_consumer
       [("child_account_id", JStr "DA99"); ("username", JStr "alice")]) =
  Some (JStr "DA42").
Proof.
  refine (proj1 (proj1 (stamp_sets_child_account samples.child_consumer
                          [("child_account_id", JStr "DA99");
                           ("username", JStr "alice")])
                   "DA42" eq_refl _)).
  discriminate.
Defined.

(** The offset of the auth stream, saved and read back. *)
Lemma checkpoint_round_trip_any_offset_witness :
  util.get_log_offset demo.cfg "auth" true "/var/dls" None
    samples.saved_auth_world =
  (Return samples.auth_offset, samples.saved_auth_world).
Proof.
  apply (checkpoint_round_trip_any_offset demo.cfg "auth" samples.auth_offset
           None demo.world0 samples.saved_auth_world).
  - simpl. tauto.
  - vm_compute. reflexivity.
Defined.

(** The run whose second write breaks has returned: the program is no
    longer running. *)
Lemma consume_returns_only_after_shutdown_witness :
  Program.is_running
    (demo.consume 2 demo.json_consumer [demo.broken_batch] demo.world0
                  0%nat).1.2 = false.
Proof.
  refine (proj1 (consume_returns_only_after_shutdown demo.to_cef demo.extract
                   (demo.writer_failing_at 2) demo.cfg demo.host demo.smod
                   demo.json_consumer [demo.broken_batch] demo.world0 0%nat
                   (demo.consume 2 demo.json_consumer [demo.broken_batch]
                      demo.world0 0%nat).1.1.1
                   consumer.Terminated
                   (demo.consume 2 demo.json_consumer [demo.broken_batch]
                      demo.world0 0%nat).1.2
                   (demo.consume 2 demo.json_consumer [demo.broken_batch]
                      demo.world0 0%nat).2 _) eq_refl).
  vm_compute. reflexivity.
Defined.

(** Three batches through a consumer in CEF mode and a writer that
    never breaks, with a checkpoint file that can be written and with a
    checkpoint directory that does not exist. *)
Lemma checkpoints_follow_queue_order_witness :
  (exists self' st w' wr' evs taken left,
     consumer.consume unit demo.to_cef demo.extract nat
       (demo.writer_failing_at 0) demo.cfg demo.host demo.smod
       samples.cef_consumer samples.three_batches demo.world0 0%nat =
       (self', st, w', wr')
     /\ samples.three_batches = (taken ++ left)%list
     /\ trace w' = (trace demo.world0 ++ evs)%list
     /\ writes_in evs =
          flat_map (fun d => map (fun l => samples.cef_line
                                    (consumer.stamp unit samples.cef_consumer l))
                                 (consumer.logs_of d)) taken
     /\ checkpoints_in evs =
          flat_map
            (fun d =>
               match consumer.logs_of d with
               | [] => []
               | _ :: _ =>
                   [("auth",
                     demo.extract
                       (last (map (consumer.stamp unit samples.cef_consumer)
                                  (consumer.logs_of d))),
                     None)]
               end) taken
     /\ shutdowns_in evs = []
     /\ ((st = consumer.Waiting /\ left = [])
         \/ (exists e d before w3,
               st = consumer.Failed e
               /\ taken = (before ++ [d])%list
               /\ consumer.logs_of d <> []
               /\ consumer.update_log_checkpoint demo.cfg "auth"
                    (demo.extract
                       (last (map (consumer.stamp unit samples.cef_consumer)
                                  (consumer.logs_of d))))
                    None w3 = (Raise e, w')
               /\ is_OSError e = true)))
  /\ (exists self' st w' wr' evs taken left,
        consumer.consume unit demo.to_cef demo.extract nat
          (demo.writer_failing_at 0) demo.cfg demo.host demo.smod
          samples.cef_consumer samples.three_batches
          samples.no_checkpoint_dir 0%nat = (self', st, w', wr')
        /\ samples.three_batches = (taken ++ left)%list
        /\ trace w' = (trace samples.no_checkpoint_dir ++ evs)%list
        /\ writes_in evs =
             flat_map (fun d => map (fun l => samples.cef_line
                                       (consumer.stamp unit samples.cef_consumer l))
                                    (consumer.logs_of d)) taken
        /\ checkpoints_in evs =
             flat_map
               (fun d =>
                  match consumer.logs_of d with
                  | [] => []
                  | _ :: _ =>
                      [("auth",
                        demo.extract
                          (last (map (consumer.stamp unit samples.cef_consumer)
                                     (consumer.logs_of d))),
                        None)]
                  end) taken
        /\ shutdowns_in evs = []
        /\ ((st = consumer.Waiting /\ left = [])
            \/ (exists e d before w3,
                  st = consumer.Failed e
                  /\ taken = (before ++ [d])%list
                  /\ consumer.logs_of d <> []
                  /\ consumer.update_log_checkpoint demo.cfg "auth"
                       (demo.extract
                          (last (map (consumer.stamp unit samples.cef_consumer)
                                     (consumer.logs_of d))))
                       None w3 = (Raise e, w')
                  /\ is_OSError e = true))).
Proof.
  split.
  - apply (checkpoints_follow_queue_order demo.to_cef demo.extract
             (demo.writer_failing_at 0) demo.cfg demo.host demo.smod
             samples.cef_line samples.three_batches samples.cef_consumer
             demo.world0 0%nat).
    + intros log. reflexivity.
    + intros wr data. split; reflexivity.
    + repeat constructor.
    + reflexivity.
  - apply (checkpoints_follow_queue_order demo.to_cef demo.extract
             (demo.writer_failing_at 0) demo.cfg demo.host demo.smod
             samples.cef_line samples.three_batches samples.cef_consumer
             samples.no_checkpoint_dir 0%nat).
    + intros log. reflexivity.
    + intros wr data. split; reflexivity.
    + repeat constructor.
    + reflexivity.
Defined.

(** The run whose second write breaks, with one more batch queued. *)
Lemma consume_requests_shutdown_at_most_once_witness :
  exists evs,
    trace (demo.consume 2 demo.json_consumer
             [demo.broken_batch; demo.xml_batch] demo.world0 0%nat).1.2 =
      (trace demo.world0 ++ evs)%list
    /\ (length (shutdowns_in evs) <= 1)%nat
    /\ (shutdowns_in evs <> [] ->
        Program.is_running
          (demo.consume 2 demo.json_consumer
             [demo.broken_batch; demo.xml_batch] demo.world0 0%nat).1.2
          = false
        /\ (demo.consume 2 demo.json_consumer
              [demo.broken_batch; demo.xml_batch] demo.world0 0%nat).1.1.2
           <> consumer.Waiting).
Proof.
  apply (consume_requests_shutdown_at_most_once demo.to_cef demo.extract
           (demo.writer_failing_at 2) demo.cfg demo.host demo.smod
           demo.json_consumer [demo.broken_batch; demo.xml_batch]
           demo.world0 0%nat
           (demo.consume 2 demo.json_consumer
              [demo.broken_batch; demo.xml_batch] demo.world0 0%nat).1.1.1
           (demo.consume 2 demo.json_consumer
              [demo.broken_batch; demo.xml_batch] demo.world0 0%nat).1.1.2
           (demo.consume 2 demo.json_consumer
              [demo.broken_batch; demo.xml_batch] demo.world0 0%nat).1.2
           (demo.consume 2 demo.json_consumer
              [demo.broken_batch; demo.xml_batch] demo.world0 0%nat).2).
  vm_compute. reflexivity.
Defined.

(** A connection reset by the peer on the second write, with one more
    batch queued. *)
Lemma other_writer_error_ends_the_task_witness :
  exists self' e' w' evs w3 c,
    consumer.consume unit demo.to_cef demo.extract nat
      (demo.writer_reset_at 2) demo.cfg demo.host demo.smod
      demo.json_consumer [demo.broken_batch; demo.xml_batch]
      demo.world0 0%nat = (self', consumer.Failed e', w', 2%nat)
    /\ trace w' = (trace demo.world0 ++ evs)%list
    /\ writes_in evs =
         ([demo.data_of (demo.log_at 100)] ++
          [demo.data_of (demo.log_at 200)])%list
    /\ formats_in evs =
         map (consumer.stamp unit demo.json_consumer)
             ([demo.log_at 100] ++ [demo.log_at 200])
    /\ shutdowns_in evs = []
    /\ checkpoints_in evs =
         [("auth",
           demo.extract
             (last (map (consumer.stamp unit demo.json_consumer)
                        [demo.log_at 100])), None)]
    /\ consumer.update_log_checkpoint demo.cfg "auth"
         (demo.extract
            (last (map (consumer.stamp unit demo.json_consumer)
                       [demo.log_at 100]))) None w3 = (c, w')
    /\ e' = match c with
            | inl raised => raised
            | inr _ =>
                ConnectionResetError "[Errno 104] Connection reset by peer"
            end.
Proof.
  apply (other_writer_error_ends_the_task demo.to_cef demo.extract
           (demo.writer_reset_at 2) demo.cfg demo.host demo.smod
           demo.json_consumer demo.broken_batch [demo.xml_batch]
           [demo.log_at 100] (demo.log_at 200) []
           [demo.data_of (demo.log_at 100)]
           (ConnectionResetError "[Errno 104] Connection reset by peer")
           [demo.data_of (demo.log_at 200)] 0%nat 1%nat 2%nat demo.world0).
  - reflexivity.
  - reflexivity.
  - reflexivity.
  - vm_compute. repeat split.
  - vm_compute. repeat split.
  - reflexivity.
Defined.

(** The parameters of an API call, normalized, and normalized again. *)
Lemma normalize_params_encodes_everything_witness :
  Forall (fun kv => util_params.encoded_key (fst kv) = true
                    /\ util_params.encoded_value (snd kv) = true)
         samples.api_params_normalized
  /\ List.NoDup (map fst samples.api_params_normalized).
Proof.
  apply (normalize_params_encodes_everything samples.api_params
           samples.api_params_normalized).
  vm_compute. reflexivity.
Defined.

Lemma normalize_params_idempotent_witness :
  util_params.normalize_params samples.api_params =
    Return samples.api_params_normalized
  /\ util_params.normalize_params samples.api_params_normalized =
    Return samples.api_params_normalized.
Proof.
  assert (H : util_params.normalize_params samples.api_params =
              Return samples.api_params_normalized)
    by (vm_compute; reflexivity).
  split; [exact H|].
  exact (normalize_params_idempotent samples.api_params
           samples.api_params_normalized H).
Defined.
